(** * Issue Templates for Jira: template assignment and uniqueness engine

    A shallow embedding of the Forge resolvers of the repository
    ([template.js], [templateassign.js], [applytemplate.js],
    [globalpage.js]) and the properties of their specification.

    Conventions of the embedding.
    - Identifiers, project keys, issue types and account ids are JavaScript
      strings that the code only compares and tests for emptiness: they are
      [string].  Free text (name, summary, content) is trimmed by the code,
      so it is a sequence of UTF-16 code units, [text].
    - The Forge key-value storage holds three kinds of values under
      disjoint keys (the index key, the configuration key and one key per
      template, a fixed prefix followed by the id): the store is a record
      with one typed component per kind, the templates being a finite map
      from id to record.
    - A resolver runs in a state-and-exception monad over the world (the
      store and the clock read by [nowIso]).  A thrown [Error] keeps the
      writes made before it, as the storage does.
    - What the resolvers receive from outside (the generated id, the answer
      of Jira's permission endpoint) is part of the request.
    - The [try]/[catch] wrappers of [template.js] and [globalpage.js]
      rethrow an error with the message they caught, so a resolver is
      modelled by its body; logging is left out. *)

From Stdlib Require Import NArith.
From stdpp Require Import gmap strings list fin_maps.

Local Open Scope string_scope.
Local Open Scope list_scope.

(** ** JavaScript strings and values *)

Module JS.

(** A string that the code trims: UTF-16 code units. *)
Definition text := list N.

(** ASCII literals as [text]. *)
Definition lit (s : string) : text :=
  (λ c, Ascii.N_of_ascii c) <$> String.list_ascii_of_string s.

(** The code units removed by [String.prototype.trim]: ECMAScript
    WhiteSpace and LineTerminator. *)
Definition is_whitespace (c : N) : bool :=
  ((9 <=? c) && (c <=? 13) || (c =? 32) || (c =? 160) || (c =? 5760)
   || (8192 <=? c) && (c <=? 8202) || (c =? 8232) || (c =? 8233)
   || (c =? 8239) || (c =? 8287) || (c =? 12288) || (c =? 65279))%N.

Fixpoint trimStart (s : text) : text :=
  match s with
  | c :: s' => if is_whitespace c then trimStart s' else s
  | [] => []
  end.

Definition trimEnd (s : text) : text := reverse (trimStart (reverse s)).

(** [s.trim()] *)
Definition trim (s : text) : text := trimEnd (trimStart s).

(** Truthiness of a string: non-empty. *)
Definition truthy_text (s : text) : bool :=
  match s with [] => false | _ => true end.

Definition truthy_string (s : string) : bool :=
  match s with EmptyString => false | _ => true end.

(** Truthiness of an optional boolean field ([undefined] is falsy). *)
Definition truthy_flag (b : option bool) : bool := default false b.

(** A payload field that the code tests with [Array.isArray] and with
    [!== undefined]: absent, an array of strings, or any other value. *)
Inductive arg :=
| Absent
| NotArray
| Array (l : list string).

Definition isArray (a : arg) : bool :=
  match a with Array _ => true | _ => false end.

(** An object field that holds an array when it is present. *)
Definition of_field (f : option (list string)) : arg :=
  match f with Some l => Array l | None => Absent end.

(** [Array.isArray(x) ? x : []] *)
Definition array_or_empty (a : arg) : list string :=
  match a with Array l => l | _ => [] end.

(** [l.includes(x)] on strings. *)
Definition includes (l : list string) (x : string) : bool :=
  bool_decide (x ∈ l).

End JS.

Import JS.

(** ** Data model *)

(** The record stored under a template key.  Fields that some code path
    leaves out are optional; [meta] is opaque to every operation here and
    is left out. *)
Record Template := mkTemplate {
  tpl_id : string;
  tpl_name : text;
  tpl_summary : text;
  tpl_content : text;
  tpl_projects : list string;
  tpl_assignedProjects : option (list string);
  tpl_assignedIssueTypes : option (list string);
  tpl_active : option bool;
  tpl_deleted : option bool;
  tpl_owner : option string;
  tpl_createdAt : nat;
  tpl_updatedAt : nat
}.

Definition set_active (b : bool) (t : Template) : Template :=
  mkTemplate (tpl_id t) (tpl_name t) (tpl_summary t) (tpl_content t)
    (tpl_projects t) (tpl_assignedProjects t) (tpl_assignedIssueTypes t)
    (Some b) (tpl_deleted t) (tpl_owner t) (tpl_createdAt t) (tpl_updatedAt t).

Definition set_deleted (b : bool) (t : Template) : Template :=
  mkTemplate (tpl_id t) (tpl_name t) (tpl_summary t) (tpl_content t)
    (tpl_projects t) (tpl_assignedProjects t) (tpl_assignedIssueTypes t)
    (tpl_active t) (Some b) (tpl_owner t) (tpl_createdAt t) (tpl_updatedAt t).

Definition set_updatedAt (n : nat) (t : Template) : Template :=
  mkTemplate (tpl_id t) (tpl_name t) (tpl_summary t) (tpl_content t)
    (tpl_projects t) (tpl_assignedProjects t) (tpl_assignedIssueTypes t)
    (tpl_active t) (tpl_deleted t) (tpl_owner t) (tpl_createdAt t) n.

Definition set_assignedProjects (l : list string) (t : Template) : Template :=
  mkTemplate (tpl_id t) (tpl_name t) (tpl_summary t) (tpl_content t)
    (tpl_projects t) (Some l) (tpl_assignedIssueTypes t)
    (tpl_active t) (tpl_deleted t) (tpl_owner t) (tpl_createdAt t) (tpl_updatedAt t).

Definition set_assignedIssueTypes (l : list string) (t : Template) : Template :=
  mkTemplate (tpl_id t) (tpl_name t) (tpl_summary t) (tpl_content t)
    (tpl_projects t) (tpl_assignedProjects t) (Some l)
    (tpl_active t) (tpl_deleted t) (tpl_owner t) (tpl_createdAt t) (tpl_updatedAt t).

Definition set_name (s : text) (t : Template) : Template :=
  mkTemplate (tpl_id t) s (tpl_summary t) (tpl_content t)
    (tpl_projects t) (tpl_assignedProjects t) (tpl_assignedIssueTypes t)
    (tpl_active t) (tpl_deleted t) (tpl_owner t) (tpl_createdAt t) (tpl_updatedAt t).

Definition set_summary (s : text) (t : Template) : Template :=
  mkTemplate (tpl_id t) (tpl_name t) s (tpl_content t)
    (tpl_projects t) (tpl_assignedProjects t) (tpl_assignedIssueTypes t)
    (tpl_active t) (tpl_deleted t) (tpl_owner t) (tpl_createdAt t) (tpl_updatedAt t).

Definition set_content (s : text) (t : Template) : Template :=
  mkTemplate (tpl_id t) (tpl_name t) (tpl_summary t) s
    (tpl_projects t) (tpl_assignedProjects t) (tpl_assignedIssueTypes t)
    (tpl_active t) (tpl_deleted t) (tpl_owner t) (tpl_createdAt t) (tpl_updatedAt t).

(** Global configuration, [{ allowAllUsers, admins }]. *)
Record Config := mkConfig {
  allowAllUsers : bool;
  admins : list string
}.

(** [req.context.user] *)
Record User := mkUser {
  accountId : string;
  isProductAdmin : bool;
  isAdmin : bool
}.

(** The storage: the index (an absent index reads as the empty array), the
    template records by id, and the configuration when one was written. *)
Record Store := mkStore {
  st_index : list string;
  st_templates : gmap string Template;
  st_config : option Config
}.

Record World := mkWorld {
  w_store : Store;
  w_clock : nat
}.

(** ** Errors *)

(** One constructor per message thrown by the resolvers. *)
Inductive Error :=
| TemplateIdRequired
| ProjectsMustBeArray
| IssueTypesMustBeArray
| TemplateNotFound
| NotAuthorizedAssignProjects
| NotAuthorizedAssignIssueTypes
| NotAuthorizedUpdate
| NotAuthorizedDelete
| NotAuthorizedCreate
| NameRequired
| ProjectKeyRequired.

Definition message (e : Error) : string :=
  match e with
  | TemplateIdRequired => "Template id is required"
  | ProjectsMustBeArray => "`projects` must be an array"
  | IssueTypesMustBeArray => "`issueTypes` must be an array"
  | TemplateNotFound => "Template not found"
  | NotAuthorizedAssignProjects => "Not authorized to assign template to projects"
  | NotAuthorizedAssignIssueTypes => "Not authorized to assign template to issue types"
  | NotAuthorizedUpdate => "Not authorized to update template"
  | NotAuthorizedDelete => "Not authorized to delete template"
  | NotAuthorizedCreate => "Not authorized to create templates"
  | NameRequired => "`name` is required and must be a non-empty string"
  | ProjectKeyRequired => "projectKey is required"
  end.

(** The taxonomy of the specification. *)
Inductive Condition := Validation | NotFound | Authorization.

Definition condition (e : Error) : Condition :=
  match e with
  | TemplateIdRequired | ProjectsMustBeArray | IssueTypesMustBeArray
  | NameRequired | ProjectKeyRequired => Validation
  | TemplateNotFound => NotFound
  | NotAuthorizedAssignProjects | NotAuthorizedAssignIssueTypes
  | NotAuthorizedUpdate | NotAuthorizedDelete | NotAuthorizedCreate => Authorization
  end.

(** ** The resolver monad *)

Inductive result (A : Type) :=
| Ok (a : A)
| Throw (e : Error).
Arguments Ok {A} a.
Arguments Throw {A} e.

Definition M (A : Type) : Type := World → result A * World.

Definition ret {A} (a : A) : M A := λ w, (Ok a, w).

Definition bind {A B} (m : M A) (k : A → M B) : M B :=
  λ w, match m w with
       | (Ok a, w') => k a w'
       | (Throw e, w') => (Throw e, w')
       end.

Definition throw {A} (e : Error) : M A := λ w, (Throw e, w).

Notation "'let*' x ':=' m 'in' k" := (bind m (λ x, k))
  (at level 10, x name, m at level 100, k at level 200, only parsing).
Notation "'run' m 'in' k" := (bind m (λ _, k))
  (at level 10, m at level 100, k at level 200, only parsing).

(** [storage.get(templateKey(id))] *)
Definition storage_get (id : string) : M (option Template) :=
  λ w, (Ok (st_templates (w_store w) !! id), w).

(** [storage.set(templateKey(id), t)] *)
Definition storage_set (id : string) (t : Template) : M unit :=
  λ w, (Ok (),
        mkWorld (mkStore (st_index (w_store w))
                         (<[id := t]> (st_templates (w_store w)))
                         (st_config (w_store w)))
                (w_clock w)).

(** [storage.delete(templateKey(id))] *)
Definition storage_delete (id : string) : M unit :=
  λ w, (Ok (),
        mkWorld (mkStore (st_index (w_store w))
                         (delete id (st_templates (w_store w)))
                         (st_config (w_store w)))
                (w_clock w)).

Definition readIndex : M (list string) :=
  λ w, (Ok (st_index (w_store w)), w).

Definition writeIndex (l : list string) : M unit :=
  λ w, (Ok (),
        mkWorld (mkStore l (st_templates (w_store w)) (st_config (w_store w)))
                (w_clock w)).

(** [readGlobalConfig]: the stored configuration over the defaults. *)
Definition readGlobalConfig : M Config :=
  λ w, (Ok (default (mkConfig false []) (st_config (w_store w))), w).

(** [nowIso]: reads the clock, which moves on. *)
Definition nowIso : M nat :=
  λ w, (Ok (w_clock w), mkWorld (w_store w) (S (w_clock w))).

(** ** Scope matcher ([templateassign.js]) *)

(** [setsOverlap(a = [], b = [])]: the default parameters turn an absent
    argument into the empty array. *)
Definition setsOverlap (a b : arg) : bool :=
  let a := match a with Absent => Array [] | _ => a end in
  let b := match b with Absent => Array [] | _ => b end in
  match a, b with
  | Array a, Array b =>
      if bool_decide (length a = 0) && bool_decide (length b = 0) then true
      else if bool_decide (length a = 0) || bool_decide (length b = 0) then true
      else existsb (λ x, includes b x) a
  | _, _ => false
  end.

(** ** Requests and authorization helpers *)

(** A request: its payload, [req.context.user], and what the resolver
    obtains from outside while it runs: the answer of Jira's
    [mypermissions] endpoint for a project key (already reduced to "has a
    project-admin permission"; a failed call answers [false]) and the id
    that [generateId] draws. *)
Record Request (P : Type) := mkRequest {
  payload : P;
  context_user : option User;
  jira_projectAdmin : string → bool;
  generated_id : string
}.
Arguments mkRequest {P} _ _ _ _.
Arguments payload {P} _.
Arguments context_user {P} _.
Arguments jira_projectAdmin {P} _.
Arguments generated_id {P} _.

(** [!id] on an optional string field. *)
Definition truthy_id (id : option string) : bool :=
  match id with Some s => truthy_string s | None => false end.

Definition getRequestUser {P} (req : Request P) : option User :=
  context_user req.

Definition isAdminRequest {P} (req : Request P) : M bool :=
  match getRequestUser req with
  | None => ret false
  | Some user =>
      let* cfg := readGlobalConfig in
      if includes (admins cfg) (accountId user) then ret true
      else if isProductAdmin user || isAdmin user then ret true
      else ret false
  end.

Definition isProjectAdmin {P} (req : Request P) (projectKey : string) : bool :=
  if negb (truthy_string projectKey) then false
  else jira_projectAdmin req projectKey.

(** [user && tpl.owner === user.accountId] *)
Definition isOwner (user : option User) (tpl : Template) : bool :=
  match user with
  | Some u => bool_decide (tpl_owner tpl = Some (accountId u))
  | None => false
  end.

(** ** Assignment and uniqueness engine ([templateassign.js]) *)

(** The loop of [enforceUniqueActiveTemplates] over the index, with the
    array of deactivated ids it pushes to. *)
Fixpoint enforce_loop (template : Template) (idx : list string)
    (deactivated : list string) : M (list string) :=
  match idx with
  | [] => ret deactivated
  | id :: idx' =>
      if bool_decide (id = tpl_id template) then
        enforce_loop template idx' deactivated
      else
        let* other := storage_get id in
        match other with
        | None => enforce_loop template idx' deactivated
        | Some other =>
            if truthy_flag (tpl_deleted other) then
              enforce_loop template idx' deactivated
            else if negb (truthy_flag (tpl_active other)) then
              enforce_loop template idx' deactivated
            else
              let projectsOverlap :=
                setsOverlap (of_field (tpl_assignedProjects template))
                            (of_field (tpl_assignedProjects other)) in
              let issueTypesOverlap :=
                setsOverlap (of_field (tpl_assignedIssueTypes template))
                            (of_field (tpl_assignedIssueTypes other)) in
              if projectsOverlap && issueTypesOverlap then
                let other := set_active false other in
                let* now := nowIso in
                let other := set_updatedAt now other in
                run storage_set id other in
                enforce_loop template idx' (deactivated ++ [id])
              else enforce_loop template idx' deactivated
        end
  end.

Definition enforceUniqueActiveTemplates (template : Template) : M (list string) :=
  if negb (truthy_flag (tpl_active template)) then ret []
  else
    let* idx := readIndex in
    enforce_loop template idx [].

(** Payload of the two assignment resolvers. *)
Record AssignPayload := mkAssignPayload {
  ap_id : option string;
  ap_projects : arg;
  ap_issueTypes : arg
}.

Definition assignTemplateToProjects (req : Request AssignPayload)
    : M (Template * list string) :=
  let id := ap_id (payload req) in
  let projects := ap_projects (payload req) in
  let issueTypes := ap_issueTypes (payload req) in
  if negb (truthy_id id) then throw TemplateIdRequired else
  let id := default "" id in
  if negb (isArray projects) then throw ProjectsMustBeArray else
  let* tpl := storage_get id in
  match tpl with
  | None => throw TemplateNotFound
  | Some tpl =>
      if truthy_flag (tpl_deleted tpl) then throw TemplateNotFound else
      let* cfg := readGlobalConfig in
      let reqUser := getRequestUser req in
      let* isAdmin := isAdminRequest req in
      run (if negb (allowAllUsers cfg) && negb isAdmin then
             if isOwner reqUser tpl then ret ()
             else if forallb (isProjectAdmin req) (array_or_empty projects)
                  then ret ()
                  else throw NotAuthorizedAssignProjects
           else ret ()) in
      let tpl := set_assignedProjects (array_or_empty projects) tpl in
      let tpl := match issueTypes with
                 | Absent => tpl
                 | _ => set_assignedIssueTypes (array_or_empty issueTypes) tpl
                 end in
      let* now := nowIso in
      let tpl := set_updatedAt now tpl in
      run storage_set id tpl in
      let* deactivated :=
        (if truthy_flag (tpl_active tpl) then enforceUniqueActiveTemplates tpl
         else ret []) in
      ret (tpl, deactivated)
  end.

Definition assignTemplateToIssueTypes (req : Request AssignPayload)
    : M (Template * list string) :=
  let id := ap_id (payload req) in
  let issueTypes := ap_issueTypes (payload req) in
  let projects := ap_projects (payload req) in
  if negb (truthy_id id) then throw TemplateIdRequired else
  let id := default "" id in
  if negb (isArray issueTypes) then throw IssueTypesMustBeArray else
  let* tpl := storage_get id in
  match tpl with
  | None => throw TemplateNotFound
  | Some tpl =>
      if truthy_flag (tpl_deleted tpl) then throw TemplateNotFound else
      let* cfg := readGlobalConfig in
      let reqUser := getRequestUser req in
      let* isAdmin := isAdminRequest req in
      run (if negb (allowAllUsers cfg) && negb isAdmin then
             if isOwner reqUser tpl then ret ()
             else throw NotAuthorizedAssignIssueTypes
           else ret ()) in
      let tpl := set_assignedIssueTypes (array_or_empty issueTypes) tpl in
      let tpl := match projects with
                 | Absent => tpl
                 | _ => set_assignedProjects (array_or_empty projects) tpl
                 end in
      let* now := nowIso in
      let tpl := set_updatedAt now tpl in
      run storage_set id tpl in
      let* deactivated :=
        (if truthy_flag (tpl_active tpl) then enforceUniqueActiveTemplates tpl
         else ret []) in
      ret (tpl, deactivated)
  end.

(** Payload of [setTemplateActive]; [Boolean(active)] of an absent field
    is [false]. *)
Record ActivePayload := mkActivePayload {
  sp_id : option string;
  sp_active : option bool
}.

Definition setTemplateActive (req : Request ActivePayload)
    : M (Template * list string) :=
  let id := sp_id (payload req) in
  let active := sp_active (payload req) in
  if negb (truthy_id id) then throw TemplateIdRequired else
  let id := default "" id in
  let* tpl := storage_get id in
  match tpl with
  | None => throw TemplateNotFound
  | Some tpl =>
      if truthy_flag (tpl_deleted tpl) then throw TemplateNotFound else
      let tpl := set_active (truthy_flag active) tpl in
      let* now := nowIso in
      let tpl := set_updatedAt now tpl in
      run storage_set id tpl in
      let* deactivated :=
        (if truthy_flag (tpl_active tpl) then enforceUniqueActiveTemplates tpl
         else ret []) in
      ret (tpl, deactivated)
  end.

(** [getTemplateAssignments]: the two arrays, an absent one read as []. *)
Definition getTemplateAssignments (req : Request (option string))
    : M (list string * list string) :=
  let id := payload req in
  if negb (truthy_id id) then throw TemplateIdRequired else
  let id := default "" id in
  let* tpl := storage_get id in
  match tpl with
  | None => throw TemplateNotFound
  | Some tpl =>
      if truthy_flag (tpl_deleted tpl) then throw TemplateNotFound else
      ret (default [] (tpl_assignedProjects tpl),
           default [] (tpl_assignedIssueTypes tpl))
  end.

(** ** Template records ([template.js]) *)

Record CreatePayload := mkCreatePayload {
  cp_name : option text;
  cp_summary : option text;
  cp_content : option text;
  cp_projects : arg
}.

(** [validateCreatePayload]: the name must be a non-blank string. *)
Definition validateCreatePayload (p : CreatePayload) : M unit :=
  match cp_name p with
  | None => throw NameRequired
  | Some name =>
      if negb (truthy_text name) || bool_decide (length (trim name) = 0)
      then throw NameRequired
      else ret ()
  end.

Definition createTemplate (req : Request CreatePayload) : M Template :=
  let p := payload req in
  run validateCreatePayload p in
  let* cfg := readGlobalConfig in
  let* isAdmin := isAdminRequest req in
  if negb (allowAllUsers cfg) && negb isAdmin then throw NotAuthorizedCreate else
  let id := generated_id req in
  let* now := nowIso in
  let owner :=
    match context_user req with
    | Some u => if truthy_string (accountId u) then Some (accountId u) else None
    | None => None
    end in
  let template :=
    {| tpl_id := id;
       tpl_name := trim (default [] (cp_name p));
       tpl_summary := default [] (cp_summary p);
       tpl_content := default [] (cp_content p);
       tpl_projects := array_or_empty (cp_projects p);
       tpl_assignedProjects := None;
       tpl_assignedIssueTypes := None;
       tpl_active := None;
       tpl_deleted := None;
       tpl_owner := owner;
       tpl_createdAt := now;
       tpl_updatedAt := now |} in
  run storage_set id template in
  let* idx := readIndex in
  run writeIndex (id :: idx) in
  ret template.

(** ** Global page resolvers ([globalpage.js]) *)

Record UpdatePayload := mkUpdatePayload {
  up_id : option string;
  up_name : option text;
  up_summary : option text;
  up_content : option text;
  up_assignedProjects : arg;
  up_assignedIssueTypes : arg;
  up_active : option bool
}.

(** A field of [updates] over the same field of [existing]. *)
Definition merge_field {A} (upd : option A) (set : A → Template → Template)
    (t : Template) : Template :=
  match upd with Some v => set v t | None => t end.

Definition updateTemplate (req : Request UpdatePayload) : M Template :=
  let p := payload req in
  let id := up_id p in
  if negb (truthy_id id) then throw TemplateIdRequired else
  let id := default "" id in
  let* existing := storage_get id in
  match existing with
  | None => throw TemplateNotFound
  | Some existing =>
      if truthy_flag (tpl_deleted existing) then throw TemplateNotFound else
      let* cfg := readGlobalConfig in
      let user := getRequestUser req in
      let* isAdmin := isAdminRequest req in
      if negb (allowAllUsers cfg) && negb isAdmin && negb (isOwner user existing)
      then throw NotAuthorizedUpdate else
      let u_name := trim <$> up_name p in
      let u_summary := up_summary p in
      let u_content := up_content p in
      let u_assignedProjects :=
        match up_assignedProjects p with
        | Absent => None
        | a => Some (array_or_empty a)
        end in
      let u_assignedIssueTypes :=
        match up_assignedIssueTypes p with
        | Absent => None
        | a => Some (array_or_empty a)
        end in
      let u_active := up_active p in
      let* now := nowIso in
      let merged :=
        set_updatedAt now
          (merge_field u_active set_active
          (merge_field u_assignedIssueTypes set_assignedIssueTypes
          (merge_field u_assignedProjects set_assignedProjects
          (merge_field u_content set_content
          (merge_field u_summary set_summary
          (merge_field u_name set_name existing)))))) in
      run storage_set id merged in
      ret merged
  end.

Record DeletePayload := mkDeletePayload {
  dp_id : option string;
  dp_hard : option bool
}.

Definition deleteTemplate (req : Request DeletePayload) : M string :=
  let id := dp_id (payload req) in
  let hard := truthy_flag (dp_hard (payload req)) in
  if negb (truthy_id id) then throw TemplateIdRequired else
  let id := default "" id in
  let* existing := storage_get id in
  match existing with
  | None => throw TemplateNotFound
  | Some existing =>
      let* isAdmin := isAdminRequest req in
      let* cfg := readGlobalConfig in
      let user := getRequestUser req in
      if negb (allowAllUsers cfg) && negb isAdmin && negb (isOwner user existing)
      then throw NotAuthorizedDelete else
      if hard then
        run storage_delete id in
        let* idx := readIndex in
        run writeIndex (filter (λ tid, tid ≠ id) idx) in
        ret id
      else
        let existing := set_active false (set_deleted true existing) in
        let* now := nowIso in
        let existing := set_updatedAt now existing in
        run storage_set id existing in
        ret id
  end.

Record DuplicatePayload := mkDuplicatePayload {
  du_id : option string;
  du_newName : option text
}.

Definition duplicateTemplate (req : Request DuplicatePayload) : M Template :=
  let id := du_id (payload req) in
  let newName := du_newName (payload req) in
  if negb (truthy_id id) then throw TemplateIdRequired else
  let id := default "" id in
  let* existing := storage_get id in
  match existing with
  | None => throw TemplateNotFound
  | Some existing =>
      if truthy_flag (tpl_deleted existing) then throw TemplateNotFound else
      let user := getRequestUser req in
      let newId := generated_id req in
      let* now := nowIso in
      let clone :=
        {| tpl_id := newId;
           tpl_name :=
             (let n := default [] newName in
              if truthy_text n && bool_decide (0 < length (trim n))
              then trim n
              else tpl_name existing ++ lit " (copy)");
           tpl_summary := tpl_summary existing;
           tpl_content := tpl_content existing;
           tpl_projects := tpl_projects existing;
           tpl_assignedProjects := tpl_assignedProjects existing;
           tpl_assignedIssueTypes := tpl_assignedIssueTypes existing;
           tpl_active := tpl_active existing;
           tpl_deleted := Some false;
           tpl_owner :=
             match user with
             | Some u => Some (accountId u)
             | None => tpl_owner existing
             end;
           tpl_createdAt := now;
           tpl_updatedAt := now |} in
      run storage_set newId clone in
      let* idx := readIndex in
      run writeIndex (newId :: idx) in
      ret clone
  end.

(** ** Matching and prefill ([applytemplate.js], [globalpage.js]) *)

(** The test in the body of the matching loops, for a stored record. *)
Definition matches (tpl : Template) (projectKey : string)
    (issueType : option string) : bool :=
  let assignedProjects := array_or_empty (of_field (tpl_assignedProjects tpl)) in
  let assignedIssueTypes := array_or_empty (of_field (tpl_assignedIssueTypes tpl)) in
  let projectMatch :=
    bool_decide (length assignedProjects = 0)
    || includes assignedProjects projectKey in
  let issueTypeMatch :=
    bool_decide (length assignedIssueTypes = 0)
    || (truthy_id issueType && includes assignedIssueTypes (default "" issueType)) in
  projectMatch && issueTypeMatch.

(** The loop shared by [findMatchingTemplate] and [findApplicableTemplate]. *)
Fixpoint match_loop (idx : list string) (projectKey : string)
    (issueType : option string) : M (option Template) :=
  match idx with
  | [] => ret None
  | id :: idx' =>
      let* tpl := storage_get id in
      match tpl with
      | None => match_loop idx' projectKey issueType
      | Some tpl =>
          if truthy_flag (tpl_deleted tpl) || negb (truthy_flag (tpl_active tpl))
          then match_loop idx' projectKey issueType
          else if matches tpl projectKey issueType then ret (Some tpl)
          else match_loop idx' projectKey issueType
      end
  end.

Definition findMatchingTemplate (projectKey : option string)
    (issueType : option string) : M (option Template) :=
  if negb (truthy_id projectKey) then ret None else
  let* idx := readIndex in
  match_loop idx (default "" projectKey) issueType.

Record MatchPayload := mkMatchPayload {
  mp_projectKey : option string;
  mp_issueType : option string
}.

Definition findApplicableTemplate (req : Request MatchPayload)
    : M (option Template) :=
  let projectKey := mp_projectKey (payload req) in
  let issueType := mp_issueType (payload req) in
  if negb (truthy_id projectKey) then throw ProjectKeyRequired else
  let* idx := readIndex in
  match_loop idx (default "" projectKey) issueType.

Record Prefill := mkPrefill {
  pf_templateId : string;
  pf_summary : option text;
  pf_description : option text;
  pf_applySummary : bool;
  pf_applyDescription : bool;
  pf_templateName : text
}.

(** [x && String(x).trim().length > 0 ? String(x) : null] *)
Definition nonblank_or_null (x : text) : option text :=
  if truthy_text x && bool_decide (0 < length (trim x)) then Some x else None.

(** [!!v && String(current || '').trim().length === 0], the payload field
    defaulting to the empty string. *)
Definition apply_flag (fromTpl : option text) (current : option text) : bool :=
  match fromTpl with Some v => truthy_text v | None => false end
  && bool_decide (length (trim (default [] current)) = 0).

(** The second half of [getPrefillForCreateIssue], once a template is found. *)
Definition computePrefill (tpl : Template)
    (currentSummary currentDescription : option text) : Prefill :=
  let summaryFromTpl := nonblank_or_null (tpl_summary tpl) in
  let descFromTpl := nonblank_or_null (tpl_content tpl) in
  let applySummary := apply_flag summaryFromTpl currentSummary in
  let applyDescription := apply_flag descFromTpl currentDescription in
  {| pf_templateId := tpl_id tpl;
     pf_summary := summaryFromTpl;
     pf_description := descFromTpl;
     pf_applySummary := applySummary;
     pf_applyDescription := applyDescription;
     pf_templateName := tpl_name tpl |}.

Record PrefillPayload := mkPrefillPayload {
  pp_projectKey : option string;
  pp_issueType : option string;
  pp_currentSummary : option text;
  pp_currentDescription : option text
}.

Definition getPrefillForCreateIssue (req : Request PrefillPayload)
    : M (option Prefill) :=
  let p := payload req in
  if negb (truthy_id (pp_projectKey p)) then ret None else
  let* tpl := findMatchingTemplate (pp_projectKey p) (pp_issueType p) in
  match tpl with
  | None => ret None
  | Some tpl =>
      ret (Some (computePrefill tpl (pp_currentSummary p) (pp_currentDescription p)))
  end.

(** ** Listing resolvers ([template.js], [globalpage.js], project-level module) *)

(** [l.slice(start, end)] for integer arguments: a negative bound counts
    from the end, both bounds are clamped to the length. *)
Definition slice {A} (l : list A) (start final : Z) : list A :=
  let len := Z.of_nat (length l) in
  let k := if (start <? 0)%Z then Z.max (len + start) 0 else Z.min start len in
  let e := if (final <? 0)%Z then Z.max (len + final) 0 else Z.min final len in
  take (Z.to_nat (e - k)) (drop (Z.to_nat k) l).

(** The loop of the listing resolvers: read each record of [idx]; a missing
    record is skipped; [select] is the body's test and what it pushes. *)
Fixpoint collect_loop {B} (select : Template → option B) (idx : list string)
    (results : list B) : M (list B) :=
  match idx with
  | [] => ret results
  | id :: idx' =>
      let* tpl := storage_get id in
      match tpl with
      | None => collect_loop select idx' results
      | Some tpl =>
          match select tpl with
          | Some b => collect_loop select idx' (results ++ [b])
          | None => collect_loop select idx' results
          end
      end
  end.

(** [{ page = 1, limit = 50 }], the numbers being integers. *)
Record PagePayload := mkPagePayload {
  pg_projectKey : option string;
  pg_page : option Z;
  pg_limit : option Z
}.

Record Page := mkPage {
  pg_total : nat;
  pg_number : Z;
  pg_size : Z;
  pg_templates : list Template
}.

(** [listTemplates]: a page of the index; every record found is pushed,
    deleted or not. *)
Definition listTemplates (req : Request PagePayload) : M Page :=
  let page := default 1%Z (pg_page (payload req)) in
  let limit := default 50%Z (pg_limit (payload req)) in
  let* idx := readIndex in
  let start := Z.max 0 ((page - 1) * limit) in
  let slice_ := slice idx start (start + limit) in
  let* results := collect_loop (λ tpl, Some tpl) slice_ [] in
  ret (mkPage (length idx) page limit results).

(** The test of [getTemplatesForProject]. *)
Definition assignedTo (projectKey : string) (tpl : Template) : bool :=
  match tpl_assignedProjects tpl with
  | None => true
  | Some ps => bool_decide (length ps = 0) || includes ps projectKey
  end.

Definition getTemplatesForProject (req : Request (option string))
    : M (list Template) :=
  let projectKey := payload req in
  if negb (truthy_id projectKey) then throw ProjectKeyRequired else
  let projectKey := default "" projectKey in
  let* idx := readIndex in
  collect_loop
    (λ tpl, if truthy_flag (tpl_deleted tpl) then None
            else if assignedTo projectKey tpl then Some tpl else None)
    idx [].

(** The test of [filterTemplatesByProject]; the key [__ALL__] selects the
    records without projects. *)
Definition filteredBy (projectKey : string) (tpl : Template) : bool :=
  let projects := array_or_empty (of_field (tpl_assignedProjects tpl)) in
  if bool_decide (projectKey = "__ALL__") then bool_decide (length projects = 0)
  else bool_decide (length projects = 0) || includes projects projectKey.

Definition filterTemplatesByProject (req : Request PagePayload) : M Page :=
  let projectKey := pg_projectKey (payload req) in
  let page := default 1%Z (pg_page (payload req)) in
  let limit := default 50%Z (pg_limit (payload req)) in
  if negb (truthy_id projectKey) then throw ProjectKeyRequired else
  let projectKey := default "" projectKey in
  let* idx := readIndex in
  let* results :=
    collect_loop
      (λ tpl, if truthy_flag (tpl_deleted tpl) then None
              else if filteredBy projectKey tpl then Some tpl else None)
      idx [] in
  let start := Z.max 0 ((page - 1) * limit) in
  let slice_ := slice results start (start + limit) in
  ret (mkPage (length results) page limit slice_).

(** What [getAssignedTemplatesForProject] pushes. *)
Record AssignedItem := mkAssignedItem {
  ai_id : string;
  ai_name : text;
  ai_assignedIssueTypes : list string
}.

Definition getAssignedTemplatesForProject (req : Request (option string))
    : M (list AssignedItem) :=
  let projectKey := payload req in
  if negb (truthy_id projectKey) then throw ProjectKeyRequired else
  let projectKey := default "" projectKey in
  let* idx := readIndex in
  collect_loop
    (λ tpl, if truthy_flag (tpl_deleted tpl) then None
            else
              let projects := array_or_empty (of_field (tpl_assignedProjects tpl)) in
              if bool_decide (length projects = 0) || includes projects projectKey
              then Some (mkAssignedItem (tpl_id tpl) (tpl_name tpl)
                           (default [] (tpl_assignedIssueTypes tpl)))
              else None)
    idx [].

(** [listFilterProjects]: the loop over the projects of one record. *)
Definition count_project (map : gmap string nat) (p : string) : gmap string nat :=
  <[p := default 0 (map !! p) + 1]> map.

(** The loop of [listFilterProjects] over the index, on the map from
    project key to count. *)
Fixpoint count_loop (idx : list string) (map : gmap string nat)
    : M (gmap string nat) :=
  match idx with
  | [] => ret map
  | id :: idx' =>
      let* tpl := storage_get id in
      match tpl with
      | None => count_loop idx' map
      | Some tpl =>
          if truthy_flag (tpl_deleted tpl) then count_loop idx' map
          else
            let projects := array_or_empty (of_field (tpl_assignedProjects tpl)) in
            if bool_decide (length projects = 0)
            then count_loop idx' (count_project map "__ALL__")
            else count_loop idx' (foldl count_project map projects)
      end
  end.

(** [listFilterProjects]: the counts by project key.  The items are
    returned as the map itself; the order of [Object.keys] is left out. *)
Definition listFilterProjects : M (gmap string nat) :=
  let* idx := readIndex in
  count_loop idx ∅.

(** ** Reading one template ([template.js], [globalpage.js], [applytemplate.js]) *)

(** [getTemplate] throws messages of its own, kept as they are; it returns
    whatever record is stored, deleted or not. *)
Definition getTemplate (req : Request (option string)) (w : World)
    : string + Template :=
  let id := payload req in
  if negb (truthy_id id) then inl "Template `id` is required" else
  match st_templates (w_store w) !! default "" id with
  | None => inl "Template not found"
  | Some tpl => inr tpl
  end.

(** [copyTemplateId]: the id of a record that is not deleted. *)
Definition copyTemplateId (req : Request (option string)) : M string :=
  let id := payload req in
  if negb (truthy_id id) then throw TemplateIdRequired else
  let id := default "" id in
  let* tpl := storage_get id in
  match tpl with
  | None => throw TemplateNotFound
  | Some tpl =>
      if truthy_flag (tpl_deleted tpl) then throw TemplateNotFound
      else ret (tpl_id tpl)
  end.

(** [getTemplateDescription]: id, description and summary of a record that
    is neither deleted nor inactive; its messages are its own. *)
Definition getTemplateDescription (req : Request (option string)) (w : World)
    : string + (string * text * text) :=
  let id := payload req in
  if negb (truthy_id id) then inl "template id is required" else
  match st_templates (w_store w) !! default "" id with
  | None => inl "template not found"
  | Some tpl =>
      if truthy_flag (tpl_deleted tpl) || negb (truthy_flag (tpl_active tpl))
      then inl "template not found"
      else inr (tpl_id tpl, tpl_content tpl, tpl_summary tpl)
  end.

(** ** Search by name ([globalpage.js]) *)

(** [s.startsWith(term)] and [s.includes(term)] on code units. *)
Fixpoint startsWith (s term : text) : bool :=
  match term, s with
  | [], _ => true
  | c :: term', d :: s' => (c =? d)%N && startsWith s' term'
  | _ :: _, [] => false
  end.

Fixpoint includes_text (s term : text) : bool :=
  startsWith s term
  || match s with
     | [] => false
     | _ :: s' => includes_text s' term
     end.

(** [{ q = '', limit = 10 }], the limit being an integer. *)
Record SearchPayload := mkSearchPayload {
  sq_q : option text;
  sq_limit : option Z
}.

Record SearchItem := mkSearchItem {
  si_id : string;
  si_name : text;
  si_summary : text
}.

Section SearchByName.

(** [String.prototype.toLowerCase]: its Unicode case tables are taken as
    given. *)
Variable toLowerCase : text → text.

(** The loop of [searchTemplatesByName]; it stops after the push that
    reaches the limit. *)
Fixpoint search_loop (term : text) (limit : Z) (idx : list string)
    (results : list SearchItem) : M (list SearchItem) :=
  match idx with
  | [] => ret results
  | id :: idx' =>
      let* tpl := storage_get id in
      match tpl with
      | None => search_loop term limit idx' results
      | Some tpl =>
          if truthy_flag (tpl_deleted tpl) then search_loop term limit idx' results
          else if includes_text (toLowerCase (tpl_name tpl)) term then
            let results :=
              results ++ [mkSearchItem (tpl_id tpl) (tpl_name tpl) (tpl_summary tpl)] in
            if (limit <=? Z.of_nat (length results))%Z then ret results
            else search_loop term limit idx' results
          else search_loop term limit idx' results
      end
  end.

Definition searchTemplatesByName (req : Request SearchPayload)
    : M (list SearchItem) :=
  let q := default [] (sq_q (payload req)) in
  let limit := default 10%Z (sq_limit (payload req)) in
  let term := toLowerCase (trim q) in
  if negb (truthy_text term) then ret [] else
  let* idx := readIndex in
  search_loop term limit idx [].

End SearchByName.

(** ** Administration ([adminconfigpage.js], project-level module) *)

(** The errors of the administration resolvers: those of the other modules
    and two messages of their own. *)
Inductive AdminError :=
| CoreError (e : Error)
| NotAuthorizedGlobalConfig
| NotAuthorizedProjectSettings.

Definition adminMessage (e : AdminError) : string :=
  match e with
  | CoreError e => message e
  | NotAuthorizedGlobalConfig => "Not authorized to change global config"
  | NotAuthorizedProjectSettings => "Not authorized to change project settings"
  end.

(** The storage with the project settings, a map from project key to the
    [enabled] flag of its entry (an absent map reads as the empty one).
    The map is the own properties of a plain object, which inherits from
    [Object.prototype]. *)
Record AdminWorld := mkAdminWorld {
  aw_world : World;
  aw_projects : gmap string bool
}.

Definition MA (A : Type) : Type := AdminWorld → (AdminError + A) * AdminWorld.

Definition retA {A} (a : A) : MA A := λ aw, (inr a, aw).

Definition bindA {A B} (m : MA A) (k : A → MA B) : MA B :=
  λ aw, match m aw with
        | (inr a, aw') => k a aw'
        | (inl e, aw') => (inl e, aw')
        end.

Definition throwA {A} (e : AdminError) : MA A := λ aw, (inl e, aw).

(** A computation of the other modules, run on the same storage. *)
Definition lift {A} (m : M A) : MA A :=
  λ aw, match m (aw_world aw) with
        | (Ok a, w') => (inr a, mkAdminWorld w' (aw_projects aw))
        | (Throw e, w') => (inl (CoreError e), mkAdminWorld w' (aw_projects aw))
        end.

Notation "'let+' x ':=' m 'in' k" := (bindA m (λ x, k))
  (at level 10, x name, m at level 100, k at level 200, only parsing).
Notation "'run+' m 'in' k" := (bindA m (λ _, k))
  (at level 10, m at level 100, k at level 200, only parsing).

(** [writeGlobalConfig] *)
Definition writeGlobalConfig (cfg : Config) : MA unit :=
  λ aw, (inr (),
         mkAdminWorld
           (mkWorld (mkStore (st_index (w_store (aw_world aw)))
                             (st_templates (w_store (aw_world aw)))
                             (Some cfg))
                    (w_clock (aw_world aw)))
           (aw_projects aw)).

Definition readProjectSettings : MA (gmap string bool) :=
  λ aw, (inr (aw_projects aw), aw).

Definition writeProjectSettings (map : gmap string bool) : MA unit :=
  λ aw, (inr (), mkAdminWorld (aw_world aw) map).

(** The property names of [Object.prototype]. *)
Definition objectPrototypeKeys : list string :=
  ["constructor"; "__defineGetter__"; "__defineSetter__"; "hasOwnProperty";
   "__lookupGetter__"; "__lookupSetter__"; "isPrototypeOf";
   "propertyIsEnumerable"; "toString"; "valueOf"; "__proto__"; "toLocaleString"].

(** [Boolean((map[key] || { enabled: true }).enabled)]: an own entry gives
    its flag; a name inherited from [Object.prototype] reads as a function
    or object without [enabled]; any other name is undefined and takes the
    default. *)
Definition enabled_of (map : gmap string bool) (key : string) : bool :=
  match map !! key with
  | Some b => b
  | None => negb (includes objectPrototypeKeys key)
  end.

(** [map[key] = { enabled: b }] as the storage sees it afterwards: the
    assignment to an inherited [__proto__] sets the prototype, which is not
    an own property and is not stored. *)
Definition set_enabled (map : gmap string bool) (key : string) (b : bool)
    : gmap string bool :=
  if bool_decide (key = "__proto__") && bool_decide (map !! key = None)
  then map
  else <[key := b]> map.

Definition getGlobalConfig {P} (req : Request P) : MA Config :=
  lift readGlobalConfig.

(** Payload of [setGlobalConfig]; [Boolean(allowAllUsers)] is taken when the
    field is present. *)
Record ConfigPayload := mkConfigPayload {
  cf_allowAllUsers : option bool;
  cf_admins : arg
}.

Definition setGlobalConfig (req : Request ConfigPayload) : MA Config :=
  let+ isAdmin := lift (isAdminRequest req) in
  if negb isAdmin then throwA NotAuthorizedGlobalConfig else
  let allowAllUsers_ := cf_allowAllUsers (payload req) in
  let admins_ := cf_admins (payload req) in
  let+ cfg := lift readGlobalConfig in
  let next := cfg in
  let next := match allowAllUsers_ with
              | Some b => mkConfig b (admins next)
              | None => next
              end in
  let next := if isArray admins_
              then mkConfig (allowAllUsers next) (array_or_empty admins_)
              else next in
  run+ writeGlobalConfig next in
  retA next.

Definition getProjectSettings {P} (req : Request P) : MA (gmap string bool) :=
  readProjectSettings.

(** Payload of the two resolvers that set a project's flag. *)
Record ProjectPayload := mkProjectPayload {
  pj_projectKey : option string;
  pj_enabled : option bool
}.

(** [setProjectEnabled] ([adminconfigpage.js]): administrators only. *)
Definition setProjectEnabled (req : Request ProjectPayload) : MA (string * bool) :=
  let+ isAdmin := lift (isAdminRequest req) in
  if negb isAdmin then throwA NotAuthorizedProjectSettings else
  let projectKey := pj_projectKey (payload req) in
  let enabled := pj_enabled (payload req) in
  if negb (truthy_id projectKey) then lift (throw ProjectKeyRequired) else
  let projectKey := default "" projectKey in
  let+ map := readProjectSettings in
  let map := set_enabled map projectKey (truthy_flag enabled) in
  run+ writeProjectSettings map in
  retA (projectKey, truthy_flag enabled).

(** [getProjectConfig] (project-level module): a project without entry uses
    the global templates. *)
Definition getProjectConfig (req : Request (option string)) : MA (string * bool) :=
  let projectKey := payload req in
  if negb (truthy_id projectKey) then lift (throw ProjectKeyRequired) else
  let projectKey := default "" projectKey in
  let+ map := readProjectSettings in
  retA (projectKey, enabled_of map projectKey).

(** [setProjectUseGlobalTemplates] (project-level module): also open to
    everyone when all users are allowed, and to the project's
    administrators. *)
Definition setProjectUseGlobalTemplates (req : Request ProjectPayload)
    : MA (string * bool) :=
  let projectKey := pj_projectKey (payload req) in
  let enabled := pj_enabled (payload req) in
  if negb (truthy_id projectKey) then lift (throw ProjectKeyRequired) else
  let projectKey := default "" projectKey in
  let+ cfg := lift readGlobalConfig in
  let+ isAdmin := lift (isAdminRequest req) in
  let isProjAdmin := isProjectAdmin req projectKey in
  if negb (allowAllUsers cfg) && negb isAdmin && negb isProjAdmin
  then throwA NotAuthorizedProjectSettings else
  let+ map := readProjectSettings in
  let map := set_enabled map projectKey (truthy_flag enabled) in
  run+ writeProjectSettings map in
  retA (projectKey, truthy_flag enabled).

(** ** Notions of the specification *)

Definition templates (w : World) : gmap string Template := st_templates (w_store w).
Definition index (w : World) : list string := st_index (w_store w).

(** Whitespace-only text (the empty text included). *)
Definition blank (s : text) : bool := forallb is_whitespace s.

(** The scope of a record on each axis: its set, the empty set (the
    wildcard) when the field is absent. *)
Definition projectsOf (t : Template) : list string := default [] (tpl_assignedProjects t).
Definition issueTypesOf (t : Template) : list string := default [] (tpl_assignedIssueTypes t).

(** Overlap on one axis: one side is the wildcard or they share an element. *)
Definition axisOverlap (a b : list string) : Prop :=
  a = [] ∨ b = [] ∨ ∃ x, x ∈ a ∧ x ∈ b.

(** Overlap of two scopes: on both axes. *)
Definition scopeOverlap (t o : Template) : Prop :=
  axisOverlap (projectsOf t) (projectsOf o)
  ∧ axisOverlap (issueTypesOf t) (issueTypesOf o).

(** A scope matches a concrete pair; a missing or empty issue type only
    matches the wildcard. *)
Definition scopeMatches (t : Template) (projectKey : string)
    (issueType : option string) : Prop :=
  (projectsOf t = [] ∨ projectKey ∈ projectsOf t)
  ∧ (issueTypesOf t = []
     ∨ ∃ it, issueType = Some it ∧ it ≠ "" ∧ it ∈ issueTypesOf t).

Definition isDeleted (t : Template) : Prop := tpl_deleted t = Some true.
Definition isActive (t : Template) : Prop := tpl_active t = Some true.

(** A record that [findMatch] may return for the pair. *)
Definition candidate (t : Template) (projectKey : string)
    (issueType : option string) : Prop :=
  ¬ isDeleted t ∧ isActive t ∧ scopeMatches t projectKey issueType.

(** [r] is the first candidate in index order, or none when there is none. *)
Definition first_candidate (tm : gmap string Template) (idx : list string)
    (projectKey : string) (issueType : option string)
    (r : option Template) : Prop :=
  match r with
  | Some t =>
      ∃ i id, idx !! i = Some id ∧ tm !! id = Some t
        ∧ candidate t projectKey issueType
        ∧ ∀ j id' t', j < i → idx !! j = Some id' → tm !! id' = Some t' →
            ¬ candidate t' projectKey issueType
  | None =>
      ∀ id t, id ∈ idx → tm !! id = Some t → ¬ candidate t projectKey issueType
  end.

(** A record that enforcement for [t] has to deactivate: stored under
    another id, not deleted, active, and overlapping [t] on both axes. *)
Definition competitor (t : Template) (tm : gmap string Template)
    (id : string) : Prop :=
  id ≠ tpl_id t
  ∧ ∃ o, tm !! id = Some o ∧ ¬ isDeleted o ∧ isActive o ∧ scopeOverlap t o.

(** What a deactivation writes. *)
Definition deactivate (n : nat) (o : Template) : Template :=
  set_updatedAt n (set_active false o).

(** The effect of the enforcement loop for [t] over [idx], from world [w] to
    world [w'], deactivating [res]. *)
Record enforced (t : Template) (idx : list string) (w w' : World)
    (res : list string) : Prop := mkEnforced {
  enf_index : index w' = index w;
  enf_config : st_config (w_store w') = st_config (w_store w);
  enf_clock : w_clock w' = w_clock w + length res;
  enf_order : res `sublist_of` idx;
  enf_nodup : NoDup res;
  enf_exact : ∀ id, id ∈ res ↔ id ∈ idx ∧ competitor t (templates w) id;
  enf_deactivated : ∀ id, id ∈ res →
    ∃ o n, templates w !! id = Some o ∧ templates w' !! id = Some (deactivate n o);
  enf_others : ∀ id, id ∉ res → templates w' !! id = templates w !! id
}.

(** The configuration in force: the stored one, or the defaults. *)
Definition config (w : World) : Config :=
  default (mkConfig false []) (st_config (w_store w)).

(** The principal is an administrator: listed in the configuration, or
    flagged as one in the request context. *)
Definition isAdminOf (cfg : Config) (user : option User) : bool :=
  match user with
  | Some u => includes (admins cfg) (accountId u) || isProductAdmin u || isAdmin u
  | None => false
  end.

(** The authorization decision of update, delete and issue-type assignment:
    everyone is allowed, or the principal is an administrator or the owner. *)
Definition mayEdit (w : World) (user : option User) (t : Template) : bool :=
  allowAllUsers (config w) || isAdminOf (config w) user || isOwner user t.

(** The decision of project assignment also admits a principal who
    administers every target project. *)
Definition mayAssignProjects {P} (req : Request P) (w : World) (t : Template)
    (projects : list string) : bool :=
  mayEdit w (context_user req) t || forallb (isProjectAdmin req) projects.

(** The fields that decide what a record covers and whether it is visible. *)
Definition same_scope (o o' : Template) : Prop :=
  tpl_assignedProjects o' = tpl_assignedProjects o
  ∧ tpl_assignedIssueTypes o' = tpl_assignedIssueTypes o
  ∧ tpl_deleted o' = tpl_deleted o.

(** The secondary axis of an assignment: left alone when absent, replaced
    by the array, or by the empty array when the value is not an array. *)
Definition secondary (a : arg) (old : option (list string)) : option (list string) :=
  match a with
  | Absent => old
  | _ => Some (array_or_empty a)
  end.

(** A resolver call that returned rather than threw. *)
Definition succeeded {A} (x : result A * World) : bool :=
  match x.1 with Ok _ => true | Throw _ => false end.

(** Every record is stored under its own id, as every resolver stores it. *)
Definition keyed_by_id (w : World) : Prop :=
  ∀ id t, templates w !! id = Some t → tpl_id t = id.

(** The uniqueness invariant: no pair is covered by two records of the
    index that are both active and not deleted. *)
Definition one_active_per_pair (w : World) : Prop :=
  ∀ projectKey issueType id1 id2 t1 t2,
    id1 ∈ index w → id2 ∈ index w →
    templates w !! id1 = Some t1 → templates w !! id2 = Some t2 →
    candidate t1 projectKey issueType → candidate t2 projectKey issueType →
    id1 = id2.

(** The two invariants that every resolver but [updateTemplate] and
    [duplicateTemplate] keeps. *)
Definition well_formed (w : World) : Prop :=
  one_active_per_pair w ∧ keyed_by_id w.



(** The world after [storage.set] of a record and one reading of the clock. *)
Definition stored_at (id : string) (t : Template) (w : World) : World :=
  mkWorld (mkStore (st_index (w_store w))
                   (<[id := t]> (st_templates (w_store w)))
                   (st_config (w_store w)))
          (S (w_clock w)).

(** The records found under the ids of [idx], in order. *)
Definition stored (w : World) (idx : list string) : list Template :=
  omap (λ id, templates w !! id) idx.

(** The records of the index that are not soft-deleted. *)
Definition visible (w : World) : list Template :=
  filter (λ t, ¬ isDeleted t) (stored w (index w)).

(** How often a record counts for project key [k] in the project filter:
    once under [__ALL__] when it has no project, else once per occurrence
    of [k] among its projects. *)
Definition counts_for (k : string) (t : Template) : nat :=
  match projectsOf t with
  | [] => if decide (k = "__ALL__") then 1 else 0
  | ps => length (filter (λ p, p = k) ps)
  end.

(** A record that [filterTemplatesByProject] lists for a key: not deleted,
    and without projects or, for a key other than [__ALL__], assigned to it. *)
Definition listedFor (key : string) (t : Template) : Prop :=
  tpl_deleted t ≠ Some true
  ∧ (projectsOf t = [] ∨ (key ≠ "__ALL__" ∧ key ∈ projectsOf t)).

#[global] Instance listedFor_dec (key : string) (t : Template) :
  Decision (listedFor key t).
Proof. unfold listedFor. apply _. Defined.

(** A record that [getTemplatesForProject] lists for a key: not deleted, and
    without projects or assigned to the key. *)
Definition assignedFor (key : string) (t : Template) : Prop :=
  tpl_deleted t ≠ Some true ∧ (projectsOf t = [] ∨ key ∈ projectsOf t).

#[global] Instance assignedFor_dec (key : string) (t : Template) :
  Decision (assignedFor key t).
Proof. unfold assignedFor. apply _. Defined.

(** The summary of a record in the project settings page. *)
Definition item_of (t : Template) : AssignedItem :=
  mkAssignedItem (tpl_id t) (tpl_name t) (issueTypesOf t).

(** ** A scenario

    One administrator (alice, listed in the configuration), one other user
    (mallory), everyone else not allowed; Jira grants nobody project
    administration.  Alice creates template A without projects and template
    B for project PROJ, then activates A. *)
Module Scenario.

Definition alice : User := mkUser "alice" false false.
Definition mallory : User := mkUser "mallory" false false.

Definition request {P} (p : P) (u : User) (gen : string) : Request P :=
  mkRequest p (Some u) (λ _, false) gen.

Definition start : World :=
  mkWorld (mkStore [] ∅ (Some (mkConfig false ["alice"]))) 0.

Definition create_A : Request CreatePayload :=
  request (mkCreatePayload (Some (lit "A")) (Some (lit "Summary A"))
             (Some (lit "Body A")) Absent) alice "tmpl_a".

Definition create_B : Request CreatePayload :=
  request (mkCreatePayload (Some (lit "B")) (Some (lit "Summary B"))
             (Some (lit "Body B")) (Array ["PROJ"])) alice "tmpl_b".

Definition activate (id : string) (u : User) : Request ActivePayload :=
  request (mkActivePayload (Some id) (Some true)) u "".

(** [updateTemplate({ id, active: true })] *)
Definition update_active (id : string) (u : User) : Request UpdatePayload :=
  request (mkUpdatePayload (Some id) None None None Absent Absent (Some true)) u "".

Definition duplicate (id : string) (u : User) (gen : string)
    : Request DuplicatePayload :=
  request (mkDuplicatePayload (Some id) None) u gen.

(** [assignTemplateToProjects({ id, projects, issueTypes })] *)
Definition assign (id : string) (projects issueTypes : arg) (u : User)
    : Request AssignPayload :=
  request (mkAssignPayload (Some id) projects issueTypes) u "".

(** Alice assigns A to project PROJ and passes a value for [issueTypes]
    that is not an array. *)
Definition assign_bad_issueTypes : Request AssignPayload :=
  assign "tmpl_a" (Array ["PROJ"]) NotArray alice.

Definition assignments (id : string) (u : User) : Request (option string) :=
  request (Some id) u "".

Definition lookup_pair (pk it : string) (u : User) : Request MatchPayload :=
  request (mkMatchPayload (Some pk) (Some it)) u "".

(** The worlds along the way. *)
Definition created : World :=
  (createTemplate create_B (createTemplate create_A start).2).2.

Definition activated : World :=
  (setTemplateActive (activate "tmpl_a" alice) created).2.

Definition updated : World :=
  (updateTemplate (update_active "tmpl_b" alice) activated).2.

End Scenario.

(** ** Properties of the scope matcher *)

Lemma includes_true l x : includes l x = true ↔ x ∈ l.
Proof. unfold includes. apply bool_decide_eq_true. Qed.

Lemma existsb_includes (a b : list string) :
  existsb (λ x, includes b x) a = true ↔ ∃ x, x ∈ a ∧ x ∈ b.
Proof.
  rewrite existsb_exists. split.
  - intros (x & Hx & Hb). exists x. split.
    + by apply list_elem_of_In.
    + by apply includes_true.
  - intros (x & Hx & Hb). exists x. split.
    + by apply list_elem_of_In.
    + by apply includes_true.
Qed.

Lemma setsOverlap_arrays (a b : list string) :
  setsOverlap (Array a) (Array b) = true ↔
  a = [] ∨ b = [] ∨ ∃ x, x ∈ a ∧ x ∈ b.
Proof.
  unfold setsOverlap. destruct a as [|x a], b as [|y b]; simpl.
  - tauto.
  - tauto.
  - tauto.
  - change (includes (y :: b) x || existsb (λ x0, includes (y :: b) x0) a)
      with (existsb (λ x0, includes (y :: b) x0) (x :: a)).
    rewrite existsb_includes. split; [auto|].
    intros [H|[H|H]]; [discriminate H|discriminate H|exact H].
Qed.

Lemma setsOverlap_arrays_sym (a b : list string) :
  setsOverlap (Array a) (Array b) = setsOverlap (Array b) (Array a).
Proof.
  apply eq_true_iff_eq. rewrite !setsOverlap_arrays.
  split; (intros [H|[H|(x & H1 & H2)]]; [auto|auto|eauto]).
Qed.

(** C7. [setsOverlap] is symmetric on arrays; it holds whenever one of the
    two arrays is empty (the wildcard overlaps anything, another wildcard
    included); and when both are non-empty it holds exactly when they share
    an element. *)
Theorem C7_setsOverlap_symmetric_wildcard (a b : list string) :
  setsOverlap (Array a) (Array b) = setsOverlap (Array b) (Array a)
  ∧ (a = [] ∨ b = [] → setsOverlap (Array a) (Array b) = true)
  ∧ (a ≠ [] ∧ b ≠ [] →
     (setsOverlap (Array a) (Array b) = true ↔ ∃ x, x ∈ a ∧ x ∈ b)).
Proof.
  split; [|split].
  - apply setsOverlap_arrays_sym.
  - intros H. apply setsOverlap_arrays. tauto.
  - intros [Ha Hb]. rewrite setsOverlap_arrays. tauto.
Qed.

(** ** Blank text *)

Lemma trimStart_nil (s : text) : trimStart s = [] ↔ blank s = true.
Proof.
  induction s as [|c s IH]; simpl; [tauto|].
  destruct (is_whitespace c); simpl; [exact IH|].
  split; discriminate.
Qed.

Lemma trimStart_blank (s : text) : blank (trimStart s) = true → blank s = true.
Proof.
  induction s as [|c s IH]; simpl; [tauto|].
  destruct (is_whitespace c) eqn:Hc; simpl; [exact IH|].
  rewrite Hc. discriminate.
Qed.

Lemma blank_reverse (s : text) : blank (reverse s) = blank s.
Proof.
  unfold blank. apply eq_true_iff_eq. rewrite !forallb_forall.
  split; intros H x Hx; apply H; apply list_elem_of_In;
    apply list_elem_of_In in Hx; by apply elem_of_reverse.
Qed.

Lemma trim_length_0 (s : text) : length (trim s) = 0 ↔ blank s = true.
Proof.
  unfold trim, trimEnd. rewrite length_reverse. split.
  - intros H. apply nil_length_inv in H. apply trimStart_nil in H.
    rewrite blank_reverse in H. by apply trimStart_blank.
  - intros H. apply trimStart_nil in H. rewrite H. reflexivity.
Qed.

Lemma blank_truthy (s : text) : blank s = false → truthy_text s = true.
Proof. destruct s; [discriminate|reflexivity]. Qed.

Lemma nonblank_or_null_Some (x : text) :
  nonblank_or_null x = (if blank x then None else Some x).
Proof.
  unfold nonblank_or_null. destruct (blank x) eqn:Hb.
  - apply trim_length_0 in Hb. rewrite Hb.
    by rewrite andb_false_r.
  - rewrite (blank_truthy _ Hb). simpl.
    rewrite bool_decide_true; [reflexivity|].
    destruct (length (trim x)) eqn:Hl; [|lia].
    apply trim_length_0 in Hl. congruence.
Qed.

Lemma apply_flag_true (x : text) (current : option text) :
  apply_flag (nonblank_or_null x) current = true ↔
  blank x = false ∧ blank (default [] current) = true.
Proof.
  unfold apply_flag. rewrite nonblank_or_null_Some.
  rewrite andb_true_iff, bool_decide_eq_true, trim_length_0.
  destruct (blank x) eqn:Hb.
  - split; [intros [H _]; discriminate H|intros [H _]; discriminate H].
  - rewrite (blank_truthy _ Hb). tauto.
Qed.

(** C5. [applySummary] is true exactly when the template's summary is not
    blank and the caller's current summary is blank (whitespace-only and
    absent count as blank); likewise [applyDescription] for the content and
    the current description.  So no flag is set over non-blank text of the
    caller. *)
Theorem C5_computePrefill_apply_flags (tpl : Template)
    (currentSummary currentDescription : option text) :
  (pf_applySummary (computePrefill tpl currentSummary currentDescription) = true
   ↔ blank (tpl_summary tpl) = false ∧ blank (default [] currentSummary) = true)
  ∧ (pf_applyDescription (computePrefill tpl currentSummary currentDescription) = true
     ↔ blank (tpl_content tpl) = false
       ∧ blank (default [] currentDescription) = true).
Proof.
  unfold computePrefill; simpl. split; apply apply_flag_true.
Qed.

(** ** Matching *)

Lemma truthy_flag_true (b : option bool) : truthy_flag b = true ↔ b = Some true.
Proof. destruct b as [[]|]; simpl; split; congruence. Qed.

Lemma truthy_flag_false (b : option bool) : truthy_flag b = false ↔ b ≠ Some true.
Proof. destruct b as [[]|]; simpl; split; congruence. Qed.

Lemma truthy_string_true (s : string) : truthy_string s = true ↔ s ≠ "".
Proof. destruct s; simpl; split; congruence. Qed.

Lemma length_0_nil {A} (l : list A) : length l = 0 ↔ l = [].
Proof. destruct l; simpl; split; congruence. Qed.

Lemma array_or_empty_field (f : option (list string)) :
  array_or_empty (of_field f) = default [] f.
Proof. by destruct f. Qed.

Lemma matches_scopeMatches (t : Template) (pk : string) (it : option string) :
  matches t pk it = true ↔ scopeMatches t pk it.
Proof.
  unfold matches, scopeMatches, projectsOf, issueTypesOf.
  rewrite !array_or_empty_field.
  rewrite andb_true_iff, !orb_true_iff, andb_true_iff.
  rewrite !bool_decide_eq_true, !length_0_nil, !includes_true.
  destruct it as [it|]; simpl.
  - rewrite truthy_string_true. split.
    + intros [Hp [Hi|[Hne Hi]]]; split; auto. right. eauto.
    + intros [Hp [Hi|(it' & Heq & Hne & Hi)]]; split; auto.
      right. by simplify_eq.
  - split.
    + intros [Hp [Hi|[Hne _]]]; [auto|discriminate Hne].
    + intros [Hp [Hi|(it' & Heq & _)]]; [auto|discriminate Heq].
Qed.

Lemma loop_test_candidate (t : Template) (pk : string) (it : option string) :
  (truthy_flag (tpl_deleted t) || negb (truthy_flag (tpl_active t))) = false
  ∧ matches t pk it = true
  ↔ candidate t pk it.
Proof.
  unfold candidate, isDeleted, isActive.
  rewrite orb_false_iff, negb_false_iff, truthy_flag_false, truthy_flag_true.
  rewrite matches_scopeMatches. tauto.
Qed.

Lemma match_loop_first (pk : string) (it : option string) (idx : list string)
    (w : World) :
  ∃ r, match_loop idx pk it w = (Ok r, w)
       ∧ first_candidate (templates w) idx pk it r.
Proof.
  induction idx as [|id idx IH]; simpl.
  - exists None. split; [reflexivity|]. intros id t Hin. by apply elem_of_nil in Hin.
  - unfold bind, storage_get. fold (templates w).
    assert (Hskip : ∀ r, first_candidate (templates w) idx pk it r →
              (∀ t, templates w !! id = Some t → ¬ candidate t pk it) →
              first_candidate (templates w) (id :: idx) pk it r).
    { intros [t|] Hr Hid; simpl in *.
      - destruct Hr as (i & id0 & Hi & Ht & Hc & Hbefore).
        exists (S i), id0. do 3 (split; [done|]).
        intros [|j] id' t' Hj Hl Hl'; simpl in Hl.
        + simplify_eq. by apply Hid.
        + apply (Hbefore j id' t'); [lia|done|done].
      - intros id0 t Hin Ht. apply elem_of_cons in Hin as [->|Hin].
        + by apply Hid.
        + by apply (Hr id0). }
    destruct IH as (r & Hrun & Hr).
    destruct (templates w !! id) as [t|] eqn:Hlook.
    + destruct (truthy_flag (tpl_deleted t) || negb (truthy_flag (tpl_active t)))
        eqn:Hflags.
      * exists r. split; [exact Hrun|]. apply Hskip; [exact Hr|].
        intros t' Heq Hc. simplify_eq. apply loop_test_candidate in Hc.
        destruct Hc as [Hc _]. congruence.
      * destruct (matches t pk it) eqn:Hm.
        -- exists (Some t). split; [reflexivity|]. simpl.
           exists 0, id. do 2 (split; [done|]). split.
           ++ by apply loop_test_candidate.
           ++ intros j ? ? Hj. lia.
        -- exists r. split; [exact Hrun|]. apply Hskip; [exact Hr|].
           intros t' Heq Hc. simplify_eq. apply loop_test_candidate in Hc.
           destruct Hc as [_ Hc]. congruence.
    + exists r. split; [exact Hrun|]. apply Hskip; [exact Hr|]. intros t' Heq. discriminate Heq.
Qed.

(** C3. For a non-empty project key, [findMatchingTemplate] and
    [findApplicableTemplate] return, without changing the store, the first
    record in index order that is not deleted, is active and whose scope
    matches the pair (an empty set on an axis matches anything; a missing
    or empty issue type matches only an empty set of issue types), and
    return none when the index holds no such record. *)
Theorem C3_findMatch_first_in_index_order (w : World) (projectKey : string)
    (issueType : option string) (req : Request MatchPayload) :
  projectKey ≠ "" →
  payload req = mkMatchPayload (Some projectKey) issueType →
  ∃ r, findMatchingTemplate (Some projectKey) issueType w = (Ok r, w)
       ∧ findApplicableTemplate req w = (Ok r, w)
       ∧ first_candidate (templates w) (index w) projectKey issueType r.
Proof.
  intros Hpk Hreq.
  destruct (match_loop_first projectKey issueType (index w) w) as (r & Hrun & Hr).
  exists r. apply truthy_string_true in Hpk.
  unfold findMatchingTemplate, findApplicableTemplate. rewrite Hreq. simpl.
  rewrite Hpk. simpl. unfold bind, readIndex. fold (index w).
  by rewrite Hrun.
Qed.

(** ** The enforcement loop *)

Lemma setsOverlap_fields (f g : option (list string)) :
  setsOverlap (of_field f) (of_field g) = true
  ↔ axisOverlap (default [] f) (default [] g).
Proof.
  unfold axisOverlap. destruct f as [a|], g as [b|]; simpl.
  - apply setsOverlap_arrays.
  - change (setsOverlap (Array a) Absent) with (setsOverlap (Array a) (Array [])).
    apply setsOverlap_arrays.
  - change (setsOverlap Absent (Array b)) with (setsOverlap (Array []) (Array b)).
    apply setsOverlap_arrays.
  - change (setsOverlap Absent Absent) with (setsOverlap (Array []) (Array [])).
    apply setsOverlap_arrays.
Qed.

Lemma overlap_test (t o : Template) :
  setsOverlap (of_field (tpl_assignedProjects t)) (of_field (tpl_assignedProjects o))
  && setsOverlap (of_field (tpl_assignedIssueTypes t))
                 (of_field (tpl_assignedIssueTypes o)) = true
  ↔ scopeOverlap t o.
Proof.
  unfold scopeOverlap, projectsOf, issueTypesOf.
  by rewrite andb_true_iff, !setsOverlap_fields.
Qed.

Lemma deactivate_not_active (n : nat) (o : Template) : ¬ isActive (deactivate n o).
Proof. unfold isActive. simpl. congruence. Qed.

Lemma enforced_nil (t : Template) (w : World) : enforced t [] w w [].
Proof.
  split; simpl.
  - reflexivity.
  - reflexivity.
  - lia.
  - constructor.
  - constructor.
  - intros id. split; [intros H|intros [H _]]; by apply elem_of_nil in H.
  - intros id H. by apply elem_of_nil in H.
  - reflexivity.
Qed.

Lemma enforced_skip (t : Template) (id : string) (idx : list string)
    (w w' : World) (res : list string) :
  ¬ competitor t (templates w) id →
  enforced t idx w w' res →
  enforced t (id :: idx) w w' res.
Proof.
  intros Hno [? ? ? ? ? Hexact ? ?]. split; [done|done|done| |done| |done|done].
  - by apply sublist_cons.
  - intros id'. rewrite Hexact, elem_of_cons. split.
    + intros [? ?]. auto.
    + intros [[->|?] ?]; [done|auto].
Qed.

Lemma enforced_take (t : Template) (id : string) (idx : list string)
    (w w' : World) (res : list string) (o : Template) :
  id ≠ tpl_id t →
  templates w !! id = Some o →
  ¬ isDeleted o → isActive o → scopeOverlap t o →
  enforced t idx
    (mkWorld (mkStore (st_index (w_store w))
                      (<[id := deactivate (w_clock w) o]> (st_templates (w_store w)))
                      (st_config (w_store w)))
             (S (w_clock w))) w' res →
  enforced t (id :: idx) w w' (id :: res).
Proof.
  intros Hne Hlook Hdel Hact Hov [Hidx Hcfg Hclk Hord Hnd Hexact Hdeact Hoth].
  unfold templates, index in *; simpl in *.
  assert (Hnotin : id ∉ res).
  { intros Hin. apply Hexact in Hin as [_ [_ (o' & Ho' & _ & Ha & _)]].
    rewrite lookup_insert_eq in Ho'. injection Ho' as <-.
    by apply deactivate_not_active in Ha. }
  split; unfold templates, index; simpl.
  - exact Hidx.
  - exact Hcfg.
  - lia.
  - by apply sublist_skip.
  - by constructor.
  - intros id'. rewrite !elem_of_cons, Hexact. split.
    + intros [->|[Hin [Hne' (o' & Ho' & Hrest)]]].
      * split; [by left|]. split; [done|]. by exists o.
      * destruct (decide (id' = id)) as [->|Hd].
        -- rewrite lookup_insert_eq in Ho'. injection Ho' as <-.
           destruct Hrest as (_ & Ha & _). by apply deactivate_not_active in Ha.
        -- rewrite lookup_insert_ne in Ho' by done.
           split; [by right|]. split; [done|]. by exists o'.
    + intros [[->|Hin] [Hne' (o' & Ho' & Hrest)]]; [by left|].
      destruct (decide (id' = id)) as [->|Hd]; [by left|]. right.
      split; [done|]. split; [done|]. exists o'.
      by rewrite lookup_insert_ne.
  - intros id' Hin. apply elem_of_cons in Hin as [->|Hin].
    + exists o, (w_clock w). split; [done|].
      rewrite (Hoth id Hnotin). by rewrite lookup_insert_eq.
    + destruct (Hdeact id' Hin) as (o' & n & Ho' & Hw').
      exists o', n. split; [|done].
      rewrite lookup_insert_ne in Ho'; [done|]. by intros ->.
  - intros id' Hin. apply not_elem_of_cons in Hin as [Hd Hin].
    rewrite (Hoth id' Hin). by rewrite lookup_insert_ne.
Qed.

Lemma enforce_loop_enforced (t : Template) (idx : list string) :
  ∀ acc w, ∃ res w',
    enforce_loop t idx acc w = (Ok (acc ++ res), w') ∧ enforced t idx w w' res.
Proof.
  induction idx as [|id idx IH]; intros acc w; simpl.
  - exists [], w. rewrite app_nil_r. split; [reflexivity|apply enforced_nil].
  - case_bool_decide as Hid.
    { destruct (IH acc w) as (res & w' & Hrun & Henf). exists res, w'.
      split; [exact Hrun|]. apply enforced_skip; [|exact Henf].
      intros [Hne _]. done. }
    unfold bind at 1, storage_get at 1. fold (templates w).
    destruct (templates w !! id) as [o|] eqn:Hlook.
    2:{ destruct (IH acc w) as (res & w' & Hrun & Henf). exists res, w'.
        split; [exact Hrun|]. apply enforced_skip; [|exact Henf].
        intros [_ (o & Ho & _)]. congruence. }
    destruct (truthy_flag (tpl_deleted o)) eqn:Hdel.
    { destruct (IH acc w) as (res & w' & Hrun & Henf). exists res, w'.
      split; [exact Hrun|]. apply enforced_skip; [|exact Henf].
      intros [_ (o' & Ho & Hd & _)]. simplify_eq.
      by apply truthy_flag_true in Hdel. }
    destruct (truthy_flag (tpl_active o)) eqn:Hact; simpl.
    2:{ destruct (IH acc w) as (res & w' & Hrun & Henf). exists res, w'.
        split; [exact Hrun|]. apply enforced_skip; [|exact Henf].
        intros [_ (o' & Ho & _ & Ha & _)]. simplify_eq.
        apply truthy_flag_false in Hact. done. }
    destruct (setsOverlap (of_field (tpl_assignedProjects t))
                          (of_field (tpl_assignedProjects o))
              && setsOverlap (of_field (tpl_assignedIssueTypes t))
                             (of_field (tpl_assignedIssueTypes o))) eqn:Hov.
    2:{ destruct (IH acc w) as (res & w' & Hrun & Henf). exists res, w'.
        split; [exact Hrun|]. apply enforced_skip; [|exact Henf].
        intros [_ (o' & Ho & _ & _ & Hs)]. simplify_eq.
        apply overlap_test in Hs. congruence. }
    unfold bind, nowIso, storage_set; simpl.
    destruct (IH (acc ++ [id])
      (mkWorld (mkStore (st_index (w_store w))
                        (<[id := deactivate (w_clock w) o]> (st_templates (w_store w)))
                        (st_config (w_store w)))
               (S (w_clock w)))) as (res & w' & Hrun & Henf).
    exists (id :: res), w'. split.
    + unfold deactivate in Hrun. rewrite Hrun. by rewrite <- app_assoc.
    + apply (enforced_take t id idx w w' res o); try done.
      * by apply truthy_flag_false.
      * by apply truthy_flag_true.
      * by apply overlap_test.
Qed.

Lemma enforce_enforced (t : Template) (w : World) :
  isActive t →
  ∃ res w', enforceUniqueActiveTemplates t w = (Ok res, w')
            ∧ enforced t (index w) w w' res.
Proof.
  intros Hact. apply truthy_flag_true in Hact.
  unfold enforceUniqueActiveTemplates. rewrite Hact. simpl.
  unfold bind, readIndex. fold (index w).
  destruct (enforce_loop_enforced t (index w) [] w) as (res & w' & Hrun & Henf).
  exists res, w'. by split.
Qed.

Lemma enforce_inactive (t : Template) (w : World) :
  ¬ isActive t → enforceUniqueActiveTemplates t w = (Ok [], w).
Proof.
  intros Hact. apply truthy_flag_false in Hact.
  unfold enforceUniqueActiveTemplates. by rewrite Hact.
Qed.

Lemma world_eq (w w' : World) :
  index w' = index w →
  st_config (w_store w') = st_config (w_store w) →
  w_clock w' = w_clock w →
  (∀ id, templates w' !! id = templates w !! id) →
  w' = w.
Proof.
  destruct w as [[i tm c] k], w' as [[i' tm' c'] k'].
  unfold index, templates; simpl. intros -> -> -> H.
  by rewrite (map_eq tm' tm H).
Qed.

(** After an enforcement pass for [t], the index holds no competitor of [t]. *)
Lemma enforced_no_competitor (t : Template) (w w' : World) (res : list string)
    (id : string) :
  enforced t (index w) w w' res →
  id ∈ index w → ¬ competitor t (templates w') id.
Proof.
  intros Henf Hin [Hne (o & Ho & Hdel & Hact & Hov)].
  destruct (decide (id ∈ res)) as [Hres|Hres].
  - destruct (enf_deactivated _ _ _ _ _ Henf id Hres) as (o' & n & _ & Ho').
    rewrite Ho in Ho'. injection Ho' as ->.
    by apply deactivate_not_active in Hact.
  - rewrite (enf_others _ _ _ _ _ Henf id Hres) in Ho.
    apply Hres. apply (enf_exact _ _ _ _ _ Henf). split; [done|].
    split; [done|]. by exists o.
Qed.

(** C6. Running the enforcement for a template and running it again on the
    resulting state deactivates nothing the second time, and the second run
    leaves the state as it is. *)
Theorem C6_enforce_twice_second_empty (t : Template) (w : World) :
  ∃ deactivated w',
    enforceUniqueActiveTemplates t w = (Ok deactivated, w')
    ∧ enforceUniqueActiveTemplates t w' = (Ok [], w').
Proof.
  destruct (decide (isActive t)) as [Hact|Hact].
  2:{ exists [], w. by rewrite !enforce_inactive. }
  destruct (enforce_enforced t w Hact) as (d1 & w1 & Hrun1 & Henf1).
  destruct (enforce_enforced t w1 Hact) as (d2 & w2 & Hrun2 & Henf2).
  exists d1, w1. split; [exact Hrun1|].
  assert (Hd2 : d2 = []).
  { destruct d2 as [|id d2]; [reflexivity|]. exfalso.
    assert (Hin : id ∈ id :: d2) by (apply elem_of_cons; by left).
    apply (enf_exact _ _ _ _ _ Henf2) in Hin as [Hin Hc].
    rewrite (enf_index _ _ _ _ _ Henf1) in Hin.
    by apply (enforced_no_competitor t w w1 d1 id). }
  subst d2. rewrite Hrun2. f_equal.
  apply world_eq.
  - apply (enf_index _ _ _ _ _ Henf2).
  - apply (enf_config _ _ _ _ _ Henf2).
  - rewrite (enf_clock _ _ _ _ _ Henf2). simpl. lia.
  - intros id. apply (enf_others _ _ _ _ _ Henf2). apply not_elem_of_nil.
Qed.

(** ** Activation *)

Lemma truthy_id_Some (id : string) : id ≠ "" → truthy_id (Some id) = true.
Proof. intros H. by apply truthy_string_true. Qed.

(** Storing [t'] under its own id does not change who competes with it, as
    long as [t'] has the scope of [t]. *)
Lemma competitor_insert_self (t t' : Template) (tm : gmap string Template)
    (id : string) :
  tpl_id t' = tpl_id t →
  tpl_assignedProjects t' = tpl_assignedProjects t →
  tpl_assignedIssueTypes t' = tpl_assignedIssueTypes t →
  competitor t' (<[tpl_id t := t']> tm) id ↔ competitor t tm id.
Proof.
  intros Hid Hp Hi. unfold competitor, scopeOverlap, projectsOf, issueTypesOf.
  rewrite Hid, Hp, Hi. split; intros [Hne H]; (split; [done|]).
  - by rewrite lookup_insert_ne in H.
  - by rewrite lookup_insert_ne.
Qed.

(** C2. Activating an existing, non-deleted template [t] (stored under its
    own id) succeeds; afterwards no other record of the index that is not
    deleted and overlaps [t] on both axes is active; and the returned list
    holds exactly the ids of the records that competed with [t] before the
    call (other id, not deleted, active, overlapping), each once, in index
    order, never [t]'s own id: those records are now deactivated and every
    other record is as it was. *)
Theorem C2_setTemplateActive_deactivates_overlapping
    (req : Request ActivePayload) (w : World) (id : string) (t : Template) :
  payload req = mkActivePayload (Some id) (Some true) →
  id ≠ "" →
  templates w !! id = Some t →
  ¬ isDeleted t →
  tpl_id t = id →
  ∃ deactivated w',
    setTemplateActive req w
      = (Ok (set_updatedAt (w_clock w) (set_active true t), deactivated), w')
    ∧ templates w' !! id = Some (set_updatedAt (w_clock w) (set_active true t))
    ∧ index w' = index w
    ∧ (∀ id' o, id' ∈ index w → id' ≠ id → templates w' !! id' = Some o →
         ¬ isDeleted o → scopeOverlap t o → ¬ isActive o)
    ∧ deactivated `sublist_of` (index w)
    ∧ NoDup deactivated
    ∧ (id ∉ deactivated)
    ∧ (∀ id', id' ∈ deactivated ↔ id' ∈ index w ∧ competitor t (templates w) id')
    ∧ (∀ id', id' ∈ deactivated →
         ∃ o n, templates w !! id' = Some o
                ∧ templates w' !! id' = Some (deactivate n o))
    ∧ (∀ id', id' ∉ deactivated → id' ≠ id →
         templates w' !! id' = templates w !! id').
Proof.
  intros Hreq Hid Hlook Hdel Hself.
  set (t' := set_updatedAt (w_clock w) (set_active true t)).
  set (w1 := mkWorld (mkStore (st_index (w_store w))
                              (<[id := t']> (st_templates (w_store w)))
                              (st_config (w_store w)))
                     (S (w_clock w))).
  destruct (enforce_enforced t' w1) as (res & w' & Hrun & Henf); [reflexivity|].
  assert (Hcomp : ∀ id', competitor t' (templates w1) id' ↔ competitor t (templates w) id').
  { intros id'. unfold w1, templates; simpl. rewrite <- Hself.
    by apply competitor_insert_self. }
  assert (Hnotin : id ∉ res).
  { intros Hin. apply (enf_exact _ _ _ _ _ Henf) in Hin as [_ [Hne _]].
    apply Hne. by rewrite <- Hself. }
  exists res, w'. split.
  { apply truthy_string_true in Hid. apply truthy_flag_false in Hdel.
    unfold templates in Hlook.
    unfold setTemplateActive. rewrite Hreq. simpl. rewrite Hid. simpl.
    unfold bind at 1, storage_get at 1. rewrite Hlook, Hdel.
    unfold bind, nowIso, storage_set; simpl. fold t'. fold w1.
    by rewrite Hrun. }
  split.
  { rewrite (enf_others _ _ _ _ _ Henf id Hnotin).
    unfold w1, templates; simpl. by rewrite lookup_insert_eq. }
  split; [apply (enf_index _ _ _ _ _ Henf)|].
  split.
  { intros id' o Hin Hne Ho Hd Hov Hact.
    apply (enforced_no_competitor t' w1 w' res id' Henf Hin).
    split; [by rewrite <- Hself in Hne|]. by exists o. }
  split; [apply (enf_order _ _ _ _ _ Henf)|].
  split; [apply (enf_nodup _ _ _ _ _ Henf)|].
  split; [exact Hnotin|].
  split.
  { intros id'. rewrite (enf_exact _ _ _ _ _ Henf id'), Hcomp. reflexivity. }
  split.
  { intros id' Hin.
    destruct (enf_deactivated _ _ _ _ _ Henf id' Hin) as (o & n & Ho & Ho').
    exists o, n. split; [|exact Ho'].
    unfold w1, templates in Ho; simpl in Ho.
    rewrite lookup_insert_ne in Ho; [exact Ho|]. by intros ->. }
  intros id' Hin Hne. rewrite (enf_others _ _ _ _ _ Henf id' Hin).
  unfold w1, templates; simpl. by rewrite lookup_insert_ne.
Qed.

(** ** Running resolvers step by step *)

Lemma bind_ok {A B} (m : M A) (k : A → M B) (w w' : World) (a : A) :
  m w = (Ok a, w') → bind m k w = k a w'.
Proof. intros H. unfold bind. by rewrite H. Qed.

Lemma bind_throw {A B} (m : M A) (k : A → M B) (w w' : World) (e : Error) :
  m w = (Throw e, w') → bind m k w = (Throw e, w').
Proof. intros H. unfold bind. by rewrite H. Qed.

Lemma storage_get_run (id : string) (w : World) :
  storage_get id w = (Ok (templates w !! id), w).
Proof. reflexivity. Qed.

Lemma readGlobalConfig_run (w : World) : readGlobalConfig w = (Ok (config w), w).
Proof. reflexivity. Qed.

Lemma isAdminRequest_run {P} (req : Request P) (w : World) :
  isAdminRequest req w = (Ok (isAdminOf (config w) (context_user req)), w).
Proof.
  unfold isAdminRequest, isAdminOf, getRequestUser.
  destruct (context_user req) as [u|]; [|reflexivity].
  rewrite (bind_ok _ _ _ _ _ (readGlobalConfig_run w)).
  destruct (includes (admins (config w)) (accountId u)); [reflexivity|].
  by destruct (isProductAdmin u), (isAdmin u).
Qed.

(** An enforcement pass keeps every stored record, its scope and its
    deletion mark. *)
Lemma enforce_keeps (t : Template) (w : World) :
  ∃ d w',
    enforceUniqueActiveTemplates t w = (Ok d, w')
    ∧ ∀ id o, templates w !! id = Some o →
        ∃ o', templates w' !! id = Some o' ∧ same_scope o o'.
Proof.
  destruct (decide (isActive t)) as [Hact|Hact].
  - destruct (enforce_enforced t w Hact) as (d & w' & Hrun & Henf).
    exists d, w'. split; [exact Hrun|]. intros id o Ho.
    destruct (decide (id ∈ d)) as [Hin|Hin].
    + destruct (enf_deactivated _ _ _ _ _ Henf id Hin) as (o0 & n & Ho0 & Ho').
      rewrite Ho in Ho0. injection Ho0 as <-.
      exists (deactivate n o). split; [exact Ho'|]. by repeat split.
    + exists o. rewrite (enf_others _ _ _ _ _ Henf id Hin).
      split; [exact Ho|]. by repeat split.
  - exists [], w. split; [by apply enforce_inactive|]. intros id o Ho. exists o.
    split; [exact Ho|]. by repeat split.
Qed.

Lemma getTemplateAssignments_run (greq : Request (option string)) (w : World)
    (id : string) (o : Template) :
  payload greq = Some id → id ≠ "" →
  templates w !! id = Some o → ¬ isDeleted o →
  getTemplateAssignments greq w = (Ok (projectsOf o, issueTypesOf o), w).
Proof.
  intros Hreq Hid Ho Hdel. apply truthy_string_true in Hid.
  apply truthy_flag_false in Hdel.
  unfold getTemplateAssignments. rewrite Hreq. simpl. rewrite Hid. simpl.
  rewrite (bind_ok _ _ _ _ _ (storage_get_run id w)). by rewrite Ho, Hdel.
Qed.

(** ** Assignment *)

Lemma auth_projects_step {P} (req : Request P) (w : World) (t : Template)
    (projects : list string) :
  (if negb (allowAllUsers (config w))
      && negb (isAdminOf (config w) (context_user req))
   then if isOwner (getRequestUser req) t then ret ()
        else if forallb (isProjectAdmin req) projects then ret ()
             else throw NotAuthorizedAssignProjects
   else ret ()) w
  = if mayAssignProjects req w t projects then (Ok (), w)
    else (Throw NotAuthorizedAssignProjects, w).
Proof.
  unfold mayAssignProjects, mayEdit, getRequestUser.
  by destruct (allowAllUsers (config w)),
    (isAdminOf (config w) (context_user req)),
    (isOwner (context_user req) t),
    (forallb (isProjectAdmin req) projects).
Qed.

Lemma auth_edit_step (user : option User) (w : World) (t : Template) (e : Error) :
  (if negb (allowAllUsers (config w)) && negb (isAdminOf (config w) user)
   then if isOwner user t then ret () else throw e
   else ret ()) w
  = if mayEdit w user t then (Ok (), w) else (Throw e, w).
Proof.
  unfold mayEdit.
  by destruct (allowAllUsers (config w)), (isAdminOf (config w) user),
    (isOwner user t).
Qed.

(** The tail shared by the two assignment resolvers: store the record, run
    the enforcement when it is active, return. *)
Lemma store_then_enforce (id : string) (t2 : Template) (w1 : World)
    (r : result (Template * list string)) (w' : World) :
  bind (storage_set id t2)
    (λ _, bind (if truthy_flag (tpl_active t2)
                then enforceUniqueActiveTemplates t2 else ret [])
               (λ deactivated, ret (t2, deactivated))) w1 = (r, w') →
  (∃ d, r = Ok (t2, d))
  ∧ ∃ o, templates w' !! id = Some o ∧ same_scope t2 o.
Proof.
  unfold bind at 1, storage_set at 1.
  set (w2 := mkWorld _ _). intros Hrun.
  assert (Hw2 : templates w2 !! id = Some t2).
  { unfold w2, templates; simpl. by rewrite lookup_insert_eq. }
  destruct (truthy_flag (tpl_active t2)).
  - destruct (enforce_keeps t2 w2) as (d & w3 & Hrun2 & Hkeep).
    rewrite (bind_ok _ _ _ _ _ Hrun2) in Hrun. injection Hrun as <- <-.
    split; [by exists d|]. by apply Hkeep.
  - injection Hrun as <- <-. split; [by exists []|].
    exists t2. split; [exact Hw2|]. by repeat split.
Qed.

Lemma assignTemplateToProjects_run (req : Request AssignPayload) (w : World)
    (id : string) (t : Template) (projects : list string) (second : arg) :
  payload req = mkAssignPayload (Some id) (Array projects) second →
  id ≠ "" → templates w !! id = Some t → ¬ isDeleted t →
  mayAssignProjects req w t projects = true →
  ∃ r w', assignTemplateToProjects req w = (Ok r, w')
    ∧ ∃ o, templates w' !! id = Some o ∧ ¬ isDeleted o
        ∧ tpl_assignedProjects o = Some projects
        ∧ tpl_assignedIssueTypes o = secondary second (tpl_assignedIssueTypes t).
Proof.
  intros Hreq Hid Ho Hdel Hauth. apply truthy_string_true in Hid.
  pose proof Hdel as Hdel'. apply truthy_flag_false in Hdel'.
  destruct (assignTemplateToProjects req w) as [r w'] eqn:Hrun.
  unfold assignTemplateToProjects in Hrun. rewrite Hreq in Hrun.
  cbv zeta in Hrun. cbn [ap_id ap_projects ap_issueTypes truthy_id] in Hrun.
  rewrite Hid in Hrun. cbn [negb isArray array_or_empty] in Hrun.
  change (default "" (Some id)) with id in Hrun.
  rewrite (bind_ok _ _ _ _ _ (storage_get_run id w)), Ho, Hdel' in Hrun.
  rewrite (bind_ok _ _ _ _ _ (readGlobalConfig_run w)) in Hrun.
  rewrite (bind_ok _ _ _ _ _ (isAdminRequest_run req w)) in Hrun.
  erewrite bind_ok in Hrun; [|rewrite auth_projects_step, Hauth; reflexivity].
  unfold bind at 1, nowIso at 1 in Hrun.
  apply store_then_enforce in Hrun as [[d ->] (o & Hlook & Hp & Hi & Hd)].
  eexists _, w'. split; [reflexivity|]. exists o. split; [exact Hlook|].
  split; [unfold isDeleted; rewrite Hd; by destruct second|].
  split; [rewrite Hp; by destruct second|].
  rewrite Hi. by destruct second.
Qed.

Lemma assignTemplateToIssueTypes_run (req : Request AssignPayload) (w : World)
    (id : string) (t : Template) (issueTypes : list string) (second : arg) :
  payload req = mkAssignPayload (Some id) second (Array issueTypes) →
  id ≠ "" → templates w !! id = Some t → ¬ isDeleted t →
  mayEdit w (context_user req) t = true →
  ∃ r w', assignTemplateToIssueTypes req w = (Ok r, w')
    ∧ ∃ o, templates w' !! id = Some o ∧ ¬ isDeleted o
        ∧ tpl_assignedIssueTypes o = Some issueTypes
        ∧ tpl_assignedProjects o = secondary second (tpl_assignedProjects t).
Proof.
  intros Hreq Hid Ho Hdel Hauth. apply truthy_string_true in Hid.
  pose proof Hdel as Hdel'. apply truthy_flag_false in Hdel'.
  destruct (assignTemplateToIssueTypes req w) as [r w'] eqn:Hrun.
  unfold assignTemplateToIssueTypes in Hrun. rewrite Hreq in Hrun.
  cbv zeta in Hrun. cbn [ap_id ap_projects ap_issueTypes truthy_id] in Hrun.
  rewrite Hid in Hrun. cbn [negb isArray array_or_empty] in Hrun.
  change (default "" (Some id)) with id in Hrun.
  rewrite (bind_ok _ _ _ _ _ (storage_get_run id w)), Ho, Hdel' in Hrun.
  rewrite (bind_ok _ _ _ _ _ (readGlobalConfig_run w)) in Hrun.
  rewrite (bind_ok _ _ _ _ _ (isAdminRequest_run req w)) in Hrun.
  erewrite bind_ok in Hrun; [|unfold getRequestUser; rewrite auth_edit_step, Hauth; reflexivity].
  unfold bind at 1, nowIso at 1 in Hrun.
  apply store_then_enforce in Hrun as [[d ->] (o & Hlook & Hp & Hi & Hd)].
  eexists _, w'. split; [reflexivity|]. exists o. split; [exact Hlook|].
  split; [unfold isDeleted; rewrite Hd; by destruct second|].
  split; [rewrite Hi; by destruct second|].
  rewrite Hp. by destruct second.
Qed.

(** C9. For an existing, non-deleted template and a permitted caller, an
    assignment of a set of projects and a set of issue types (through
    either assignment resolver) succeeds, and [getTemplateAssignments] on
    the same id right after it returns exactly these two sets. *)
Theorem C9_assign_then_getTemplateAssignments
    (req : Request AssignPayload) (greq : Request (option string))
    (w : World) (id : string) (t : Template)
    (projects issueTypes : list string) :
  payload req = mkAssignPayload (Some id) (Array projects) (Array issueTypes) →
  payload greq = Some id →
  id ≠ "" →
  templates w !! id = Some t →
  ¬ isDeleted t →
  (mayAssignProjects req w t projects = true →
   ∃ r w', assignTemplateToProjects req w = (Ok r, w')
     ∧ getTemplateAssignments greq w' = (Ok (projects, issueTypes), w'))
  ∧ (mayEdit w (context_user req) t = true →
     ∃ r w', assignTemplateToIssueTypes req w = (Ok r, w')
       ∧ getTemplateAssignments greq w' = (Ok (projects, issueTypes), w')).
Proof.
  intros Hreq Hgreq Hid Ho Hdel. split; intros Hauth.
  - destruct (assignTemplateToProjects_run req w id t projects (Array issueTypes))
      as (r & w' & Hrun & o & Hlook & Hd & Hp & Hi); try done.
    exists r, w'. split; [exact Hrun|].
    rewrite (getTemplateAssignments_run greq w' id o Hgreq Hid Hlook Hd).
    unfold projectsOf, issueTypesOf. by rewrite Hp, Hi.
  - destruct (assignTemplateToIssueTypes_run req w id t issueTypes (Array projects))
      as (r & w' & Hrun & o & Hlook & Hd & Hi & Hp); try done.
    exists r, w'. split; [exact Hrun|].
    rewrite (getTemplateAssignments_run greq w' id o Hgreq Hid Hlook Hd).
    unfold projectsOf, issueTypesOf. by rewrite Hp, Hi.
Qed.

(** ** Failures of the assignment resolvers *)

Lemma missing_template (w : World) (id : string) :
  (templates w !! id = None ∨ ∃ t, templates w !! id = Some t ∧ isDeleted t) →
  ∀ {A} (k : Template → M A),
    bind (storage_get id)
      (λ tpl, match tpl with
              | None => throw TemplateNotFound
              | Some tpl => if truthy_flag (tpl_deleted tpl)
                            then throw TemplateNotFound else k tpl
              end) w
    = (Throw TemplateNotFound, w).
Proof.
  intros H A k. rewrite (bind_ok _ _ _ _ _ (storage_get_run id w)).
  destruct H as [->|(t & -> & Hdel)]; [reflexivity|].
  apply truthy_flag_true in Hdel. by rewrite Hdel.
Qed.

Lemma setTemplateActive_not_found (req : Request ActivePayload) (w : World)
    (id : string) :
  sp_id (payload req) = Some id → id ≠ "" →
  (templates w !! id = None ∨ ∃ t, templates w !! id = Some t ∧ isDeleted t) →
  setTemplateActive req w = (Throw TemplateNotFound, w).
Proof.
  intros Hreq Hid Hmiss. apply truthy_string_true in Hid.
  unfold setTemplateActive. rewrite Hreq. cbv zeta. cbn [truthy_id].
  rewrite Hid. cbn [negb]. change (default "" (Some id)) with id.
  by apply missing_template.
Qed.

Lemma getTemplateAssignments_not_found (greq : Request (option string))
    (w : World) (id : string) :
  payload greq = Some id → id ≠ "" →
  (templates w !! id = None ∨ ∃ t, templates w !! id = Some t ∧ isDeleted t) →
  getTemplateAssignments greq w = (Throw TemplateNotFound, w).
Proof.
  intros Hreq Hid Hmiss. apply truthy_string_true in Hid.
  unfold getTemplateAssignments. rewrite Hreq. cbv zeta. cbn [truthy_id].
  rewrite Hid. cbn [negb]. change (default "" (Some id)) with id.
  by apply missing_template.
Qed.

Lemma assignTemplateToProjects_not_found (req : Request AssignPayload)
    (w : World) (id : string) :
  ap_id (payload req) = Some id → id ≠ "" →
  isArray (ap_projects (payload req)) = true →
  (templates w !! id = None ∨ ∃ t, templates w !! id = Some t ∧ isDeleted t) →
  assignTemplateToProjects req w = (Throw TemplateNotFound, w).
Proof.
  intros Hreq Hid Harr Hmiss. apply truthy_string_true in Hid.
  unfold assignTemplateToProjects. rewrite Hreq, Harr. cbv zeta. cbn [truthy_id].
  rewrite Hid. cbn [negb]. change (default "" (Some id)) with id.
  by apply missing_template.
Qed.

Lemma assignTemplateToIssueTypes_not_found (req : Request AssignPayload)
    (w : World) (id : string) :
  ap_id (payload req) = Some id → id ≠ "" →
  isArray (ap_issueTypes (payload req)) = true →
  (templates w !! id = None ∨ ∃ t, templates w !! id = Some t ∧ isDeleted t) →
  assignTemplateToIssueTypes req w = (Throw TemplateNotFound, w).
Proof.
  intros Hreq Hid Harr Hmiss. apply truthy_string_true in Hid.
  unfold assignTemplateToIssueTypes. rewrite Hreq, Harr. cbv zeta. cbn [truthy_id].
  rewrite Hid. cbn [negb]. change (default "" (Some id)) with id.
  by apply missing_template.
Qed.

Lemma assign_primary_not_array (req : Request AssignPayload) (w : World) :
  truthy_id (ap_id (payload req)) = true →
  (isArray (ap_projects (payload req)) = false →
   assignTemplateToProjects req w = (Throw ProjectsMustBeArray, w))
  ∧ (isArray (ap_issueTypes (payload req)) = false →
     assignTemplateToIssueTypes req w = (Throw IssueTypesMustBeArray, w)).
Proof.
  intros Hid. split; intros Harr.
  - unfold assignTemplateToProjects. by rewrite Hid, Harr.
  - unfold assignTemplateToIssueTypes. by rewrite Hid, Harr.
Qed.

(** C8, as the code has it.  With a non-empty id that is unknown or
    soft-deleted, [setTemplateActive] and [getTemplateAssignments] throw
    the NotFound error, and so do the two assignment resolvers when their
    own axis (projects for [assignTemplateToProjects], issue types for
    [assignTemplateToIssueTypes]) is an array; when that axis is not an
    array they throw a Validation error.  Each failure leaves the state
    untouched.  The other axis, when supplied and not an array, is not
    rejected: for an existing template and a permitted caller the call
    succeeds and stores the empty set on that axis. *)
Theorem C8_not_found_and_validation (w : World) (id : string) :
  id ≠ "" →
  ((templates w !! id = None ∨ ∃ t, templates w !! id = Some t ∧ isDeleted t) →
   condition TemplateNotFound = NotFound
   ∧ (∀ req, sp_id (payload req) = Some id →
        setTemplateActive req w = (Throw TemplateNotFound, w))
   ∧ (∀ greq, payload greq = Some id →
        getTemplateAssignments greq w = (Throw TemplateNotFound, w))
   ∧ (∀ req, ap_id (payload req) = Some id →
        isArray (ap_projects (payload req)) = true →
        assignTemplateToProjects req w = (Throw TemplateNotFound, w))
   ∧ (∀ req, ap_id (payload req) = Some id →
        isArray (ap_issueTypes (payload req)) = true →
        assignTemplateToIssueTypes req w = (Throw TemplateNotFound, w)))
  ∧ (condition ProjectsMustBeArray = Validation
     ∧ condition IssueTypesMustBeArray = Validation
     ∧ (∀ req, ap_id (payload req) = Some id →
          isArray (ap_projects (payload req)) = false →
          assignTemplateToProjects req w = (Throw ProjectsMustBeArray, w))
     ∧ (∀ req, ap_id (payload req) = Some id →
          isArray (ap_issueTypes (payload req)) = false →
          assignTemplateToIssueTypes req w = (Throw IssueTypesMustBeArray, w)))
  ∧ (∀ t, templates w !! id = Some t → ¬ isDeleted t →
       (∀ req projects,
          payload req = mkAssignPayload (Some id) (Array projects) NotArray →
          mayAssignProjects req w t projects = true →
          ∃ r w', assignTemplateToProjects req w = (Ok r, w')
            ∧ ∃ o, templates w' !! id = Some o
                ∧ tpl_assignedProjects o = Some projects
                ∧ tpl_assignedIssueTypes o = Some [])
       ∧ (∀ req issueTypes,
            payload req = mkAssignPayload (Some id) NotArray (Array issueTypes) →
            mayEdit w (context_user req) t = true →
            ∃ r w', assignTemplateToIssueTypes req w = (Ok r, w')
              ∧ ∃ o, templates w' !! id = Some o
                  ∧ tpl_assignedIssueTypes o = Some issueTypes
                  ∧ tpl_assignedProjects o = Some [])).
Proof.
  intros Hid. split; [|split].
  - intros Hmiss. split; [reflexivity|]. split; [|split; [|split]].
    + intros req Hreq. by apply (setTemplateActive_not_found req w id).
    + intros greq Hreq. by apply (getTemplateAssignments_not_found greq w id).
    + intros req Hreq Harr. by apply (assignTemplateToProjects_not_found req w id).
    + intros req Hreq Harr. by apply (assignTemplateToIssueTypes_not_found req w id).
  - split; [reflexivity|]. split; [reflexivity|]. split.
    + intros req Hreq Harr. apply assign_primary_not_array; [|exact Harr].
      rewrite Hreq. by apply truthy_id_Some.
    + intros req Hreq Harr. apply assign_primary_not_array; [|exact Harr].
      rewrite Hreq. by apply truthy_id_Some.
  - intros t Ho Hdel. split.
    + intros req projects Hreq Hauth.
      destruct (assignTemplateToProjects_run req w id t projects NotArray)
        as (r & w' & Hrun & o & Hlook & _ & Hp & Hi); try done.
      exists r, w'. split; [exact Hrun|]. by exists o.
    + intros req issueTypes Hreq Hauth.
      destruct (assignTemplateToIssueTypes_run req w id t issueTypes NotArray)
        as (r & w' & Hrun & o & Hlook & _ & Hi & Hp); try done.
      exists r, w'. split; [exact Hrun|]. by exists o.
Qed.

(** The claim of the specification fails on the secondary axis: alice
    assigns template A to project PROJ and supplies a value for
    [issueTypes] that is not an array; the call throws no Validation
    error, it returns and stores the empty set of issue types. *)
Lemma C8_counterexample_secondary_axis_not_rejected :
  isArray (ap_issueTypes (payload Scenario.assign_bad_issueTypes)) = false
  ∧ ap_issueTypes (payload Scenario.assign_bad_issueTypes) ≠ Absent
  ∧ ¬ (∃ e, (assignTemplateToProjects Scenario.assign_bad_issueTypes
               Scenario.activated).1 = Throw e
            ∧ condition e = Validation)
  ∧ succeeded (assignTemplateToProjects Scenario.assign_bad_issueTypes
                 Scenario.activated) = true
  ∧ (tpl_assignedIssueTypes
       <$> templates (assignTemplateToProjects Scenario.assign_bad_issueTypes
                        Scenario.activated).2 !! "tmpl_a")
     = Some (Some []).
Proof.
  split; [reflexivity|]. split; [discriminate|]. split.
  - intros (e & He & _). vm_compute in He. discriminate He.
  - vm_compute. done.
Qed.

Lemma C8_witness :
  "ghost" ≠ ""
  ∧ templates Scenario.activated !! "ghost" = None
  ∧ setTemplateActive (Scenario.activate "ghost" Scenario.alice) Scenario.activated
    = (Throw TemplateNotFound, Scenario.activated).
Proof.
  split; [discriminate|]. split; [vm_compute; reflexivity|].
  destruct (C8_not_found_and_validation Scenario.activated "ghost") as [H _];
    [discriminate|].
  destruct H as (_ & H & _); [left; vm_compute; reflexivity|].
  apply H. reflexivity.
Defined.

(** ** Authorization *)

Lemma edit_guard (user : option User) (w : World) (t : Template) :
  negb (allowAllUsers (config w)) && negb (isAdminOf (config w) user)
  && negb (isOwner user t) = negb (mayEdit w user t).
Proof.
  unfold mayEdit.
  by destruct (allowAllUsers (config w)), (isAdminOf (config w) user),
    (isOwner user t).
Qed.

(** The resolvers that check the caller reject the call, writing nothing,
    when the authorization decision is false. *)
Lemma guarded_resolvers_reject (w : World) (id : string) (t : Template) :
  id ≠ "" → templates w !! id = Some t →
  (∀ req, up_id (payload req) = Some id → ¬ isDeleted t →
     mayEdit w (context_user req) t = false →
     updateTemplate req w = (Throw NotAuthorizedUpdate, w))
  ∧ (∀ req, dp_id (payload req) = Some id →
       mayEdit w (context_user req) t = false →
       deleteTemplate req w = (Throw NotAuthorizedDelete, w))
  ∧ (∀ req projects second,
       payload req = mkAssignPayload (Some id) (Array projects) second →
       ¬ isDeleted t →
       mayAssignProjects req w t projects = false →
       assignTemplateToProjects req w = (Throw NotAuthorizedAssignProjects, w))
  ∧ (∀ req issueTypes second,
       payload req = mkAssignPayload (Some id) second (Array issueTypes) →
       ¬ isDeleted t →
       mayEdit w (context_user req) t = false →
       assignTemplateToIssueTypes req w = (Throw NotAuthorizedAssignIssueTypes, w)).
Proof.
  intros Hid Ho. apply truthy_string_true in Hid. split; [|split; [|split]].
  - intros req Hreq Hdel Hauth. apply truthy_flag_false in Hdel.
    unfold updateTemplate. rewrite Hreq. cbv zeta. cbn [truthy_id].
    rewrite Hid. cbn [negb]. change (default "" (Some id)) with id.
    rewrite (bind_ok _ _ _ _ _ (storage_get_run id w)), Ho, Hdel.
    rewrite (bind_ok _ _ _ _ _ (readGlobalConfig_run w)).
    rewrite (bind_ok _ _ _ _ _ (isAdminRequest_run req w)).
    unfold getRequestUser. by rewrite edit_guard, Hauth.
  - intros req Hreq Hauth.
    unfold deleteTemplate. rewrite Hreq. cbv zeta. cbn [truthy_id].
    rewrite Hid. cbn [negb]. change (default "" (Some id)) with id.
    rewrite (bind_ok _ _ _ _ _ (storage_get_run id w)), Ho.
    rewrite (bind_ok _ _ _ _ _ (isAdminRequest_run req w)).
    rewrite (bind_ok _ _ _ _ _ (readGlobalConfig_run w)).
    unfold getRequestUser. by rewrite edit_guard, Hauth.
  - intros req projects second Hreq Hdel Hauth. apply truthy_flag_false in Hdel.
    unfold assignTemplateToProjects. rewrite Hreq. cbv zeta.
    cbn [ap_id ap_projects ap_issueTypes truthy_id].
    rewrite Hid. cbn [negb isArray array_or_empty].
    change (default "" (Some id)) with id.
    rewrite (bind_ok _ _ _ _ _ (storage_get_run id w)), Ho, Hdel.
    rewrite (bind_ok _ _ _ _ _ (readGlobalConfig_run w)).
    rewrite (bind_ok _ _ _ _ _ (isAdminRequest_run req w)).
    erewrite bind_throw; [reflexivity|].
    by rewrite auth_projects_step, Hauth.
  - intros req issueTypes second Hreq Hdel Hauth. apply truthy_flag_false in Hdel.
    unfold assignTemplateToIssueTypes. rewrite Hreq. cbv zeta.
    cbn [ap_id ap_projects ap_issueTypes truthy_id].
    rewrite Hid. cbn [negb isArray array_or_empty].
    change (default "" (Some id)) with id.
    rewrite (bind_ok _ _ _ _ _ (storage_get_run id w)), Ho, Hdel.
    rewrite (bind_ok _ _ _ _ _ (readGlobalConfig_run w)).
    rewrite (bind_ok _ _ _ _ _ (isAdminRequest_run req w)).
    erewrite bind_throw; [reflexivity|].
    unfold getRequestUser. by rewrite auth_edit_step, Hauth.
Qed.

(** C4 at a failing input.  Mallory is no administrator, does not own
    template A, and not everyone is allowed: the authorization decision is
    false, and [updateTemplate] rejects her.  Yet her [setTemplateActive]
    returns and turns the stored record active, and her
    [duplicateTemplate] returns and adds a record that she owns at the head
    of the index. *)
Theorem C4_unguarded_activation_and_duplication :
  let w := Scenario.created in
  (mayEdit w (Some Scenario.mallory) <$> templates w !! "tmpl_a") = Some false
  ∧ (updateTemplate (Scenario.update_active "tmpl_a" Scenario.mallory) w).1
    = Throw NotAuthorizedUpdate
  ∧ (tpl_active <$> templates w !! "tmpl_a") = Some None
  ∧ succeeded (setTemplateActive (Scenario.activate "tmpl_a" Scenario.mallory) w) = true
  ∧ (tpl_active
       <$> templates (setTemplateActive (Scenario.activate "tmpl_a" Scenario.mallory) w).2
           !! "tmpl_a") = Some (Some true)
  ∧ succeeded (duplicateTemplate (Scenario.duplicate "tmpl_a" Scenario.mallory "tmpl_c") w)
    = true
  ∧ (tpl_owner
       <$> templates
             (duplicateTemplate (Scenario.duplicate "tmpl_a" Scenario.mallory "tmpl_c") w).2
           !! "tmpl_c") = Some (Some "mallory")
  ∧ index (duplicateTemplate (Scenario.duplicate "tmpl_a" Scenario.mallory "tmpl_c") w).2
    = "tmpl_c" :: index w.
Proof. vm_compute. done. Qed.

(** ** The uniqueness invariant *)

(** C1 at a failing input.  In the scenario, after alice has activated A,
    the invariant holds: A is the only active record.  Her
    [updateTemplate] with [active: true] on B then returns, deactivates
    nothing, and leaves A and B both active and not deleted, both covering
    the pair (PROJ, Bug): the invariant is broken. *)
Theorem C1_updateTemplate_breaks_uniqueness :
  one_active_per_pair Scenario.activated
  ∧ succeeded (updateTemplate (Scenario.update_active "tmpl_b" Scenario.alice)
                 Scenario.activated) = true
  ∧ (∃ a b, templates Scenario.updated !! "tmpl_a" = Some a
            ∧ templates Scenario.updated !! "tmpl_b" = Some b
            ∧ candidate a "PROJ" (Some "Bug")
            ∧ candidate b "PROJ" (Some "Bug"))
  ∧ ¬ one_active_per_pair Scenario.updated.
Proof.
  assert (Hpair : ∃ a b, templates Scenario.updated !! "tmpl_a" = Some a
            ∧ templates Scenario.updated !! "tmpl_b" = Some b
            ∧ candidate a "PROJ" (Some "Bug")
            ∧ candidate b "PROJ" (Some "Bug")).
  { eexists _, _. split; [vm_compute; reflexivity|].
    split; [vm_compute; reflexivity|].
    split; apply loop_test_candidate; vm_compute; done. }
  split; [|split; [|split]].
  - intros pk it id1 id2 t1 t2 Hin1 Hin2 H1 H2 Hc1 Hc2.
    assert (Hb : ∀ t, templates Scenario.activated !! "tmpl_b" = Some t →
                      ¬ isActive t).
    { intros t Ht. vm_compute in Ht. injection Ht as <-. discriminate. }
    assert (Hidx : index Scenario.activated = ["tmpl_b"; "tmpl_a"])
      by (vm_compute; reflexivity).
    rewrite Hidx in Hin1, Hin2.
    destruct Hc1 as (_ & Ha1 & _), Hc2 as (_ & Ha2 & _).
    apply elem_of_cons in Hin1 as [->|Hin1]; [by apply Hb in H1|].
    apply elem_of_cons in Hin2 as [->|Hin2]; [by apply Hb in H2|].
    apply list_elem_of_singleton in Hin1, Hin2. congruence.
  - vm_compute. reflexivity.
  - exact Hpair.
  - intros Hinv. destruct Hpair as (a & b & Ha & Hb & Hca & Hcb).
    assert (Hidx : index Scenario.updated = ["tmpl_b"; "tmpl_a"])
      by (vm_compute; reflexivity).
    assert (Heq : "tmpl_a" = "tmpl_b").
    { apply (Hinv "PROJ" (Some "Bug") "tmpl_a" "tmpl_b" a b); try done.
      - rewrite Hidx. apply elem_of_cons. right. apply elem_of_cons. by left.
      - rewrite Hidx. apply elem_of_cons. by left. }
    discriminate Heq.
Qed.

(** ** Creation *)

Lemma validateCreatePayload_run (p : CreatePayload) (w : World) :
  validateCreatePayload p w = (Ok (), w)
  ∨ validateCreatePayload p w = (Throw NameRequired, w).
Proof.
  unfold validateCreatePayload. destruct (cp_name p) as [name|]; [|by right].
  destruct (negb (truthy_text name) || bool_decide (length (trim name) = 0));
    [by right|by left].
Qed.


(** C10. The record that a successful [createTemplate] stores (under the
    generated id, at the head of the index) has no [active] flag and no
    assigned scope; the [projects] argument is kept in the field
    [projects].  Matching and enforcement skip the record as inactive, and
    its scope is the wildcard on both axes whatever [projects] was: the
    matching test accepts every pair and the overlap test every set of
    projects. *)
Theorem C10_createTemplate_inactive_wildcard (req : Request CreatePayload)
    (w w' : World) (t : Template) :
  createTemplate req w = (Ok t, w') →
  templates w' !! generated_id req = Some t
  ∧ index w' = generated_id req :: index w
  ∧ tpl_active t = None
  ∧ tpl_projects t = array_or_empty (cp_projects (payload req))
  ∧ tpl_assignedProjects t = None
  ∧ tpl_assignedIssueTypes t = None
  ∧ (∀ pk it, match_loop [generated_id req] pk it w' = (Ok None, w'))
  ∧ (∀ other acc, enforce_loop other [generated_id req] acc w' = (Ok acc, w'))
  ∧ (∀ pk it, matches t pk it = true)
  ∧ (∀ l, setsOverlap (of_field (tpl_assignedProjects t)) (Array l) = true).
Proof.
  intros Hrun. unfold createTemplate in Hrun. cbv zeta in Hrun.
  destruct (validateCreatePayload_run (payload req) w) as [Hval|Hval].
  2:{ rewrite (bind_throw _ _ _ _ _ Hval) in Hrun. discriminate Hrun. }
  rewrite (bind_ok _ _ _ _ _ Hval) in Hrun.
  rewrite (bind_ok _ _ _ _ _ (readGlobalConfig_run w)) in Hrun.
  rewrite (bind_ok _ _ _ _ _ (isAdminRequest_run req w)) in Hrun.
  destruct (negb (allowAllUsers (config w))
            && negb (isAdminOf (config w) (context_user req)));
    [discriminate Hrun|].
  unfold bind, nowIso, storage_set, readIndex, writeIndex, ret in Hrun.
  simpl in Hrun. injection Hrun as <- <-.
  assert (Hlook : ∀ tm : gmap string Template, ∀ x,
            <[generated_id req := x]> tm !! generated_id req = Some x)
    by (intros; apply lookup_insert_eq).
  split; [apply Hlook|]. split; [reflexivity|]. split; [reflexivity|].
  split; [reflexivity|]. split; [reflexivity|]. split; [reflexivity|].
  split.
  { intros pk it. unfold match_loop, bind, storage_get; simpl. by rewrite Hlook. }
  split.
  { intros other acc. unfold enforce_loop. case_bool_decide; [reflexivity|].
    unfold bind, storage_get; simpl. by rewrite Hlook. }
  split; [reflexivity|].
  intros l. by destruct l.
Qed.

(** ** The resolvers that enforce keep the invariant *)

Lemma covering_overlap (t o : Template) (pk : string) (it : option string) :
  scopeMatches t pk it → scopeMatches o pk it → scopeOverlap t o.
Proof.
  unfold scopeMatches, scopeOverlap, axisOverlap.
  intros [Hp Hi] [Hp' Hi']. split.
  - destruct Hp as [Hp|Hp]; [by left|]. destruct Hp' as [Hp'|Hp']; [right; by left|].
    right; right. by exists pk.
  - destruct Hi as [Hi|(i & Heq & _ & Hi)]; [by left|].
    destruct Hi' as [Hi'|(i' & Heq' & _ & Hi')]; [right; by left|].
    right; right. exists i. split; [done|]. congruence.
Qed.

Lemma store_then_enforce_unique (id : string) (t2 : Template) (w1 : World)
    (r : result (Template * list string)) (w' : World) :
  tpl_id t2 = id →
  one_active_per_pair w1 →
  keyed_by_id w1 →
  bind (storage_set id t2)
    (λ _, bind (if truthy_flag (tpl_active t2)
                then enforceUniqueActiveTemplates t2 else ret [])
               (λ deactivated, ret (t2, deactivated))) w1 = (r, w') →
  one_active_per_pair w' ∧ keyed_by_id w'.
Proof.
  intros Hself Hinv Hkey. unfold bind at 1, storage_set at 1.
  set (w2 := mkWorld _ _). intros Hrun.
  assert (Hw2 : ∀ id', templates w2 !! id' =
                       if decide (id = id') then Some t2 else templates w1 !! id').
  { intros id'. unfold w2, templates; simpl. apply lookup_insert. }
  assert (Hidx2 : index w2 = index w1) by reflexivity.
  destruct (truthy_flag (tpl_active t2)) eqn:Hact.
  - apply truthy_flag_true in Hact.
    destruct (enforce_enforced t2 w2 Hact) as (d & w3 & Hrun2 & Henf).
    rewrite (bind_ok _ _ _ _ _ Hrun2) in Hrun. injection Hrun as <- <-.
    assert (Hkept : ∀ id' o, id' ≠ id → templates w3 !! id' = Some o → isActive o →
                             templates w1 !! id' = Some o).
    { intros id' o Hne Ho Ha. destruct (decide (id' ∈ d)) as [Hin|Hin].
      - destruct (enf_deactivated _ _ _ _ _ Henf id' Hin) as (o' & n & _ & Ho').
        rewrite Ho in Ho'. injection Ho' as ->.
        by apply deactivate_not_active in Ha.
      - rewrite (enf_others _ _ _ _ _ Henf id' Hin), Hw2 in Ho.
        by rewrite decide_False in Ho. }
    assert (Hself3 : templates w3 !! id = Some t2).
    { rewrite (enf_others _ _ _ _ _ Henf), Hw2; [by rewrite decide_True|].
      intros Hin. apply (enf_exact _ _ _ _ _ Henf) in Hin as [_ [Hne _]].
      by apply Hne. }
    assert (Hclash : ∀ pk it id' o, id' ∈ index w3 → id' ≠ id →
              templates w3 !! id' = Some o →
              candidate t2 pk it → candidate o pk it → False).
    { intros pk it id' o Hin Hne Ho (_ & _ & Hm2) (Hd & Ha & Hm).
      rewrite (enf_index _ _ _ _ _ Henf) in Hin.
      apply (enforced_no_competitor t2 w2 w3 d id' Henf Hin).
      split; [by rewrite Hself|]. exists o. do 3 (split; [done|]).
      by apply (covering_overlap t2 o pk it). }
    split.
    + intros pk it id1 id2 t1 t2' Hin1 Hin2 H1 H2 Hc1 Hc2.
      destruct (decide (id1 = id)) as [->|Hne1], (decide (id2 = id)) as [->|Hne2].
      * reflexivity.
      * rewrite Hself3 in H1. injection H1 as <-.
        by destruct (Hclash pk it id2 t2' Hin2 Hne2 H2 Hc1 Hc2).
      * rewrite Hself3 in H2. injection H2 as <-.
        by destruct (Hclash pk it id1 t1 Hin1 Hne1 H1 Hc2 Hc1).
      * rewrite (enf_index _ _ _ _ _ Henf), Hidx2 in Hin1, Hin2.
        apply (Hinv pk it id1 id2 t1 t2'); try done.
        -- apply Hkept; [done|done|]. by destruct Hc1 as (_ & ? & _).
        -- apply Hkept; [done|done|]. by destruct Hc2 as (_ & ? & _).
    + intros id' o Ho. destruct (decide (id' ∈ d)) as [Hin|Hin].
      * destruct (enf_deactivated _ _ _ _ _ Henf id' Hin) as (o' & n & Ho1 & Ho').
        rewrite Ho in Ho'. injection Ho' as ->. simpl.
        rewrite Hw2 in Ho1. case_decide as Hd; [by simplify_eq|]. by apply Hkey.
      * rewrite (enf_others _ _ _ _ _ Henf id' Hin), Hw2 in Ho.
        case_decide as Hd; [by simplify_eq|]. by apply Hkey.
  - apply truthy_flag_false in Hact. injection Hrun as <- <-. split.
    + intros pk it id1 id2 t1 t2' Hin1 Hin2 H1 H2 Hc1 Hc2.
      rewrite Hw2 in H1, H2.
      destruct (decide (id = id1)) as [Hd1|Hd1];
        [injection H1 as <-; by destruct Hc1 as (_ & ? & _)|].
      destruct (decide (id = id2)) as [Hd2|Hd2];
        [injection H2 as <-; by destruct Hc2 as (_ & ? & _)|].
      by apply (Hinv pk it id1 id2 t1 t2').
    + intros id' o Ho. rewrite Hw2 in Ho.
      case_decide as Hd; [by simplify_eq|]. by apply Hkey.
Qed.

(** Activation, whatever the flag, keeps the invariant. *)
Lemma setTemplateActive_keeps_uniqueness (req : Request ActivePayload)
    (w w' : World) (r : Template * list string) :
  one_active_per_pair w → keyed_by_id w →
  setTemplateActive req w = (Ok r, w') →
  one_active_per_pair w' ∧ keyed_by_id w'.
Proof.
  intros Hinv Hkey Hrun. unfold setTemplateActive in Hrun. cbv zeta in Hrun.
  destruct (truthy_id (sp_id (payload req))); [|discriminate Hrun].
  cbn [negb] in Hrun. set (id := default "" (sp_id (payload req))) in *.
  rewrite (bind_ok _ _ _ _ _ (storage_get_run id w)) in Hrun.
  destruct (templates w !! id) as [t|] eqn:Ho; [|discriminate Hrun].
  destruct (truthy_flag (tpl_deleted t)); [discriminate Hrun|].
  unfold bind at 1, nowIso at 1 in Hrun.
  apply store_then_enforce_unique in Hrun; [exact Hrun| |exact Hinv|exact Hkey].
  simpl. by apply Hkey.
Qed.

(** Both assignment resolvers keep the invariant. *)
Lemma assign_keeps_uniqueness (req : Request AssignPayload)
    (w w' : World) (r : Template * list string) :
  one_active_per_pair w → keyed_by_id w →
  (assignTemplateToProjects req w = (Ok r, w')
   ∨ assignTemplateToIssueTypes req w = (Ok r, w')) →
  one_active_per_pair w' ∧ keyed_by_id w'.
Proof.
  intros Hinv Hkey [Hrun|Hrun].
  - unfold assignTemplateToProjects in Hrun. cbv zeta in Hrun.
    destruct (truthy_id (ap_id (payload req))); [|discriminate Hrun].
    cbn [negb] in Hrun. set (id := default "" (ap_id (payload req))) in *.
    destruct (isArray (ap_projects (payload req))); [|discriminate Hrun].
    cbn [negb] in Hrun.
    rewrite (bind_ok _ _ _ _ _ (storage_get_run id w)) in Hrun.
    destruct (templates w !! id) as [t|] eqn:Ho; [|discriminate Hrun].
    destruct (truthy_flag (tpl_deleted t)); [discriminate Hrun|].
    rewrite (bind_ok _ _ _ _ _ (readGlobalConfig_run w)) in Hrun.
    rewrite (bind_ok _ _ _ _ _ (isAdminRequest_run req w)) in Hrun.
    pose proof (auth_projects_step req w t
                  (array_or_empty (ap_projects (payload req)))) as Hstep.
    destruct (mayAssignProjects req w t _).
    2:{ rewrite (bind_throw _ _ _ _ _ Hstep) in Hrun. discriminate Hrun. }
    rewrite (bind_ok _ _ _ _ _ Hstep) in Hrun.
    unfold bind at 1, nowIso at 1 in Hrun.
    apply store_then_enforce_unique in Hrun; [exact Hrun| |exact Hinv|exact Hkey].
    apply Hkey in Ho. by destruct (ap_issueTypes (payload req)).
  - unfold assignTemplateToIssueTypes in Hrun. cbv zeta in Hrun.
    destruct (truthy_id (ap_id (payload req))); [|discriminate Hrun].
    cbn [negb] in Hrun. set (id := default "" (ap_id (payload req))) in *.
    destruct (isArray (ap_issueTypes (payload req))); [|discriminate Hrun].
    cbn [negb] in Hrun.
    rewrite (bind_ok _ _ _ _ _ (storage_get_run id w)) in Hrun.
    destruct (templates w !! id) as [t|] eqn:Ho; [|discriminate Hrun].
    destruct (truthy_flag (tpl_deleted t)); [discriminate Hrun|].
    rewrite (bind_ok _ _ _ _ _ (readGlobalConfig_run w)) in Hrun.
    rewrite (bind_ok _ _ _ _ _ (isAdminRequest_run req w)) in Hrun.
    pose proof (auth_edit_step (getRequestUser req) w t
                  NotAuthorizedAssignIssueTypes) as Hstep.
    unfold getRequestUser in *.
    destruct (mayEdit w (context_user req) t).
    2:{ rewrite (bind_throw _ _ _ _ _ Hstep) in Hrun. discriminate Hrun. }
    rewrite (bind_ok _ _ _ _ _ Hstep) in Hrun.
    unfold bind at 1, nowIso at 1 in Hrun.
    apply store_then_enforce_unique in Hrun; [exact Hrun| |exact Hinv|exact Hkey].
    apply Hkey in Ho. by destruct (ap_projects (payload req)).
Qed.

(** ** Prefill *)

(** The resolver answers with [computePrefill] of the record that
    [findMatchingTemplate] returns, on the caller's current values. *)
Lemma getPrefillForCreateIssue_run (req : Request PrefillPayload) (w : World) :
  truthy_id (pp_projectKey (payload req)) = true →
  ∃ r, findMatchingTemplate (pp_projectKey (payload req))
         (pp_issueType (payload req)) w = (Ok r, w)
       ∧ getPrefillForCreateIssue req w
         = (Ok ((λ t, computePrefill t (pp_currentSummary (payload req))
                        (pp_currentDescription (payload req))) <$> r), w).
Proof.
  intros Hpk.
  destruct (match_loop_first (default "" (pp_projectKey (payload req)))
              (pp_issueType (payload req)) (index w) w) as (r & Hrun & _).
  assert (Hfind : findMatchingTemplate (pp_projectKey (payload req))
                    (pp_issueType (payload req)) w = (Ok r, w)).
  { unfold findMatchingTemplate. rewrite Hpk. cbn [negb].
    unfold bind, readIndex. fold (index w). by rewrite Hrun. }
  exists r. split; [exact Hfind|].
  unfold getPrefillForCreateIssue. cbv zeta. rewrite Hpk. cbn [negb].
  rewrite (bind_ok _ _ _ _ _ Hfind). by destruct r.
Qed.

(** ** Instances *)

Lemma C2_witness :
  let w := Scenario.activated in
  let req := Scenario.activate "tmpl_b" Scenario.alice in
  "tmpl_b" ≠ ""
  ∧ (∃ t, templates w !! "tmpl_b" = Some t ∧ ¬ isDeleted t ∧ tpl_id t = "tmpl_b")
  ∧ ∃ t' deactivated w',
      setTemplateActive req w = (Ok (t', deactivated), w')
      ∧ ("tmpl_a" ∈ deactivated)
      ∧ ("tmpl_b" ∉ deactivated).
Proof.
  intros w req.
  assert (Ht : ∃ t, templates w !! "tmpl_b" = Some t ∧ ¬ isDeleted t
                    ∧ tpl_id t = "tmpl_b").
  { eexists. split; [vm_compute; reflexivity|]. split; [discriminate|reflexivity]. }
  split; [discriminate|]. split; [exact Ht|].
  destruct Ht as (t & Hlook & Hdel & Hid).
  destruct (C2_setTemplateActive_deactivates_overlapping req w "tmpl_b" t)
    as (d & w' & Hrun & _ & _ & _ & _ & _ & Hself & Hexact & _);
    [reflexivity|discriminate|exact Hlook|exact Hdel|exact Hid|].
  eexists _, d, w'. split; [exact Hrun|]. split; [|exact Hself].
  assert (Hidx : index w = ["tmpl_b"; "tmpl_a"]) by (vm_compute; reflexivity).
  apply Hexact. rewrite Hidx.
  split; [apply list_elem_of_further, list_elem_of_here|].
  split; [rewrite Hid; discriminate|].
  eexists. split; [vm_compute; reflexivity|].
  split; [discriminate|]. split; [reflexivity|].
  apply overlap_test. vm_compute in Hlook. injection Hlook as <-. reflexivity.
Defined.

Lemma C3_witness :
  "PROJ" ≠ ""
  ∧ ∃ r, findMatchingTemplate (Some "PROJ") (Some "Bug") Scenario.activated
         = (Ok r, Scenario.activated)
       ∧ findApplicableTemplate (Scenario.lookup_pair "PROJ" "Bug" Scenario.mallory)
           Scenario.activated = (Ok r, Scenario.activated)
       ∧ first_candidate (templates Scenario.activated) (index Scenario.activated)
           "PROJ" (Some "Bug") r.
Proof.
  split; [discriminate|].
  apply (C3_findMatch_first_in_index_order Scenario.activated "PROJ" (Some "Bug")
           (Scenario.lookup_pair "PROJ" "Bug" Scenario.mallory));
    [discriminate|reflexivity].
Defined.

Lemma C7_witness :
  setsOverlap (Array []) (Array ["PROJ"]) = true
  ∧ (setsOverlap (Array ["X"]) (Array ["Y"]) = true ↔ ∃ x, x ∈ ["X"] ∧ x ∈ ["Y"]).
Proof.
  split.
  - destruct (C7_setsOverlap_symmetric_wildcard [] ["PROJ"]) as (_ & H & _).
    apply H. by left.
  - destruct (C7_setsOverlap_symmetric_wildcard ["X"] ["Y"]) as (_ & _ & H).
    apply H. split; discriminate.
Defined.

Lemma C9_witness :
  let w := Scenario.activated in
  let req := Scenario.assign "tmpl_a" (Array ["PROJ"; "OPS"]) (Array ["Bug"])
               Scenario.alice in
  (∃ t, templates w !! "tmpl_a" = Some t ∧ ¬ isDeleted t
        ∧ mayAssignProjects req w t ["PROJ"; "OPS"] = true)
  ∧ ∃ r w', assignTemplateToProjects req w = (Ok r, w')
      ∧ getTemplateAssignments (Scenario.assignments "tmpl_a" Scenario.mallory) w'
        = (Ok (["PROJ"; "OPS"], ["Bug"]), w').
Proof.
  intros w req.
  assert (Ht : ∃ t, templates w !! "tmpl_a" = Some t ∧ ¬ isDeleted t
                    ∧ mayAssignProjects req w t ["PROJ"; "OPS"] = true).
  { eexists. split; [vm_compute; reflexivity|]. split; [discriminate|].
    vm_compute. reflexivity. }
  split; [exact Ht|]. destruct Ht as (t & Hlook & Hdel & Hauth).
  apply (C9_assign_then_getTemplateAssignments req
           (Scenario.assignments "tmpl_a" Scenario.mallory) w "tmpl_a" t
           ["PROJ"; "OPS"] ["Bug"]);
    [reflexivity|reflexivity|discriminate|exact Hlook|exact Hdel|exact Hauth].
Defined.

Lemma C10_witness :
  ∃ t w', createTemplate Scenario.create_B (createTemplate Scenario.create_A Scenario.start).2
          = (Ok t, w')
    ∧ tpl_active t = None
    ∧ tpl_projects t = ["PROJ"]
    ∧ tpl_assignedProjects t = None
    ∧ matches t "OTHER" None = true.
Proof.
  eexists _, _.
  split; [vm_compute; reflexivity|].
  match goal with
  | |- tpl_active ?t = _ ∧ _ =>
      destruct (C10_createTemplate_inactive_wildcard Scenario.create_B
                  (createTemplate Scenario.create_A Scenario.start).2 Scenario.created t)
        as (_ & _ & Ha & Hp & Hap & _ & _ & _ & Hm & _); [vm_compute; reflexivity|]
  end.
  split; [exact Ha|]. split; [exact Hp|]. split; [exact Hap|]. apply Hm.
Defined.


(** * Further properties of the resolvers *)

(** ** Creation keeps the store well formed *)

Lemma createTemplate_effect (req : Request CreatePayload) (w w' : World)
    (t : Template) :
  createTemplate req w = (Ok t, w') →
  tpl_id t = generated_id req
  ∧ tpl_active t = None
  ∧ index w' = generated_id req :: index w
  ∧ st_config (w_store w') = st_config (w_store w)
  ∧ ∀ id, templates w' !! id
          = if decide (generated_id req = id) then Some t else templates w !! id.
Proof.
  intros Hrun. unfold createTemplate in Hrun. cbv zeta in Hrun.
  destruct (validateCreatePayload_run (payload req) w) as [Hval|Hval].
  2:{ rewrite (bind_throw _ _ _ _ _ Hval) in Hrun. discriminate Hrun. }
  rewrite (bind_ok _ _ _ _ _ Hval) in Hrun.
  rewrite (bind_ok _ _ _ _ _ (readGlobalConfig_run w)) in Hrun.
  rewrite (bind_ok _ _ _ _ _ (isAdminRequest_run req w)) in Hrun.
  destruct (negb (allowAllUsers (config w))
            && negb (isAdminOf (config w) (context_user req)));
    [discriminate Hrun|].
  unfold bind, nowIso, storage_set, readIndex, writeIndex, ret in Hrun.
  simpl in Hrun. injection Hrun as <- <-.
  do 4 (split; [reflexivity|]). intros id. unfold templates; simpl.
  apply lookup_insert.
Qed.

Lemma createTemplate_keeps (req : Request CreatePayload) (w w' : World)
    (t : Template) :
  well_formed w → createTemplate req w = (Ok t, w') → well_formed w'.
Proof.
  intros [Hinv Hkey] Hrun.
  destruct (createTemplate_effect req w w' t Hrun) as (Hid & Hact & Hidx & _ & Hlook).
  assert (Hcand : ∀ id o pk it, templates w' !! id = Some o → candidate o pk it →
                    id ≠ generated_id req ∧ templates w !! id = Some o).
  { intros id o pk it Ho (_ & Ha & _). rewrite Hlook in Ho.
    destruct (decide (generated_id req = id)) as [<-|Hne].
    - injection Ho as <-. unfold isActive in Ha. congruence.
    - split; [congruence|exact Ho]. }
  split.
  - intros pk it id1 id2 t1 t2 Hin1 Hin2 H1 H2 Hc1 Hc2.
    destruct (Hcand id1 t1 pk it H1 Hc1) as [Hne1 H1'].
    destruct (Hcand id2 t2 pk it H2 Hc2) as [Hne2 H2'].
    rewrite Hidx in Hin1, Hin2.
    apply elem_of_cons in Hin1 as [?|Hin1]; [done|].
    apply elem_of_cons in Hin2 as [?|Hin2]; [done|].
    by apply (Hinv pk it id1 id2 t1 t2).
  - intros id o Ho. rewrite Hlook in Ho.
    destruct (decide (generated_id req = id)) as [<-|Hne].
    + by injection Ho as <-.
    + by apply Hkey.
Qed.

Lemma start_well_formed : well_formed Scenario.start.
Proof.
  split.
  - intros pk it id1 id2 t1 t2 Hin1. by apply elem_of_nil in Hin1.
  - intros id t Ho. unfold templates in Ho; simpl in Ho.
    by rewrite lookup_empty in Ho.
Qed.

Lemma created_well_formed : well_formed Scenario.created.
Proof.
  destruct (createTemplate Scenario.create_A Scenario.start) as [r1 w1] eqn:H1.
  assert (Hw1 : well_formed w1).
  { destruct r1 as [t1|e]; [|vm_compute in H1; discriminate H1].
    apply (createTemplate_keeps _ _ _ _ start_well_formed H1). }
  unfold Scenario.created. rewrite H1. simpl.
  destruct (createTemplate Scenario.create_B w1) as [r2 w2] eqn:H2.
  destruct r2 as [t2|e].
  - apply (createTemplate_keeps _ _ _ _ Hw1 H2).
  - exfalso. assert (Hs : succeeded (createTemplate Scenario.create_B
        (createTemplate Scenario.create_A Scenario.start).2) = true)
      by (vm_compute; reflexivity).
    rewrite H1 in Hs. simpl in Hs. rewrite H2 in Hs. discriminate Hs.
Qed.

Lemma activated_well_formed : well_formed Scenario.activated.
Proof.
  unfold Scenario.activated.
  destruct (setTemplateActive (Scenario.activate "tmpl_a" Scenario.alice)
              Scenario.created) as [r w'] eqn:Hrun.
  destruct r as [r|e].
  - destruct created_well_formed as [Hinv Hkey].
    apply (setTemplateActive_keeps_uniqueness _ _ _ _ Hinv Hkey Hrun).
  - vm_compute in Hrun. discriminate Hrun.
Qed.

(** X1. The resolvers that run the enforcement keep the store well formed:
    when no pair is covered by two active, non-deleted records of the index
    and every record is stored under its own id, the same holds after any
    successful [setTemplateActive], [assignTemplateToProjects] or
    [assignTemplateToIssueTypes]. *)
Theorem X1_enforcing_resolvers_keep_well_formed (w w' : World)
    (r : Template * list string) :
  well_formed w →
  ((∃ req, setTemplateActive req w = (Ok r, w'))
   ∨ (∃ req, assignTemplateToProjects req w = (Ok r, w'))
   ∨ (∃ req, assignTemplateToIssueTypes req w = (Ok r, w'))) →
  well_formed w'.
Proof.
  intros [Hinv Hkey] [[req Hrun]|[[req Hrun]|[req Hrun]]].
  - by apply (setTemplateActive_keeps_uniqueness req w w' r).
  - apply (assign_keeps_uniqueness req w w' r Hinv Hkey). by left.
  - apply (assign_keeps_uniqueness req w w' r Hinv Hkey). by right.
Qed.

Lemma X1_witness :
  well_formed Scenario.activated
  ∧ succeeded (setTemplateActive (Scenario.activate "tmpl_b" Scenario.alice)
                 Scenario.activated) = true
  ∧ well_formed (setTemplateActive (Scenario.activate "tmpl_b" Scenario.alice)
                   Scenario.activated).2.
Proof.
  split; [exact activated_well_formed|]. split; [vm_compute; reflexivity|].
  destruct (setTemplateActive (Scenario.activate "tmpl_b" Scenario.alice)
              Scenario.activated) as [[r|e] w'] eqn:Hrun.
  - apply (X1_enforcing_resolvers_keep_well_formed Scenario.activated w' r
             activated_well_formed).
    left. by exists (Scenario.activate "tmpl_b" Scenario.alice).
  - vm_compute in Hrun. discriminate Hrun.
Defined.

(** ** The guards of the writing resolvers *)

(** X2. The four resolvers that check the caller ([updateTemplate],
    [deleteTemplate], [assignTemplateToProjects],
    [assignTemplateToIssueTypes]) throw their authorization error and leave
    the state untouched when the caller is not allowed: not everyone is
    allowed and the caller is neither an administrator nor the owner (nor,
    for project assignment, a project administrator of every target project). *)
Theorem X2_guarded_resolvers_reject_without_writing (w : World) (id : string)
    (t : Template) :
  id ≠ "" →
  templates w !! id = Some t →
  ¬ isDeleted t →
  (∀ req, up_id (payload req) = Some id →
     mayEdit w (context_user req) t = false →
     updateTemplate req w = (Throw NotAuthorizedUpdate, w))
  ∧ (∀ req, dp_id (payload req) = Some id →
       mayEdit w (context_user req) t = false →
       deleteTemplate req w = (Throw NotAuthorizedDelete, w))
  ∧ (∀ req projects second,
       payload req = mkAssignPayload (Some id) (Array projects) second →
       mayAssignProjects req w t projects = false →
       assignTemplateToProjects req w = (Throw NotAuthorizedAssignProjects, w))
  ∧ (∀ req issueTypes second,
       payload req = mkAssignPayload (Some id) second (Array issueTypes) →
       mayEdit w (context_user req) t = false →
       assignTemplateToIssueTypes req w = (Throw NotAuthorizedAssignIssueTypes, w))
  ∧ condition NotAuthorizedUpdate = Authorization
  ∧ condition NotAuthorizedDelete = Authorization
  ∧ condition NotAuthorizedAssignProjects = Authorization
  ∧ condition NotAuthorizedAssignIssueTypes = Authorization.
Proof.
  intros Hid Ho Hdel.
  destruct (guarded_resolvers_reject w id t Hid Ho) as (Hu & Hd & Hp & Hi).
  split; [intros req Hreq Hauth; by apply Hu|].
  split; [exact Hd|].
  split; [intros req projects second Hreq Hauth; by apply (Hp req projects second)|].
  split; [intros req issueTypes second Hreq Hauth;
          by apply (Hi req issueTypes second)|].
  by repeat split.
Qed.

Lemma X2_witness :
  "tmpl_a" ≠ ""
  ∧ (∃ t, templates Scenario.activated !! "tmpl_a" = Some t ∧ ¬ isDeleted t
          ∧ mayEdit Scenario.activated (Some Scenario.mallory) t = false)
  ∧ updateTemplate (Scenario.update_active "tmpl_a" Scenario.mallory) Scenario.activated
    = (Throw NotAuthorizedUpdate, Scenario.activated).
Proof.
  assert (Ht : ∃ t, templates Scenario.activated !! "tmpl_a" = Some t ∧ ¬ isDeleted t
          ∧ mayEdit Scenario.activated (Some Scenario.mallory) t = false).
  { eexists. split; [vm_compute; reflexivity|]. split; [discriminate|].
    vm_compute. reflexivity. }
  split; [discriminate|]. split; [exact Ht|].
  destruct Ht as (t & Ho & Hdel & Hauth).
  destruct (X2_guarded_resolvers_reject_without_writing Scenario.activated "tmpl_a" t)
    as (Hu & _); [discriminate|exact Ho|exact Hdel|].
  apply Hu; [reflexivity|exact Hauth].
Defined.




(** X4. A successful [createTemplate] puts the new id at the head of the
    index, stores the record under it, leaves every other record alone,
    and keeps the store well formed, even when the generated id was
    already in use. *)
Theorem X4_createTemplate_keeps_well_formed (req : Request CreatePayload)
    (w w' : World) (t : Template) :
  well_formed w →
  createTemplate req w = (Ok t, w') →
  well_formed w'
  ∧ index w' = generated_id req :: index w
  ∧ templates w' !! generated_id req = Some t
  ∧ ∀ id, id ≠ generated_id req → templates w' !! id = templates w !! id.
Proof.
  intros Hwf Hrun. split; [by apply (createTemplate_keeps req w w' t)|].
  destruct (createTemplate_effect req w w' t Hrun) as (_ & _ & Hidx & _ & Hlook).
  split; [exact Hidx|]. split.
  - rewrite Hlook. by rewrite decide_True.
  - intros id Hne. rewrite Hlook. by rewrite decide_False.
Qed.

Lemma X4_witness :
  well_formed Scenario.start
  ∧ succeeded (createTemplate Scenario.create_A Scenario.start) = true
  ∧ well_formed (createTemplate Scenario.create_A Scenario.start).2.
Proof.
  split; [exact start_well_formed|]. split; [vm_compute; reflexivity|].
  destruct (createTemplate Scenario.create_A Scenario.start) as [[t|e] w'] eqn:Hrun.
  - apply (X4_createTemplate_keeps_well_formed Scenario.create_A Scenario.start w' t
             start_well_formed Hrun).
  - vm_compute in Hrun. discriminate Hrun.
Defined.

(** ** Deletion *)

(** The world after a hard delete of [id]. *)
Lemma deleteTemplate_run (req : Request DeletePayload) (w : World) (id : string)
    (t : Template) :
  dp_id (payload req) = Some id → id ≠ "" →
  templates w !! id = Some t →
  mayEdit w (context_user req) t = true →
  deleteTemplate req w =
    if truthy_flag (dp_hard (payload req)) then
      (Ok id, mkWorld (mkStore (filter (λ tid, tid ≠ id) (index w))
                               (delete id (templates w))
                               (st_config (w_store w)))
                      (w_clock w))
    else
      (Ok id, stored_at id
                (set_updatedAt (w_clock w) (set_active false (set_deleted true t))) w).
Proof.
  intros Hreq Hid Ho Hauth. apply truthy_string_true in Hid.
  unfold deleteTemplate. rewrite Hreq. cbv zeta. cbn [truthy_id].
  rewrite Hid. cbn [negb]. change (default "" (Some id)) with id.
  rewrite (bind_ok _ _ _ _ _ (storage_get_run id w)), Ho.
  rewrite (bind_ok _ _ _ _ _ (isAdminRequest_run req w)).
  rewrite (bind_ok _ _ _ _ _ (readGlobalConfig_run w)).
  unfold getRequestUser. rewrite edit_guard, Hauth. cbn [negb].
  by destruct (truthy_flag (dp_hard (payload req))).
Qed.

Lemma deleteTemplate_inv (req : Request DeletePayload) (w w' : World) (r : string) :
  deleteTemplate req w = (Ok r, w') →
  ∃ id t, dp_id (payload req) = Some id ∧ id ≠ "" ∧ templates w !! id = Some t
          ∧ mayEdit w (context_user req) t = true.
Proof.
  intros Hrun. unfold deleteTemplate in Hrun. cbv zeta in Hrun.
  destruct (dp_id (payload req)) as [id|] eqn:Hreq; [|discriminate Hrun].
  cbn [truthy_id] in Hrun.
  destruct (truthy_string id) eqn:Hid; [|discriminate Hrun].
  cbn [negb] in Hrun. change (default "" (Some id)) with id in Hrun.
  rewrite (bind_ok _ _ _ _ _ (storage_get_run id w)) in Hrun.
  destruct (templates w !! id) as [t|] eqn:Ho; [|discriminate Hrun].
  rewrite (bind_ok _ _ _ _ _ (isAdminRequest_run req w)) in Hrun.
  rewrite (bind_ok _ _ _ _ _ (readGlobalConfig_run w)) in Hrun.
  unfold getRequestUser in Hrun. rewrite edit_guard in Hrun.
  exists id, t. split; [reflexivity|]. split; [by apply truthy_string_true|].
  split; [exact Ho|].
  destruct (mayEdit w (context_user req) t); [reflexivity|discriminate Hrun].
Qed.

(** X5. A soft delete by a permitted caller marks the stored record deleted
    and inactive and changes nothing else (the index and the other records
    stay).  From then on the record covers no pair for matching, and
    [setTemplateActive] and [getTemplateAssignments] on its id throw the
    NotFound error: a soft-deleted template cannot be reactivated. *)
Theorem X5_soft_delete_hides_the_template (req : Request DeletePayload)
    (w : World) (id : string) (t : Template) :
  dp_id (payload req) = Some id →
  truthy_flag (dp_hard (payload req)) = false →
  id ≠ "" →
  templates w !! id = Some t →
  mayEdit w (context_user req) t = true →
  ∃ w' o,
    deleteTemplate req w = (Ok id, w')
    ∧ index w' = index w
    ∧ templates w' !! id = Some o
    ∧ isDeleted o ∧ ¬ isActive o
    ∧ projectsOf o = projectsOf t ∧ issueTypesOf o = issueTypesOf t
    ∧ (∀ pk it, ¬ candidate o pk it)
    ∧ (∀ id', id' ≠ id → templates w' !! id' = templates w !! id')
    ∧ (∀ sreq, sp_id (payload sreq) = Some id →
         setTemplateActive sreq w' = (Throw TemplateNotFound, w'))
    ∧ (∀ greq, payload greq = Some id →
         getTemplateAssignments greq w' = (Throw TemplateNotFound, w')).
Proof.
  intros Hreq Hsoft Hid Ho Hauth.
  set (o := set_updatedAt (w_clock w) (set_active false (set_deleted true t))).
  exists (stored_at id o w), o.
  assert (Hlook : templates (stored_at id o w) !! id = Some o).
  { unfold templates, stored_at; simpl. by rewrite lookup_insert_eq. }
  assert (Hgone : templates (stored_at id o w) !! id = None
                  ∨ ∃ t', templates (stored_at id o w) !! id = Some t' ∧ isDeleted t').
  { right. by exists o. }
  split; [by rewrite (deleteTemplate_run req w id t Hreq Hid Ho Hauth), Hsoft|].
  split; [reflexivity|]. split; [exact Hlook|].
  split; [reflexivity|]. split; [discriminate|].
  split; [reflexivity|]. split; [reflexivity|].
  split; [intros pk it (Hd & _); by apply Hd|].
  split.
  { intros id' Hne. unfold templates, stored_at; simpl. by rewrite lookup_insert_ne. }
  split.
  - intros sreq Hs. by apply (setTemplateActive_not_found sreq _ id).
  - intros greq Hg. by apply (getTemplateAssignments_not_found greq _ id).
Qed.

Lemma X5_witness :
  let req := Scenario.request (mkDeletePayload (Some "tmpl_a") None) Scenario.alice "" in
  (∃ t, templates Scenario.activated !! "tmpl_a" = Some t
        ∧ mayEdit Scenario.activated (context_user req) t = true)
  ∧ ∃ w', deleteTemplate req Scenario.activated = (Ok "tmpl_a", w')
          ∧ setTemplateActive (Scenario.activate "tmpl_a" Scenario.alice) w'
            = (Throw TemplateNotFound, w').
Proof.
  intros req.
  assert (Ht : ∃ t, templates Scenario.activated !! "tmpl_a" = Some t
        ∧ mayEdit Scenario.activated (context_user req) t = true).
  { eexists. split; vm_compute; reflexivity. }
  split; [exact Ht|]. destruct Ht as (t & Ho & Hauth).
  destruct (X5_soft_delete_hides_the_template req Scenario.activated "tmpl_a" t)
    as (w' & o & Hrun & _ & _ & _ & _ & _ & _ & _ & _ & Hs & _);
    [reflexivity|reflexivity|discriminate|exact Ho|exact Hauth|].
  exists w'. split; [exact Hrun|]. by apply Hs.
Defined.

(** X6. A hard delete by a permitted caller removes the record and every
    occurrence of its id from the index, keeping the other ids in their
    order and the other records as they were; it does not ask whether the
    record was already soft-deleted. *)
Theorem X6_hard_delete_removes_record_and_index_entry
    (req : Request DeletePayload) (w : World) (id : string) (t : Template) :
  dp_id (payload req) = Some id →
  truthy_flag (dp_hard (payload req)) = true →
  id ≠ "" →
  templates w !! id = Some t →
  mayEdit w (context_user req) t = true →
  ∃ w',
    deleteTemplate req w = (Ok id, w')
    ∧ templates w' !! id = None
    ∧ (id ∉ index w')
    ∧ index w' `sublist_of` index w
    ∧ (∀ id', id' ≠ id → (id' ∈ index w' ↔ id' ∈ index w))
    ∧ (∀ id', id' ≠ id → templates w' !! id' = templates w !! id').
Proof.
  intros Hreq Hhard Hid Ho Hauth.
  eexists. split;
    [by rewrite (deleteTemplate_run req w id t Hreq Hid Ho Hauth), Hhard|].
  split; [apply lookup_delete_eq|].
  split; [intros Hin; by apply list_elem_of_filter in Hin as [? _]|].
  split; [apply sublist_filter|].
  split.
  - intros id' Hne. unfold index at 1; simpl. rewrite list_elem_of_filter. tauto.
  - intros id' Hne. unfold templates at 1; simpl. by apply lookup_delete_ne.
Qed.

Lemma X6_witness :
  let req := Scenario.request (mkDeletePayload (Some "tmpl_a") (Some true))
               Scenario.alice "" in
  (∃ t, templates Scenario.activated !! "tmpl_a" = Some t
        ∧ mayEdit Scenario.activated (context_user req) t = true)
  ∧ ∃ w', deleteTemplate req Scenario.activated = (Ok "tmpl_a", w')
          ∧ templates w' !! "tmpl_a" = None
          ∧ ("tmpl_a" ∉ index w').
Proof.
  intros req.
  assert (Ht : ∃ t, templates Scenario.activated !! "tmpl_a" = Some t
        ∧ mayEdit Scenario.activated (context_user req) t = true).
  { eexists. split; vm_compute; reflexivity. }
  split; [exact Ht|]. destruct Ht as (t & Ho & Hauth).
  destruct (X6_hard_delete_removes_record_and_index_entry req Scenario.activated
              "tmpl_a" t) as (w' & Hrun & Hnone & Hnot & _);
    [reflexivity|reflexivity|discriminate|exact Ho|exact Hauth|].
  by exists w'.
Defined.

(** X7. Every successful [deleteTemplate], soft or hard, keeps the store
    well formed. *)
Theorem X7_deleteTemplate_keeps_well_formed (req : Request DeletePayload)
    (w w' : World) (r : string) :
  well_formed w →
  deleteTemplate req w = (Ok r, w') →
  well_formed w'.
Proof.
  intros [Hinv Hkey] Hrun.
  destruct (deleteTemplate_inv req w w' r Hrun) as (id & t & Hreq & Hid & Ho & Hauth).
  rewrite (deleteTemplate_run req w id t Hreq Hid Ho Hauth) in Hrun.
  destruct (truthy_flag (dp_hard (payload req))); injection Hrun as <- <-.
  - split.
    + intros pk it id1 id2 t1 t2 Hin1 Hin2 H1 H2 Hc1 Hc2.
      unfold index in Hin1, Hin2; simpl in Hin1, Hin2.
      apply list_elem_of_filter in Hin1 as [Hne1 Hin1].
      apply list_elem_of_filter in Hin2 as [Hne2 Hin2].
      unfold templates in H1, H2; simpl in H1, H2.
      rewrite lookup_delete_ne in H1 by done.
      rewrite lookup_delete_ne in H2 by done.
      by apply (Hinv pk it id1 id2 t1 t2).
    + intros id' o Ho'. unfold templates in Ho'; simpl in Ho'.
      apply lookup_delete_Some in Ho' as [_ Ho']. by apply Hkey.
  - set (o := set_updatedAt _ _).
    assert (Hlook : ∀ id', templates (stored_at id o w) !! id'
                           = if decide (id = id') then Some o else templates w !! id').
    { intros id'. unfold templates, stored_at; simpl. apply lookup_insert. }
    split.
    + intros pk it id1 id2 t1 t2 Hin1 Hin2 H1 H2 Hc1 Hc2.
      rewrite Hlook in H1, H2.
      destruct (decide (id = id1));
        [injection H1 as <-; destruct Hc1 as (Hd & _); by destruct Hd|].
      destruct (decide (id = id2));
        [injection H2 as <-; destruct Hc2 as (Hd & _); by destruct Hd|].
      by apply (Hinv pk it id1 id2 t1 t2).
    + intros id' o' Ho'. rewrite Hlook in Ho'.
      destruct (decide (id = id')) as [<-|Hne]; [|by apply Hkey].
      injection Ho' as <-. simpl. by apply Hkey.
Qed.

Lemma X7_witness :
  let req := Scenario.request (mkDeletePayload (Some "tmpl_a") None) Scenario.alice "" in
  well_formed Scenario.activated
  ∧ succeeded (deleteTemplate req Scenario.activated) = true
  ∧ well_formed (deleteTemplate req Scenario.activated).2.
Proof.
  intros req. split; [exact activated_well_formed|].
  split; [vm_compute; reflexivity|].
  destruct (deleteTemplate req Scenario.activated) as [[r|e] w'] eqn:Hrun.
  - apply (X7_deleteTemplate_keeps_well_formed req Scenario.activated w' r
             activated_well_formed Hrun).
  - vm_compute in Hrun. discriminate Hrun.
Defined.

(** ** Duplication *)

Lemma duplicateTemplate_run (req : Request DuplicatePayload) (w : World)
    (id : string) (t : Template) :
  du_id (payload req) = Some id → id ≠ "" →
  templates w !! id = Some t → ¬ isDeleted t →
  ∃ clone,
    duplicateTemplate req w
      = (Ok clone,
         mkWorld (mkStore (generated_id req :: index w)
                          (<[generated_id req := clone]> (templates w))
                          (st_config (w_store w)))
                 (S (w_clock w)))
    ∧ tpl_id clone = generated_id req
    ∧ tpl_active clone = tpl_active t
    ∧ tpl_assignedProjects clone = tpl_assignedProjects t
    ∧ tpl_assignedIssueTypes clone = tpl_assignedIssueTypes t
    ∧ tpl_summary clone = tpl_summary t
    ∧ tpl_content clone = tpl_content t
    ∧ tpl_deleted clone = Some false
    ∧ tpl_owner clone = match context_user req with
                        | Some u => Some (accountId u)
                        | None => tpl_owner t
                        end.
Proof.
  intros Hreq Hid Ho Hdel. apply truthy_string_true in Hid.
  apply truthy_flag_false in Hdel.
  unfold duplicateTemplate. rewrite Hreq. cbv zeta. cbn [truthy_id].
  rewrite Hid. cbn [negb]. change (default "" (Some id)) with id.
  rewrite (bind_ok _ _ _ _ _ (storage_get_run id w)), Ho, Hdel.
  eexists. split; [reflexivity|]. by repeat split.
Qed.

(** X8. [duplicateTemplate] asks for no permission: for any caller and any
    existing, non-deleted source it returns, stores the clone under the
    generated id at the head of the index, and leaves every other record
    alone.  The clone carries the source's scope, summary, content and
    [active] flag, is not deleted, and is owned by the caller.  Records
    stay stored under their own ids; if the source is not active the store
    stays well formed. *)
Theorem X8_duplicateTemplate_clone (req : Request DuplicatePayload) (w : World)
    (id : string) (t : Template) :
  du_id (payload req) = Some id →
  id ≠ "" →
  templates w !! id = Some t →
  ¬ isDeleted t →
  ∃ clone w',
    duplicateTemplate req w = (Ok clone, w')
    ∧ index w' = generated_id req :: index w
    ∧ templates w' !! generated_id req = Some clone
    ∧ (∀ id', id' ≠ generated_id req → templates w' !! id' = templates w !! id')
    ∧ tpl_id clone = generated_id req
    ∧ tpl_active clone = tpl_active t
    ∧ projectsOf clone = projectsOf t
    ∧ issueTypesOf clone = issueTypesOf t
    ∧ tpl_summary clone = tpl_summary t
    ∧ tpl_content clone = tpl_content t
    ∧ ¬ isDeleted clone
    ∧ (∀ u, context_user req = Some u → tpl_owner clone = Some (accountId u))
    ∧ (keyed_by_id w → keyed_by_id w')
    ∧ (¬ isActive t → well_formed w → well_formed w').
Proof.
  intros Hreq Hid Ho Hdel.
  destruct (duplicateTemplate_run req w id t Hreq Hid Ho Hdel)
    as (clone & Hrun & Hcid & Hact & Hp & Hi & Hs & Hc & Hd & Hown).
  eexists clone, _. split; [exact Hrun|].
  set (w' := mkWorld _ _).
  assert (Hlook : ∀ id', templates w' !! id'
            = if decide (generated_id req = id') then Some clone
              else templates w !! id').
  { intros id'. unfold w', templates at 1; simpl. apply lookup_insert. }
  assert (Hkeyed : keyed_by_id w → keyed_by_id w').
  { intros Hkey id' o Ho'. rewrite Hlook in Ho'.
    destruct (decide (generated_id req = id')) as [<-|Hne]; [|by apply Hkey].
    by injection Ho' as <-. }
  split; [reflexivity|].
  split; [rewrite Hlook; by rewrite decide_True|].
  split; [intros id' Hne; rewrite Hlook; by rewrite decide_False|].
  split; [exact Hcid|]. split; [exact Hact|].
  split; [unfold projectsOf; by rewrite Hp|].
  split; [unfold issueTypesOf; by rewrite Hi|].
  split; [exact Hs|]. split; [exact Hc|].
  split; [unfold isDeleted; rewrite Hd; discriminate|].
  split; [intros u Hu; by rewrite Hown, Hu|].
  split; [exact Hkeyed|].
  intros Hinactive [Hinv Hkey]. split; [|by apply Hkeyed].
  assert (Hcand : ∀ id' o pk it, templates w' !! id' = Some o → candidate o pk it →
                    id' ≠ generated_id req ∧ templates w !! id' = Some o).
  { intros id' o pk it Ho' (_ & Ha & _). rewrite Hlook in Ho'.
    destruct (decide (generated_id req = id')) as [<-|Hne].
    - injection Ho' as <-. unfold isActive in *. congruence.
    - split; [congruence|exact Ho']. }
  intros pk it id1 id2 t1 t2 Hin1 Hin2 H1 H2 Hc1 Hc2.
  destruct (Hcand id1 t1 pk it H1 Hc1) as [Hne1 H1'].
  destruct (Hcand id2 t2 pk it H2 Hc2) as [Hne2 H2'].
  apply elem_of_cons in Hin1 as [?|Hin1]; [done|].
  apply elem_of_cons in Hin2 as [?|Hin2]; [done|].
  by apply (Hinv pk it id1 id2 t1 t2).
Qed.

Lemma X8_witness :
  (∃ t, templates Scenario.created !! "tmpl_b" = Some t ∧ ¬ isDeleted t)
  ∧ ∃ clone w',
      duplicateTemplate (Scenario.duplicate "tmpl_b" Scenario.mallory "tmpl_c")
        Scenario.created = (Ok clone, w')
      ∧ templates w' !! "tmpl_c" = Some clone
      ∧ tpl_owner clone = Some "mallory".
Proof.
  assert (Ht : ∃ t, templates Scenario.created !! "tmpl_b" = Some t ∧ ¬ isDeleted t).
  { eexists. split; [vm_compute; reflexivity|discriminate]. }
  split; [exact Ht|]. destruct Ht as (t & Ho & Hdel).
  destruct (X8_duplicateTemplate_clone
              (Scenario.duplicate "tmpl_b" Scenario.mallory "tmpl_c")
              Scenario.created "tmpl_b" t)
    as (clone & w' & Hrun & _ & Hlook & _ & _ & _ & _ & _ & _ & _ & _ & Hown & _);
    [reflexivity|discriminate|exact Ho|exact Hdel|].
  exists clone, w'. split; [exact Hrun|]. split; [exact Hlook|].
  by apply (Hown Scenario.mallory).
Defined.

(** X9. Duplicating a template that is active breaks uniqueness: when the
    source is in the index and covers some pair as an active, non-deleted
    record, then after [duplicateTemplate] (with a generated id other than
    the source's) the source and the clone are two active, non-deleted
    records of the index that cover that pair. *)
Theorem X9_duplicating_an_active_template_breaks_uniqueness
    (req : Request DuplicatePayload) (w : World) (id : string) (t : Template)
    (pk : string) (it : option string) :
  du_id (payload req) = Some id →
  id ≠ "" →
  templates w !! id = Some t →
  id ∈ index w →
  generated_id req ≠ id →
  candidate t pk it →
  ∃ clone w',
    duplicateTemplate req w = (Ok clone, w')
    ∧ (id ∈ index w') ∧ (generated_id req ∈ index w')
    ∧ templates w' !! id = Some t
    ∧ templates w' !! generated_id req = Some clone
    ∧ candidate clone pk it
    ∧ ¬ one_active_per_pair w'.
Proof.
  intros Hreq Hid Ho Hin Hne (Hdel & Hact & Hp & Hi).
  destruct (duplicateTemplate_run req w id t Hreq Hid Ho Hdel)
    as (clone & Hrun & Hcid & Hcact & Hcp & Hci & _ & _ & Hcd & _).
  eexists clone, _. split; [exact Hrun|].
  set (w' := mkWorld _ _).
  assert (Hin1 : id ∈ index w') by (apply elem_of_cons; by right).
  assert (Hin2 : generated_id req ∈ index w') by (apply elem_of_cons; by left).
  assert (H1 : templates w' !! id = Some t).
  { unfold w', templates at 1; simpl. by rewrite lookup_insert_ne. }
  assert (H2 : templates w' !! generated_id req = Some clone).
  { unfold w', templates at 1; simpl. by rewrite lookup_insert_eq. }
  assert (Hcc : candidate clone pk it).
  { split; [unfold isDeleted; rewrite Hcd; discriminate|].
    split; [unfold isActive in *; congruence|].
    unfold scopeMatches, projectsOf, issueTypesOf in *. by rewrite Hcp, Hci. }
  do 5 (split; [done|]).
  intros Hinv. apply Hne. symmetry.
  by apply (Hinv pk it id (generated_id req) t clone).
Qed.

Lemma X9_witness :
  (∃ t, templates Scenario.activated !! "tmpl_a" = Some t
        ∧ candidate t "PROJ" (Some "Bug"))
  ∧ ("tmpl_a" ∈ index Scenario.activated)
  ∧ ¬ one_active_per_pair
        (duplicateTemplate (Scenario.duplicate "tmpl_a" Scenario.alice "tmpl_c")
           Scenario.activated).2.
Proof.
  assert (Ht : ∃ t, templates Scenario.activated !! "tmpl_a" = Some t
        ∧ candidate t "PROJ" (Some "Bug")).
  { eexists. split; [vm_compute; reflexivity|].
    apply loop_test_candidate. vm_compute. done. }
  assert (Hin : "tmpl_a" ∈ index Scenario.activated).
  { assert (Hidx : index Scenario.activated = ["tmpl_b"; "tmpl_a"])
      by (vm_compute; reflexivity).
    rewrite Hidx. apply list_elem_of_further, list_elem_of_here. }
  split; [exact Ht|]. split; [exact Hin|]. destruct Ht as (t & Ho & Hc).
  destruct (X9_duplicating_an_active_template_breaks_uniqueness
              (Scenario.duplicate "tmpl_a" Scenario.alice "tmpl_c")
              Scenario.activated "tmpl_a" t "PROJ" (Some "Bug"))
    as (clone & w' & Hrun & _ & _ & _ & _ & _ & Hbroken);
    [reflexivity|discriminate|exact Ho|exact Hin|discriminate|exact Hc|].
  by rewrite Hrun.
Defined.

(** ** Update *)

Lemma updateTemplate_run (req : Request UpdatePayload) (w : World) (id : string)
    (t : Template) :
  up_id (payload req) = Some id → id ≠ "" →
  templates w !! id = Some t → ¬ isDeleted t →
  mayEdit w (context_user req) t = true →
  ∃ m,
    updateTemplate req w = (Ok m, stored_at id m w)
    ∧ tpl_id m = tpl_id t
    ∧ tpl_deleted m = tpl_deleted t
    ∧ tpl_owner m = tpl_owner t
    ∧ tpl_createdAt m = tpl_createdAt t
    ∧ tpl_active m = match up_active (payload req) with
                     | Some b => Some b
                     | None => tpl_active t
                     end
    ∧ tpl_assignedProjects m
      = secondary (up_assignedProjects (payload req)) (tpl_assignedProjects t)
    ∧ tpl_assignedIssueTypes m
      = secondary (up_assignedIssueTypes (payload req)) (tpl_assignedIssueTypes t).
Proof.
  intros Hreq Hid Ho Hdel Hauth. apply truthy_string_true in Hid.
  apply truthy_flag_false in Hdel.
  unfold updateTemplate. rewrite Hreq. cbv zeta. cbn [truthy_id].
  rewrite Hid. cbn [negb]. change (default "" (Some id)) with id.
  rewrite (bind_ok _ _ _ _ _ (storage_get_run id w)), Ho, Hdel.
  rewrite (bind_ok _ _ _ _ _ (readGlobalConfig_run w)).
  rewrite (bind_ok _ _ _ _ _ (isAdminRequest_run req w)).
  unfold getRequestUser. rewrite edit_guard, Hauth. cbn [negb].
  eexists. split; [reflexivity|].
  destruct (up_active (payload req)), (up_assignedProjects (payload req)),
    (up_assignedIssueTypes (payload req)), (up_content (payload req)),
    (up_summary (payload req)), (up_name (payload req)); by repeat split.
Qed.

Lemma updateTemplate_inv (req : Request UpdatePayload) (w w' : World)
    (m : Template) :
  updateTemplate req w = (Ok m, w') →
  ∃ id t, up_id (payload req) = Some id ∧ id ≠ "" ∧ templates w !! id = Some t
          ∧ ¬ isDeleted t ∧ mayEdit w (context_user req) t = true.
Proof.
  intros Hrun. unfold updateTemplate in Hrun. cbv zeta in Hrun.
  destruct (up_id (payload req)) as [id|] eqn:Hreq; [|discriminate Hrun].
  cbn [truthy_id] in Hrun.
  destruct (truthy_string id) eqn:Hid; [|discriminate Hrun].
  cbn [negb] in Hrun. change (default "" (Some id)) with id in Hrun.
  rewrite (bind_ok _ _ _ _ _ (storage_get_run id w)) in Hrun.
  destruct (templates w !! id) as [t|] eqn:Ho; [|discriminate Hrun].
  destruct (truthy_flag (tpl_deleted t)) eqn:Hdel; [discriminate Hrun|].
  rewrite (bind_ok _ _ _ _ _ (readGlobalConfig_run w)) in Hrun.
  rewrite (bind_ok _ _ _ _ _ (isAdminRequest_run req w)) in Hrun.
  unfold getRequestUser in Hrun. rewrite edit_guard in Hrun.
  exists id, t. split; [reflexivity|]. split; [by apply truthy_string_true|].
  split; [exact Ho|]. split; [by apply truthy_flag_false|].
  destruct (mayEdit w (context_user req) t); [reflexivity|discriminate Hrun].
Qed.

(** X10. An [updateTemplate] that supplies neither [active] nor a scope
    (only name, summary or content) keeps the store well formed: the
    record keeps its flag, scope and deletion mark, and no other record is
    written. *)
Theorem X10_text_update_keeps_well_formed (req : Request UpdatePayload)
    (w w' : World) (m : Template) :
  up_active (payload req) = None →
  up_assignedProjects (payload req) = Absent →
  up_assignedIssueTypes (payload req) = Absent →
  well_formed w →
  updateTemplate req w = (Ok m, w') →
  well_formed w'.
Proof.
  intros Hact Hp Hi [Hinv Hkey] Hrun.
  destruct (updateTemplate_inv req w w' m Hrun)
    as (id & t & Hreq & Hid & Ho & Hdel & Hauth).
  destruct (updateTemplate_run req w id t Hreq Hid Ho Hdel Hauth)
    as (m' & Hrun' & Hmid & Hmd & _ & _ & Hma & Hmp & Hmi).
  rewrite Hrun' in Hrun. injection Hrun as <- <-.
  rewrite Hact in Hma. rewrite Hp in Hmp. rewrite Hi in Hmi. simpl in Hmp, Hmi.
  assert (Hlook : ∀ id', templates (stored_at id m' w) !! id'
                         = if decide (id = id') then Some m' else templates w !! id').
  { intros id'. unfold templates, stored_at; simpl. apply lookup_insert. }
  assert (Hcand : ∀ pk it, candidate m' pk it → candidate t pk it).
  { intros pk it. unfold candidate, isDeleted, isActive, scopeMatches,
      projectsOf, issueTypesOf. by rewrite Hmd, Hma, Hmp, Hmi. }
  assert (Hback : ∀ id' o pk it, templates (stored_at id m' w) !! id' = Some o →
            candidate o pk it →
            ∃ o', templates w !! id' = Some o' ∧ candidate o' pk it).
  { intros id' o pk it Ho' Hc. rewrite Hlook in Ho'.
    destruct (decide (id = id')) as [<-|Hne].
    - injection Ho' as <-. exists t. split; [exact Ho|]. by apply Hcand.
    - by exists o. }
  split.
  - intros pk it id1 id2 t1 t2 Hin1 Hin2 H1 H2 Hc1 Hc2.
    destruct (Hback id1 t1 pk it H1 Hc1) as (o1 & Ho1 & Hco1).
    destruct (Hback id2 t2 pk it H2 Hc2) as (o2 & Ho2 & Hco2).
    by apply (Hinv pk it id1 id2 o1 o2).
  - intros id' o Ho'. rewrite Hlook in Ho'.
    destruct (decide (id = id')) as [<-|Hne]; [|by apply Hkey].
    injection Ho' as <-. rewrite Hmid. by apply Hkey.
Qed.

Lemma X10_witness :
  let req := Scenario.request
               (mkUpdatePayload (Some "tmpl_a") (Some (lit " Renamed "))
                  None None Absent Absent None) Scenario.alice "" in
  well_formed Scenario.activated
  ∧ succeeded (updateTemplate req Scenario.activated) = true
  ∧ well_formed (updateTemplate req Scenario.activated).2.
Proof.
  intros req. split; [exact activated_well_formed|].
  split; [vm_compute; reflexivity|].
  destruct (updateTemplate req Scenario.activated) as [[m|e] w'] eqn:Hrun.
  - apply (X10_text_update_keeps_well_formed req Scenario.activated w' m);
      [reflexivity|reflexivity|reflexivity|exact activated_well_formed|exact Hrun].
  - vm_compute in Hrun. discriminate Hrun.
Defined.

(** X11. [updateTemplate] writes a scope without enforcing it: for a
    permitted caller and an existing, non-deleted template, supplying both
    scope arrays stores them (a supplied value that is not an array is
    stored as the empty array), [getTemplateAssignments] then returns
    them, and no other record is touched, whatever overlaps. *)
Theorem X11_update_scope_then_getTemplateAssignments
    (req : Request UpdatePayload) (greq : Request (option string))
    (w : World) (id : string) (t : Template) :
  up_id (payload req) = Some id →
  payload greq = Some id →
  up_assignedProjects (payload req) ≠ Absent →
  up_assignedIssueTypes (payload req) ≠ Absent →
  id ≠ "" →
  templates w !! id = Some t →
  ¬ isDeleted t →
  mayEdit w (context_user req) t = true →
  ∃ m w',
    updateTemplate req w = (Ok m, w')
    ∧ getTemplateAssignments greq w'
      = (Ok (array_or_empty (up_assignedProjects (payload req)),
             array_or_empty (up_assignedIssueTypes (payload req))), w')
    ∧ index w' = index w
    ∧ ∀ id', id' ≠ id → templates w' !! id' = templates w !! id'.
Proof.
  intros Hreq Hgreq Hp Hi Hid Ho Hdel Hauth.
  destruct (updateTemplate_run req w id t Hreq Hid Ho Hdel Hauth)
    as (m & Hrun & _ & Hmd & _ & _ & _ & Hmp & Hmi).
  exists m, (stored_at id m w). split; [exact Hrun|].
  assert (Hlook : templates (stored_at id m w) !! id = Some m).
  { unfold templates, stored_at; simpl. by rewrite lookup_insert_eq. }
  split.
  - rewrite (getTemplateAssignments_run greq _ id m Hgreq Hid Hlook).
    + unfold projectsOf, issueTypesOf. rewrite Hmp, Hmi.
      by destruct (up_assignedProjects (payload req)),
        (up_assignedIssueTypes (payload req)).
    + unfold isDeleted. by rewrite Hmd.
  - split; [reflexivity|]. intros id' Hne.
    unfold templates, stored_at; simpl. by rewrite lookup_insert_ne.
Qed.

Lemma X11_witness :
  let req := Scenario.request
               (mkUpdatePayload (Some "tmpl_b") None None None
                  (Array ["PROJ"]) NotArray None) Scenario.alice "" in
  (∃ t, templates Scenario.activated !! "tmpl_b" = Some t ∧ ¬ isDeleted t
        ∧ mayEdit Scenario.activated (context_user req) t = true)
  ∧ ∃ m w', updateTemplate req Scenario.activated = (Ok m, w')
      ∧ getTemplateAssignments (Scenario.assignments "tmpl_b" Scenario.mallory) w'
        = (Ok (["PROJ"], []), w').
Proof.
  intros req.
  assert (Ht : ∃ t, templates Scenario.activated !! "tmpl_b" = Some t ∧ ¬ isDeleted t
        ∧ mayEdit Scenario.activated (context_user req) t = true).
  { eexists. split; [vm_compute; reflexivity|]. split; [discriminate|].
    vm_compute. reflexivity. }
  split; [exact Ht|]. destruct Ht as (t & Ho & Hdel & Hauth).
  destruct (X11_update_scope_then_getTemplateAssignments req
              (Scenario.assignments "tmpl_b" Scenario.mallory)
              Scenario.activated "tmpl_b" t)
    as (m & w' & Hrun & Hget & _);
    [reflexivity|reflexivity|discriminate|discriminate|discriminate
    |exact Ho|exact Hdel|exact Hauth|].
  by exists m, w'.
Defined.

(** ** Activation and matching together *)

Lemma setTemplateActive_true_run (req : Request ActivePayload) (w : World)
    (id : string) (t : Template) :
  payload req = mkActivePayload (Some id) (Some true) →
  id ≠ "" → templates w !! id = Some t → ¬ isDeleted t →
  ∃ d w',
    setTemplateActive req w
      = (Ok (set_updatedAt (w_clock w) (set_active true t), d), w')
    ∧ enforced (set_updatedAt (w_clock w) (set_active true t)) (index w)
        (stored_at id (set_updatedAt (w_clock w) (set_active true t)) w) w' d.
Proof.
  intros Hreq Hid Ho Hdel.
  set (t' := set_updatedAt (w_clock w) (set_active true t)).
  destruct (enforce_enforced t' (stored_at id t' w)) as (d & w' & Hrun & Henf);
    [reflexivity|].
  exists d, w'. split; [|exact Henf].
  apply truthy_string_true in Hid. apply truthy_flag_false in Hdel.
  unfold templates in Ho.
  unfold setTemplateActive. rewrite Hreq. simpl. rewrite Hid. simpl.
  unfold bind at 1, storage_get at 1. rewrite Ho, Hdel.
  unfold bind, nowIso, storage_set; simpl. fold t'.
  change (mkWorld _ _) with (stored_at id t' w). by rewrite Hrun.
Qed.

(** X12. The template activated last wins: after [setTemplateActive] with
    [active: true] on an existing, non-deleted template of the index,
    [findMatchingTemplate] returns that template for every pair its scope
    matches, wherever it stands in the index. *)
Theorem X12_activated_template_is_the_match (req : Request ActivePayload)
    (w : World) (id : string) (t : Template) (pk : string) (it : option string) :
  payload req = mkActivePayload (Some id) (Some true) →
  id ≠ "" →
  templates w !! id = Some t →
  ¬ isDeleted t →
  tpl_id t = id →
  id ∈ index w →
  pk ≠ "" →
  scopeMatches t pk it →
  ∃ t' d w',
    setTemplateActive req w = (Ok (t', d), w')
    ∧ templates w' !! id = Some t'
    ∧ findMatchingTemplate (Some pk) it w' = (Ok (Some t'), w').
Proof.
  intros Hreq Hid Ho Hdel Hself Hin Hpk Hm.
  destruct (setTemplateActive_true_run req w id t Hreq Hid Ho Hdel)
    as (d & w' & Hrun & Henf).
  set (t' := set_updatedAt (w_clock w) (set_active true t)) in *.
  assert (Hlook : templates w' !! id = Some t').
  { rewrite (enf_others _ _ _ _ _ Henf).
    - unfold templates, stored_at; simpl. by rewrite lookup_insert_eq.
    - intros Hd. apply (enf_exact _ _ _ _ _ Henf) in Hd as [_ [Hne _]].
      by apply Hne. }
  assert (Hc : candidate t' pk it).
  { split; [exact Hdel|]. split; [reflexivity|exact Hm]. }
  exists t', d, w'. split; [exact Hrun|]. split; [exact Hlook|].
  destruct (match_loop_first pk it (index w') w') as (r & Hfind & Hfirst).
  assert (Hr : r = Some t').
  { rewrite (enf_index _ _ _ _ _ Henf) in Hfirst.
    change (index (stored_at id t' w)) with (index w) in Hfirst.
    destruct r as [x|]; simpl in Hfirst.
    - destruct Hfirst as (i & idx & Hi & Hx & Hcx & _).
      destruct (decide (idx = id)) as [->|Hne]; [congruence|]. exfalso.
      apply (enforced_no_competitor t' (stored_at id t' w) w' d idx Henf).
      + apply list_elem_of_lookup. by exists i.
      + split; [by rewrite <- Hself in Hne|]. exists x.
        destruct Hcx as (Hdx & Hax & Hmx). do 3 (split; [done|]).
        by apply (covering_overlap t' x pk it).
    - by destruct (Hfirst id t' Hin Hlook). }
  subst r. apply truthy_string_true in Hpk.
  unfold findMatchingTemplate. cbn [truthy_id]. rewrite Hpk. cbn [negb].
  change (default "" (Some pk)) with pk.
  by rewrite (bind_ok _ _ _ _ _ (eq_refl : readIndex w' = (Ok (index w'), w'))).
Qed.

Lemma X12_witness :
  (∃ t, templates Scenario.activated !! "tmpl_b" = Some t ∧ ¬ isDeleted t
        ∧ tpl_id t = "tmpl_b" ∧ scopeMatches t "PROJ" (Some "Bug"))
  ∧ ("tmpl_b" ∈ index Scenario.activated)
  ∧ ∃ t' d w',
      setTemplateActive (Scenario.activate "tmpl_b" Scenario.alice) Scenario.activated
        = (Ok (t', d), w')
      ∧ findMatchingTemplate (Some "PROJ") (Some "Bug") w' = (Ok (Some t'), w').
Proof.
  assert (Ht : ∃ t, templates Scenario.activated !! "tmpl_b" = Some t ∧ ¬ isDeleted t
        ∧ tpl_id t = "tmpl_b" ∧ scopeMatches t "PROJ" (Some "Bug")).
  { eexists. split; [vm_compute; reflexivity|]. split; [discriminate|].
    split; [reflexivity|]. apply matches_scopeMatches. vm_compute. reflexivity. }
  assert (Hin : "tmpl_b" ∈ index Scenario.activated).
  { assert (Hidx : index Scenario.activated = ["tmpl_b"; "tmpl_a"])
      by (vm_compute; reflexivity).
    rewrite Hidx. apply list_elem_of_here. }
  split; [exact Ht|]. split; [exact Hin|].
  destruct Ht as (t & Ho & Hdel & Hself & Hm).
  destruct (X12_activated_template_is_the_match
              (Scenario.activate "tmpl_b" Scenario.alice) Scenario.activated
              "tmpl_b" t "PROJ" (Some "Bug"))
    as (t' & d & w' & Hrun & _ & Hfind);
    [reflexivity|discriminate|exact Ho|exact Hdel|exact Hself|exact Hin
    |discriminate|exact Hm|].
  by exists t', d, w'.
Defined.

(** X13. Activating the same template twice in a row deactivates nothing
    the second time: the second [setTemplateActive] returns an empty list
    and changes no record but the template's own timestamp. *)
Theorem X13_second_activation_deactivates_nothing (req : Request ActivePayload)
    (w : World) (id : string) (t : Template) :
  payload req = mkActivePayload (Some id) (Some true) →
  id ≠ "" →
  templates w !! id = Some t →
  ¬ isDeleted t →
  tpl_id t = id →
  ∃ t' d w' t'' w'',
    setTemplateActive req w = (Ok (t', d), w')
    ∧ setTemplateActive req w' = (Ok (t'', []), w'')
    ∧ index w'' = index w'
    ∧ ∀ id', id' ≠ id → templates w'' !! id' = templates w' !! id'.
Proof.
  intros Hreq Hid Ho Hdel Hself.
  destruct (setTemplateActive_true_run req w id t Hreq Hid Ho Hdel)
    as (d & w' & Hrun & Henf).
  set (t' := set_updatedAt (w_clock w) (set_active true t)) in *.
  assert (Hlook : templates w' !! id = Some t').
  { rewrite (enf_others _ _ _ _ _ Henf).
    - unfold templates, stored_at; simpl. by rewrite lookup_insert_eq.
    - intros Hd. apply (enf_exact _ _ _ _ _ Henf) in Hd as [_ [Hne _]].
      by apply Hne. }
  destruct (setTemplateActive_true_run req w' id t' Hreq Hid Hlook)
    as (d2 & w'' & Hrun2 & Henf2); [exact Hdel|].
  set (t'' := set_updatedAt (w_clock w') (set_active true t')) in *.
  assert (Hd2 : d2 = []).
  { destruct d2 as [|x d2]; [reflexivity|]. exfalso.
    assert (Hx : x ∈ x :: d2) by apply list_elem_of_here.
    apply (enf_exact _ _ _ _ _ Henf2) in Hx as [Hin Hc].
    rewrite (enf_index _ _ _ _ _ Henf) in Hin.
    apply (enforced_no_competitor t' (stored_at id t' w) w' d x Henf Hin).
    unfold templates at 1, stored_at in Hc; simpl in Hc.
    rewrite <- Hself in Hc.
    apply (proj1 (competitor_insert_self t' t'' _ x eq_refl eq_refl eq_refl)).
    exact Hc. }
  subst d2. exists t', d, w', t'', w''.
  split; [exact Hrun|]. split; [exact Hrun2|].
  split; [apply (enf_index _ _ _ _ _ Henf2)|].
  intros id' Hne. rewrite (enf_others _ _ _ _ _ Henf2); [|apply not_elem_of_nil].
  unfold templates, stored_at; simpl. by rewrite lookup_insert_ne.
Qed.

Lemma X13_witness :
  (∃ t, templates Scenario.activated !! "tmpl_b" = Some t ∧ ¬ isDeleted t
        ∧ tpl_id t = "tmpl_b")
  ∧ ∃ t' d w' t'' w'',
      setTemplateActive (Scenario.activate "tmpl_b" Scenario.alice) Scenario.activated
        = (Ok (t', d), w')
      ∧ setTemplateActive (Scenario.activate "tmpl_b" Scenario.alice) w'
        = (Ok (t'', []), w'').
Proof.
  assert (Ht : ∃ t, templates Scenario.activated !! "tmpl_b" = Some t ∧ ¬ isDeleted t
        ∧ tpl_id t = "tmpl_b").
  { eexists. split; [vm_compute; reflexivity|]. split; [discriminate|reflexivity]. }
  split; [exact Ht|]. destruct Ht as (t & Ho & Hdel & Hself).
  destruct (X13_second_activation_deactivates_nothing
              (Scenario.activate "tmpl_b" Scenario.alice) Scenario.activated
              "tmpl_b" t)
    as (t' & d & w' & t'' & w'' & Hrun & Hrun2 & _);
    [reflexivity|discriminate|exact Ho|exact Hdel|exact Hself|].
  by exists t', d, w', t'', w''.
Defined.

(** X14. Deactivating a template touches nothing else: [setTemplateActive]
    with a false or missing [active] on an existing, non-deleted template
    asks for no permission, returns an empty list, stores the template
    inactive, and leaves the index and every other record as they were
    (a template that this one had displaced stays inactive).  The template
    then covers no pair for matching. *)
Theorem X14_deactivation_touches_nothing_else (req : Request ActivePayload)
    (w : World) (id : string) (t : Template) :
  sp_id (payload req) = Some id →
  truthy_flag (sp_active (payload req)) = false →
  id ≠ "" →
  templates w !! id = Some t →
  ¬ isDeleted t →
  ∃ t' w',
    setTemplateActive req w = (Ok (t', []), w')
    ∧ templates w' !! id = Some t'
    ∧ ¬ isActive t'
    ∧ (∀ pk it, ¬ candidate t' pk it)
    ∧ index w' = index w
    ∧ ∀ id', id' ≠ id → templates w' !! id' = templates w !! id'.
Proof.
  intros Hreq Hflag Hid Ho Hdel.
  set (t' := set_updatedAt (w_clock w) (set_active false t)).
  exists t', (stored_at id t' w). split.
  { apply truthy_string_true in Hid. apply truthy_flag_false in Hdel.
    unfold setTemplateActive. rewrite Hreq, Hflag. cbv zeta. cbn [truthy_id].
    rewrite Hid. cbn [negb]. change (default "" (Some id)) with id.
    rewrite (bind_ok _ _ _ _ _ (storage_get_run id w)), Ho, Hdel.
    reflexivity. }
  split; [unfold templates, stored_at; simpl; by rewrite lookup_insert_eq|].
  split; [discriminate|].
  split; [intros pk it (_ & Ha & _); discriminate Ha|].
  split; [reflexivity|].
  intros id' Hne. unfold templates, stored_at; simpl. by rewrite lookup_insert_ne.
Qed.

Lemma X14_witness :
  let req := Scenario.request (mkActivePayload (Some "tmpl_a") (Some false))
               Scenario.mallory "" in
  (∃ t, templates Scenario.activated !! "tmpl_a" = Some t ∧ ¬ isDeleted t)
  ∧ ∃ t' w', setTemplateActive req Scenario.activated = (Ok (t', []), w')
             ∧ ¬ isActive t'.
Proof.
  intros req.
  assert (Ht : ∃ t, templates Scenario.activated !! "tmpl_a" = Some t ∧ ¬ isDeleted t).
  { eexists. split; [vm_compute; reflexivity|discriminate]. }
  split; [exact Ht|]. destruct Ht as (t & Ho & Hdel).
  destruct (X14_deactivation_touches_nothing_else req Scenario.activated "tmpl_a" t)
    as (t' & w' & Hrun & _ & Ha & _);
    [reflexivity|reflexivity|discriminate|exact Ho|exact Hdel|].
  by exists t', w'.
Defined.

(** ** Prefill and lookup *)

(** X15. [getPrefillForCreateIssue] never throws and never writes.  Without
    a project key it answers null, where [findApplicableTemplate] throws a
    Validation error.  With one, it answers null exactly when the index
    holds no active, non-deleted record matching the pair, and otherwise
    the prefill computed from the first such record, which
    [findApplicableTemplate] returns for the same pair. *)
Theorem X15_prefill_follows_the_first_match (req : Request PrefillPayload)
    (mreq : Request MatchPayload) (w : World) :
  mp_projectKey (payload mreq) = pp_projectKey (payload req) →
  mp_issueType (payload mreq) = pp_issueType (payload req) →
  (truthy_id (pp_projectKey (payload req)) = false →
   getPrefillForCreateIssue req w = (Ok None, w)
   ∧ findApplicableTemplate mreq w = (Throw ProjectKeyRequired, w)
   ∧ condition ProjectKeyRequired = Validation)
  ∧ (truthy_id (pp_projectKey (payload req)) = true →
     ∃ r,
       findApplicableTemplate mreq w = (Ok r, w)
       ∧ getPrefillForCreateIssue req w
         = (Ok ((λ t, computePrefill t (pp_currentSummary (payload req))
                        (pp_currentDescription (payload req))) <$> r), w)
       ∧ first_candidate (templates w) (index w)
           (default "" (pp_projectKey (payload req)))
           (pp_issueType (payload req)) r).
Proof.
  intros Hpk Hit. split.
  - intros Hfalsy. split; [|split; [|reflexivity]].
    + unfold getPrefillForCreateIssue. cbv zeta. by rewrite Hfalsy.
    + unfold findApplicableTemplate. cbv zeta. by rewrite Hpk, Hfalsy.
  - intros Htruthy.
    destruct (getPrefillForCreateIssue_run req w Htruthy) as (r & Hfind & Hrun).
    destruct (match_loop_first (default "" (pp_projectKey (payload req)))
                (pp_issueType (payload req)) (index w) w) as (r' & Hloop & Hfirst).
    assert (Hr : r = r').
    { unfold findMatchingTemplate in Hfind. rewrite Htruthy in Hfind.
      cbn [negb] in Hfind.
      rewrite (bind_ok _ _ _ _ _ (eq_refl : readIndex w = (Ok (index w), w)))
        in Hfind. congruence. }
    subst r'. exists r. split; [|split; [exact Hrun|exact Hfirst]].
    unfold findApplicableTemplate. cbv zeta. rewrite Hpk, Hit, Htruthy.
    cbn [negb].
    by rewrite (bind_ok _ _ _ _ _ (eq_refl : readIndex w = (Ok (index w), w))).
Qed.

Lemma X15_witness :
  let req := Scenario.request
               (mkPrefillPayload (Some "PROJ") (Some "Bug") (Some (lit "  ")) None)
               Scenario.mallory "" in
  truthy_id (pp_projectKey (payload req)) = true
  ∧ ∃ r, findApplicableTemplate (Scenario.lookup_pair "PROJ" "Bug" Scenario.mallory)
           Scenario.activated = (Ok r, Scenario.activated)
       ∧ getPrefillForCreateIssue req Scenario.activated
         = (Ok ((λ t, computePrefill t (Some (lit "  ")) None) <$> r),
            Scenario.activated).
Proof.
  intros req. split; [reflexivity|].
  destruct (X15_prefill_follows_the_first_match req
              (Scenario.lookup_pair "PROJ" "Bug" Scenario.mallory)
              Scenario.activated) as [_ H]; [reflexivity|reflexivity|].
  destruct H as (r & Hfind & Hrun & _); [reflexivity|].
  by exists r.
Defined.

(** ** Assignment to no project *)

(** X16. The project-administrator check of [assignTemplateToProjects] is
    vacuous for an empty list of projects: any caller, even a request with
    no user, may assign the empty list to any existing, non-deleted
    template, which makes its project scope the wildcard. *)
Theorem X16_anyone_may_assign_no_projects (req : Request AssignPayload)
    (w : World) (id : string) (t : Template) (second : arg) :
  payload req = mkAssignPayload (Some id) (Array []) second →
  id ≠ "" →
  templates w !! id = Some t →
  ¬ isDeleted t →
  ∃ r w' o,
    assignTemplateToProjects req w = (Ok r, w')
    ∧ templates w' !! id = Some o
    ∧ tpl_assignedProjects o = Some []
    ∧ ∀ other, axisOverlap (projectsOf o) (projectsOf other).
Proof.
  intros Hreq Hid Ho Hdel.
  destruct (assignTemplateToProjects_run req w id t [] second Hreq Hid Ho Hdel)
    as (r & w' & Hrun & o & Hlook & _ & Hp & _).
  { unfold mayAssignProjects. by rewrite orb_true_r. }
  exists r, w', o. split; [exact Hrun|]. split; [exact Hlook|].
  split; [exact Hp|]. intros other. left. unfold projectsOf. by rewrite Hp.
Qed.

Lemma X16_witness :
  let req := mkRequest (mkAssignPayload (Some "tmpl_a") (Array []) Absent)
               None (λ _, false) "" in
  (∃ t, templates Scenario.activated !! "tmpl_a" = Some t ∧ ¬ isDeleted t
        ∧ mayEdit Scenario.activated (context_user req) t = false)
  ∧ succeeded (assignTemplateToProjects req Scenario.activated) = true.
Proof.
  intros req.
  assert (Ht : ∃ t, templates Scenario.activated !! "tmpl_a" = Some t ∧ ¬ isDeleted t
        ∧ mayEdit Scenario.activated (context_user req) t = false).
  { eexists. split; [vm_compute; reflexivity|]. split; [discriminate|].
    vm_compute. reflexivity. }
  split; [exact Ht|]. destruct Ht as (t & Ho & Hdel & _).
  destruct (X16_anyone_may_assign_no_projects req Scenario.activated "tmpl_a" t Absent)
    as (r & w' & o & Hrun & _); [reflexivity|discriminate|exact Ho|exact Hdel|].
  unfold succeeded. by rewrite Hrun.
Defined.

(** ** Listing *)

Lemma collect_loop_run {B} (select : Template → option B) (idx : list string) :
  ∀ (acc : list B) (w : World),
    collect_loop select idx acc w = (Ok (acc ++ omap select (stored w idx)), w).
Proof.
  induction idx as [|id idx IH]; intros acc w; simpl.
  - by rewrite app_nil_r.
  - rewrite (bind_ok _ _ _ _ _ (storage_get_run id w)).
    unfold stored in *. simpl.
    destruct (templates w !! id) as [t|]; simpl; [|apply IH].
    destruct (select t) as [b|]; [|apply IH].
    rewrite IH. by rewrite <- app_assoc.
Qed.

Lemma omap_Some_id {A} (l : list A) : omap (λ x, Some x) l = l.
Proof.
  induction l as [|x l IH]; [reflexivity|].
  change (x :: omap (λ x, Some x) l = x :: l). by rewrite IH.
Qed.

Lemma stored_app (w : World) (l1 l2 : list string) :
  stored w (l1 ++ l2) = stored w l1 ++ stored w l2.
Proof. unfold stored. apply omap_app. Qed.

(** [slice] between two bounds that are not negative. *)
Lemma slice_nonneg {A} (l : list A) (s e : Z) :
  (0 ≤ s)%Z → (0 ≤ e)%Z →
  slice l s e = take (Z.to_nat e - Z.to_nat s) (drop (Z.to_nat s) l).
Proof.
  intros Hs He. unfold slice.
  destruct (Z.ltb_spec s 0) as [?|_]; [lia|].
  destruct (Z.ltb_spec e 0) as [?|_]; [lia|].
  destruct (decide (Z.to_nat s ≤ length l)%nat) as [Hle|Hgt].
  - replace (Z.to_nat (Z.min s (Z.of_nat (length l)))) with (Z.to_nat s) by lia.
    destruct (decide (Z.to_nat e ≤ length l)%nat) as [Hle2|Hgt2].
    + f_equal. lia.
    + rewrite (take_ge (drop (Z.to_nat s) l) (Z.to_nat e - Z.to_nat s))
        by (rewrite length_drop; lia).
      apply take_ge. rewrite length_drop. lia.
  - replace (Z.to_nat (Z.min s (Z.of_nat (length l)))) with (length l) by lia.
    rewrite !drop_ge by lia. by rewrite !take_nil.
Qed.


(** A page of positive size: [slice] is [take] after [drop]. *)
Lemma slice_page {A} (l : list A) (p L : nat) :
  0 < L →
  slice l (Z.max 0 ((Z.of_nat (S p) - 1) * Z.of_nat L))
          (Z.max 0 ((Z.of_nat (S p) - 1) * Z.of_nat L) + Z.of_nat L)
  = take L (drop (p * L) l).
Proof.
  intros HL. rewrite slice_nonneg by lia.
  replace (Z.to_nat (Z.max 0 ((Z.of_nat (S p) - 1) * Z.of_nat L)))
    with (p * L) by lia.
  f_equal. lia.
Qed.

(** Consecutive pages make up a prefix. *)
Lemma pages_concat {A} (l : list A) (L n : nat) :
  concat ((λ p, take L (drop (p * L) l)) <$> seq 0 n) = take (n * L) l.
Proof.
  induction n as [|n IH].
  - reflexivity.
  - rewrite seq_S, fmap_app, concat_app, IH.
    change (concat ((λ p, take L (drop (p * L) l)) <$> [0 + n]))
      with (take L (drop (n * L) l) ++ []).
    rewrite app_nil_r, take_take_drop. f_equal. lia.
Qed.

Lemma listTemplates_run (req : Request PagePayload) (w : World) :
  listTemplates req w
  = (Ok (mkPage (length (index w))
           (default 1%Z (pg_page (payload req)))
           (default 50%Z (pg_limit (payload req)))
           (stored w
              (slice (index w)
                 (Z.max 0 ((default 1%Z (pg_page (payload req)) - 1)
                           * default 50%Z (pg_limit (payload req))))
                 (Z.max 0 ((default 1%Z (pg_page (payload req)) - 1)
                           * default 50%Z (pg_limit (payload req)))
                  + default 50%Z (pg_limit (payload req)))))), w).
Proof.
  unfold listTemplates. cbv zeta.
  rewrite (bind_ok _ _ _ _ _ (eq_refl : readIndex w = (Ok (index w), w))).
  rewrite (bind_ok _ _ _ _ _ (collect_loop_run _ _ [] w)).
  by rewrite app_nil_l, omap_Some_id.
Qed.

Lemma stored_pages_concat (w : World) (idx : list string) (L n : nat) :
  concat ((λ p, stored w (take L (drop (p * L) idx))) <$> seq 0 n)
  = stored w (take (n * L) idx).
Proof.
  induction n as [|n IH].
  - reflexivity.
  - rewrite seq_S, fmap_app, concat_app, IH.
    change (concat ((λ p, stored w (take L (drop (p * L) idx))) <$> [0 + n]))
      with (stored w (take L (drop (n * L) idx)) ++ []).
    rewrite app_nil_r, <- stored_app, take_take_drop. do 2 f_equal. lia.
Qed.

(** X17. The pages of [listTemplates] partition the index: for a positive
    page size, the pages 1 to n, one after the other, hold the records
    stored under the first n times size ids of the index, in index order
    (soft-deleted records included, ids without a record skipped), so
    enough pages list every record exactly once per index entry; each page
    reports the length of the index as total. *)
Theorem X17_listTemplates_pages_partition_the_index (w : World) (L n : nat)
    (reqs : nat → Request PagePayload) :
  0 < L →
  (∀ p, pg_page (payload (reqs p)) = Some (Z.of_nat p)
        ∧ pg_limit (payload (reqs p)) = Some (Z.of_nat L)) →
  ∃ pages,
    Forall2 (λ p pg, listTemplates (reqs p) w = (Ok pg, w)) (seq 1 n) pages
    ∧ Forall (λ pg, pg_total pg = length (index w)) pages
    ∧ concat (pg_templates <$> pages) = stored w (take (n * L) (index w))
    ∧ ((length (index w) ≤ n * L)%nat →
       concat (pg_templates <$> pages) = stored w (index w)).
Proof.
  intros HL Hreqs.
  set (f := λ p : nat, mkPage (length (index w)) (Z.of_nat (S p)) (Z.of_nat L)
                         (stored w (take L (drop (p * L) (index w))))).
  assert (Hrun : ∀ p, listTemplates (reqs (S p)) w = (Ok (f p), w)).
  { intros p. rewrite listTemplates_run.
    destruct (Hreqs (S p)) as [-> ->]. cbn [default from_option Datatypes.id].
    unfold f. by rewrite (slice_page (index w) p L HL). }
  assert (Hcat : concat (pg_templates <$> (f <$> seq 0 n))
                 = stored w (take (n * L) (index w))).
  { rewrite <- list_fmap_compose. apply stored_pages_concat. }
  exists (f <$> seq 0 n). split; [|split; [|split]].
  - rewrite <- fmap_S_seq. apply Forall2_fmap. apply Forall_Forall2_diag.
    apply Forall_forall. intros p _. apply Hrun.
  - apply Forall_fmap, Forall_forall. by intros p _.
  - exact Hcat.
  - intros Hlen. rewrite Hcat. by rewrite take_ge.
Qed.

Lemma X17_witness :
  let reqs := λ p : nat,
    Scenario.request (mkPagePayload None (Some (Z.of_nat p)) (Some 1%Z))
      Scenario.mallory "" in
  0 < 1
  ∧ ∃ pages,
      Forall2 (λ p pg, listTemplates (reqs p) Scenario.activated
                       = (Ok pg, Scenario.activated)) (seq 1 2) pages
      ∧ concat (pg_templates <$> pages)
        = stored Scenario.activated (index Scenario.activated).
Proof.
  intros reqs. split; [lia|].
  destruct (X17_listTemplates_pages_partition_the_index Scenario.activated 1 2 reqs)
    as (pages & Hruns & _ & _ & Hall); [lia|by intros p|].
  exists pages. split; [exact Hruns|]. apply Hall. vm_compute. lia.
Defined.



Lemma omap_filter {A} (select : A → option A) (P : A → Prop)
    `{∀ x, Decision (P x)} (l : list A) :
  (∀ x, select x = if decide (P x) then Some x else None) →
  omap select l = filter P l.
Proof.
  intros Hsel. induction l as [|x l IH]; [reflexivity|].
  rewrite filter_cons. change (omap select (x :: l))
    with (match select x with Some y => y :: omap select l | None => omap select l end).
  rewrite Hsel, IH. by destruct (decide (P x)).
Qed.

Lemma omap_filter_fmap {A B} (select : A → option B) (f : A → B) (P : A → Prop)
    `{∀ x, Decision (P x)} (l : list A) :
  (∀ x, select x = if decide (P x) then Some (f x) else None) →
  omap select l = f <$> filter P l.
Proof.
  intros Hsel. induction l as [|x l IH]; [reflexivity|].
  rewrite filter_cons. change (omap select (x :: l))
    with (match select x with Some y => y :: omap select l | None => omap select l end).
  rewrite Hsel, IH. by destruct (decide (P x)).
Qed.

Lemma scope_test (ps : list string) (key : string) :
  bool_decide (length ps = 0) || includes ps key = true ↔ ps = [] ∨ key ∈ ps.
Proof.
  by rewrite orb_true_iff, bool_decide_eq_true, length_0_nil, includes_true.
Qed.

Lemma filter_select (key : string) (t : Template) :
  (if truthy_flag (tpl_deleted t) then None
   else if filteredBy key t then Some t else None)
  = if decide (listedFor key t) then Some t else None.
Proof.
  unfold listedFor, filteredBy. rewrite array_or_empty_field. fold (projectsOf t).
  destruct (truthy_flag (tpl_deleted t)) eqn:Hdel.
  { apply truthy_flag_true in Hdel. rewrite decide_False; [reflexivity|].
    intros [Hd _]. by apply Hd. }
  apply truthy_flag_false in Hdel.
  case_bool_decide as Hall.
  - case_bool_decide as Hlen.
    + apply length_0_nil in Hlen. rewrite decide_True; [reflexivity|]. by split; [|left].
    + rewrite decide_False; [reflexivity|]. intros [_ [Hnil|[Hne _]]]; [|done].
      apply Hlen. by rewrite Hnil.
  - destruct (bool_decide (length (projectsOf t) = 0) || includes (projectsOf t) key)
      eqn:Htest.
    + apply scope_test in Htest. rewrite decide_True; [reflexivity|].
      split; [done|]. destruct Htest; [by left|by right].
    + rewrite decide_False; [reflexivity|]. intros [_ Hs].
      assert (Ht : projectsOf t = [] ∨ key ∈ projectsOf t)
        by (destruct Hs as [?|[_ ?]]; [by left|by right]).
      apply scope_test in Ht. congruence.
Qed.

(** X19. [filterTemplatesByProject] with a non-empty key lists the records
    of the index that are not deleted and have no project, and for a key
    other than [__ALL__] also those assigned to the key, in index order.
    It reports their number as total, and for a positive page size the page
    with number p + 1 holds the records from position p times size on, at
    most size of them; it writes nothing. *)
Theorem X19_filterTemplatesByProject_page (req : Request PagePayload)
    (w : World) (key : string) (p L : nat) :
  payload req = mkPagePayload (Some key) (Some (Z.of_nat (S p))) (Some (Z.of_nat L)) →
  key ≠ "" →
  0 < L →
  ∃ pg,
    filterTemplatesByProject req w = (Ok pg, w)
    ∧ pg_total pg = length (filter (listedFor key) (stored w (index w)))
    ∧ pg_templates pg
      = take L (drop (p * L) (filter (listedFor key) (stored w (index w)))).
Proof.
  intros Hreq Hkey HL. apply truthy_string_true in Hkey.
  unfold filterTemplatesByProject. rewrite Hreq. cbv zeta.
  cbn [pg_projectKey pg_page pg_limit truthy_id]. rewrite Hkey. cbn [negb].
  cbn [default from_option Datatypes.id].
  rewrite (bind_ok _ _ _ _ _ (eq_refl : readIndex w = (Ok (index w), w))).
  rewrite (bind_ok _ _ _ _ _ (collect_loop_run _ _ [] w)).
  rewrite app_nil_l.
  rewrite (omap_filter _ (listedFor key) _ (filter_select key)).
  eexists. split; [reflexivity|]. split; [reflexivity|].
  cbn [pg_templates]. by apply slice_page.
Qed.

Lemma X19_witness :
  let req := Scenario.request (mkPagePayload (Some "PROJ") (Some 1%Z) (Some 1%Z))
               Scenario.mallory "" in
  "PROJ" ≠ "" ∧ 0 < 1
  ∧ ∃ pg, filterTemplatesByProject req Scenario.activated = (Ok pg, Scenario.activated)
          ∧ pg_total pg = 2
          ∧ length (pg_templates pg) = 1.
Proof.
  intros req. split; [discriminate|]. split; [lia|].
  destruct (X19_filterTemplatesByProject_page req Scenario.activated "PROJ" 0 1)
    as (pg & Hrun & Htotal & Hpage); [reflexivity|discriminate|lia|].
  exists pg. split; [exact Hrun|]. split.
  - rewrite Htotal. vm_compute. reflexivity.
  - rewrite Hpage. vm_compute. reflexivity.
Defined.

Lemma assigned_select (key : string) (t : Template) :
  (if truthy_flag (tpl_deleted t) then None
   else if assignedTo key t then Some t else None)
  = if decide (assignedFor key t) then Some t else None.
Proof.
  assert (Htest : assignedTo key t = true ↔ projectsOf t = [] ∨ key ∈ projectsOf t).
  { unfold assignedTo, projectsOf.
    destruct (tpl_assignedProjects t) as [ps|]; simpl; [apply scope_test|].
    split; [by left|done]. }
  destruct (truthy_flag (tpl_deleted t)) eqn:Hdel.
  { apply truthy_flag_true in Hdel. rewrite decide_False; [reflexivity|].
    intros [Hd _]. by apply Hd. }
  apply truthy_flag_false in Hdel.
  destruct (assignedTo key t) eqn:Ht.
  - rewrite decide_True; [reflexivity|]. split; [done|]. by apply Htest.
  - rewrite decide_False; [reflexivity|]. intros [_ Hs].
    apply Htest in Hs. congruence.
Qed.

Lemma assigned_item_select (key : string) (t : Template) :
  (if truthy_flag (tpl_deleted t) then None
   else
     let projects := array_or_empty (of_field (tpl_assignedProjects t)) in
     if bool_decide (length projects = 0) || includes projects key
     then Some (mkAssignedItem (tpl_id t) (tpl_name t)
                  (default [] (tpl_assignedIssueTypes t)))
     else None)
  = if decide (assignedFor key t) then Some (item_of t) else None.
Proof.
  cbv zeta. rewrite array_or_empty_field. unfold assignedFor. fold (projectsOf t).
  destruct (truthy_flag (tpl_deleted t)) eqn:Hdel.
  { apply truthy_flag_true in Hdel. rewrite decide_False; [reflexivity|].
    intros [Hd _]. by apply Hd. }
  apply truthy_flag_false in Hdel.
  destruct (bool_decide (length (projectsOf t) = 0) || includes (projectsOf t) key)
    eqn:Htest.
  - apply scope_test in Htest. by rewrite decide_True.
  - rewrite decide_False; [reflexivity|]. intros [_ Hs].
    apply scope_test in Hs. congruence.
Qed.

(** X20. For a non-empty project key, [getTemplatesForProject] lists, in
    index order and without writing, exactly the records of the index that
    are not deleted and have no project or are assigned to the key, active
    or not; [getAssignedTemplatesForProject] of the project settings page
    lists the summaries of the same records; and whatever
    [findApplicableTemplate] returns for the key and any issue type is among
    them. *)
Theorem X20_project_listings_agree_and_hold_the_match
    (req : Request (option string)) (w : World) (key : string) :
  payload req = Some key →
  key ≠ "" →
  getTemplatesForProject req w
    = (Ok (filter (assignedFor key) (stored w (index w))), w)
  ∧ getAssignedTemplatesForProject req w
    = (Ok (item_of <$> filter (assignedFor key) (stored w (index w))), w)
  ∧ ∀ (mreq : Request MatchPayload) r,
      mp_projectKey (payload mreq) = Some key →
      findApplicableTemplate mreq w = (Ok (Some r), w) →
      r ∈ filter (assignedFor key) (stored w (index w)).
Proof.
  intros Hreq Hkey. pose proof Hkey as Hne. apply truthy_string_true in Hkey.
  split; [|split].
  - unfold getTemplatesForProject. rewrite Hreq. cbv zeta. cbn [truthy_id].
    rewrite Hkey. cbn [negb]. cbn [default from_option Datatypes.id].
    rewrite (bind_ok _ _ _ _ _ (eq_refl : readIndex w = (Ok (index w), w))).
    rewrite collect_loop_run, app_nil_l.
    by rewrite (omap_filter _ (assignedFor key) _ (assigned_select key)).
  - unfold getAssignedTemplatesForProject. rewrite Hreq. cbv zeta. cbn [truthy_id].
    rewrite Hkey. cbn [negb]. cbn [default from_option Datatypes.id].
    rewrite (bind_ok _ _ _ _ _ (eq_refl : readIndex w = (Ok (index w), w))).
    rewrite collect_loop_run, app_nil_l.
    by rewrite (omap_filter_fmap _ item_of (assignedFor key) _
                  (assigned_item_select key)).
  - intros mreq r Hpk Hfind.
    destruct (match_loop_first key (mp_issueType (payload mreq)) (index w) w)
      as (r' & Hloop & Hfirst).
    unfold findApplicableTemplate in Hfind. cbv zeta in Hfind.
    rewrite Hpk in Hfind. cbn [truthy_id] in Hfind. rewrite Hkey in Hfind.
    cbn [negb default from_option Datatypes.id] in Hfind.
    rewrite (bind_ok _ _ _ _ _ (eq_refl : readIndex w = (Ok (index w), w)))
      in Hfind.
    rewrite Hloop in Hfind. injection Hfind as ->.
    destruct Hfirst as (i & id & Hi & Hr & (Hdel & _ & Hp & _) & _).
    apply list_elem_of_filter. split; [by split|].
    unfold stored. apply list_elem_of_omap. exists id. split; [|exact Hr].
    apply list_elem_of_lookup. by exists i.
Qed.

Lemma X20_witness :
  "PROJ" ≠ ""
  ∧ ∃ l, getTemplatesForProject (Scenario.assignments "PROJ" Scenario.mallory)
           Scenario.activated = (Ok l, Scenario.activated)
       ∧ length l = 2.
Proof.
  split; [discriminate|].
  destruct (X20_project_listings_agree_and_hold_the_match
              (Scenario.assignments "PROJ" Scenario.mallory) Scenario.activated "PROJ")
    as (Hrun & _); [reflexivity|discriminate|].
  eexists. split; [exact Hrun|]. vm_compute. reflexivity.
Defined.

(** ** Counting by project *)

Lemma count_project_lookup (m : gmap string nat) (p k : string) :
  default 0 (count_project m p !! k)
  = default 0 (m !! k) + (if decide (p = k) then 1 else 0).
Proof.
  unfold count_project. destruct (decide (p = k)) as [->|Hne].
  - by rewrite lookup_insert_eq.
  - rewrite lookup_insert_ne by done. lia.
Qed.

Lemma foldl_count_project (ps : list string) (k : string) :
  ∀ m : gmap string nat,
    default 0 (foldl count_project m ps !! k)
    = default 0 (m !! k) + length (filter (λ p, p = k) ps).
Proof.
  induction ps as [|p ps IH]; intros m; simpl; [lia|].
  rewrite IH, count_project_lookup, filter_cons.
  destruct (decide (p = k)); simpl; lia.
Qed.

Lemma count_project_positive (m : gmap string nat) (p : string) :
  (∀ k, m !! k ≠ Some 0) → ∀ k, count_project m p !! k ≠ Some 0.
Proof.
  intros Hm k. unfold count_project. destruct (decide (p = k)) as [->|Hne].
  - rewrite lookup_insert_eq. intros [=]. lia.
  - by rewrite lookup_insert_ne.
Qed.

Lemma foldl_count_project_positive (ps : list string) :
  ∀ m : gmap string nat,
    (∀ k, m !! k ≠ Some 0) → ∀ k, foldl count_project m ps !! k ≠ Some 0.
Proof.
  induction ps as [|p ps IH]; intros m Hm; simpl; [exact Hm|].
  apply IH. by apply count_project_positive.
Qed.

Lemma count_loop_run (idx : list string) :
  ∀ (m : gmap string nat) (w : World),
    ∃ m', count_loop idx m w = (Ok m', w)
      ∧ (∀ k, default 0 (m' !! k)
              = default 0 (m !! k)
                + sum_list (counts_for k
                              <$> filter (λ t, ¬ isDeleted t) (stored w idx)))
      ∧ ((∀ k, m !! k ≠ Some 0) → ∀ k, m' !! k ≠ Some 0).
Proof.
  induction idx as [|id idx IH]; intros m w.
  - exists m. split; [reflexivity|]. split; [intros k; simpl; lia|done].
  - simpl. rewrite (bind_ok _ _ _ _ _ (storage_get_run id w)).
    unfold stored. simpl. fold (stored w idx).
    destruct (templates w !! id) as [t|]; simpl; [|apply IH].
    rewrite filter_cons.
    destruct (truthy_flag (tpl_deleted t)) eqn:Hdel.
    { apply truthy_flag_true in Hdel. rewrite decide_False by (by intros H; apply H).
      apply IH. }
    apply truthy_flag_false in Hdel. rewrite decide_True by done.
    rewrite array_or_empty_field. fold (projectsOf t).
    case_bool_decide as Hlen.
    + apply length_0_nil in Hlen.
      destruct (IH (count_project m "__ALL__") w) as (m' & Hrun & Hcount & Hpos).
      exists m'. split; [exact Hrun|]. split.
      * intros k. rewrite Hcount, count_project_lookup. simpl.
        unfold counts_for at 2. rewrite Hlen.
        destruct (decide ("__ALL__" = k)), (decide (k = "__ALL__"));
          try congruence; by rewrite <- Nat.add_assoc.
      * intros Hm. apply Hpos. by apply count_project_positive.
    + destruct (IH (foldl count_project m (projectsOf t)) w)
        as (m' & Hrun & Hcount & Hpos).
      exists m'. split; [exact Hrun|]. split.
      * intros k. rewrite Hcount, foldl_count_project. simpl.
        unfold counts_for at 2.
        destruct (projectsOf t) as [|p ps]; [done|]. by rewrite <- Nat.add_assoc.
      * intros Hm. apply Hpos. by apply foldl_count_project_positive.
Qed.

Lemma sum_list_cons (a : nat) (l : list nat) : sum_list (a :: l) = a + sum_list l.
Proof. reflexivity. Qed.

Lemma filter_none {A} (P : A → Prop) `{∀ x, Decision (P x)} (l : list A) :
  (∀ x, x ∈ l → ¬ P x) → filter P l = [].
Proof.
  induction l as [|x l IH]; intros Hno; [reflexivity|].
  rewrite filter_cons, decide_False by (apply Hno, list_elem_of_here).
  apply IH. intros y Hy. apply Hno. by apply list_elem_of_further.
Qed.

Lemma count_all_bucket (l : list Template) :
  (∀ t, t ∈ l → ¬ isDeleted t → "__ALL__" ∉ projectsOf t) →
  sum_list (counts_for "__ALL__" <$> filter (λ t, ¬ isDeleted t) l)
  = length (filter (listedFor "__ALL__") l).
Proof.
  induction l as [|t l IH]; intros Hno; [reflexivity|].
  rewrite !filter_cons.
  assert (IH' : sum_list (counts_for "__ALL__" <$> filter (λ t, ¬ isDeleted t) l)
                = length (filter (listedFor "__ALL__") l)).
  { apply IH. intros t' Hin. apply Hno. by apply list_elem_of_further. }
  destruct (decide (¬ isDeleted t)) as [Hdel|Hdel].
  - rewrite fmap_cons, sum_list_cons, IH'. unfold counts_for.
    destruct (projectsOf t) as [|p ps] eqn:Hps.
    + rewrite decide_True by done.
      rewrite decide_True; [reflexivity|]. split; [exact Hdel|]. left. exact Hps.
    + rewrite decide_False.
      * assert (Hzero : filter (λ q, q = "__ALL__") (p :: ps) = []).
        { apply filter_none.
          intros q Hq ->. apply (Hno t); [apply list_elem_of_here|exact Hdel|].
          by rewrite Hps. }
        by rewrite Hzero.
      * intros [_ [Hnil|[Hne _]]]; [by rewrite Hps in Hnil|done].
  - rewrite decide_False; [exact IH'|]. intros [Hd _]. by apply Hdel.
Qed.

(** X21. [listFilterProjects] counts, over the records of the index that
    are not deleted, one under [__ALL__] for each record without
    projects and one under a project key for each occurrence of the key in
    a record's projects; a key is in the answer only with a positive
    count; nothing is written.  When no listed record names a project
    [__ALL__], the count under [__ALL__] is the total that
    [filterTemplatesByProject] reports for that key. *)
Theorem X21_listFilterProjects_counts (w : World) :
  ∃ m,
    listFilterProjects w = (Ok m, w)
    ∧ (∀ k, default 0 (m !! k) = sum_list (counts_for k <$> visible w))
    ∧ (∀ k, m !! k ≠ Some 0)
    ∧ ((∀ t, t ∈ visible w → "__ALL__" ∉ projectsOf t) →
       ∀ (freq : Request PagePayload) pg,
         pg_projectKey (payload freq) = Some "__ALL__" →
         filterTemplatesByProject freq w = (Ok pg, w) →
         pg_total pg = default 0 (m !! "__ALL__")).
Proof.
  destruct (count_loop_run (index w) ∅ w) as (m & Hrun & Hcount & Hpos).
  exists m. split.
  { unfold listFilterProjects.
    by rewrite (bind_ok _ _ _ _ _ (eq_refl : readIndex w = (Ok (index w), w))). }
  split; [intros k; rewrite Hcount, lookup_empty; reflexivity|].
  split; [apply Hpos; intros k; by rewrite lookup_empty|].
  intros Hno freq pg Hkey Hfilter.
  unfold filterTemplatesByProject in Hfilter. rewrite Hkey in Hfilter.
  cbv zeta in Hfilter. cbn [truthy_id truthy_string negb] in Hfilter.
  cbn [default from_option Datatypes.id] in Hfilter.
  rewrite (bind_ok _ _ _ _ _ (eq_refl : readIndex w = (Ok (index w), w)))
    in Hfilter.
  rewrite (bind_ok _ _ _ _ _ (collect_loop_run _ _ [] w)) in Hfilter.
  rewrite app_nil_l in Hfilter.
  rewrite (omap_filter _ (listedFor "__ALL__") _ (filter_select "__ALL__"))
    in Hfilter.
  injection Hfilter as <-. cbn [pg_total].
  rewrite Hcount, lookup_empty. simpl. symmetry. apply count_all_bucket.
  intros t Hin Hdel. apply Hno. unfold visible. by apply list_elem_of_filter.
Qed.

(** ** Administration *)

Lemma lift_isAdminRequest {P B} (req : Request P) (k : bool → MA B)
    (aw : AdminWorld) :
  bindA (lift (isAdminRequest req)) k aw
  = k (isAdminOf (config (aw_world aw)) (context_user req)) aw.
Proof.
  unfold bindA, lift. rewrite isAdminRequest_run. by destruct aw.
Qed.

Lemma lift_readGlobalConfig {B} (k : Config → MA B) (aw : AdminWorld) :
  bindA (lift readGlobalConfig) k aw = k (config (aw_world aw)) aw.
Proof. unfold bindA, lift. rewrite readGlobalConfig_run. by destruct aw. Qed.

Lemma setGlobalConfig_run (req : Request ConfigPayload)
    (aw : AdminWorld) :
  (isAdminOf (config (aw_world aw)) (context_user req) = false →
   setGlobalConfig req aw = (inl NotAuthorizedGlobalConfig, aw))
  ∧ (isAdminOf (config (aw_world aw)) (context_user req) = true →
     ∃ next aw',
       setGlobalConfig req aw = (inr next, aw')
       ∧ allowAllUsers next
         = default (allowAllUsers (config (aw_world aw)))
             (cf_allowAllUsers (payload req))
       ∧ admins next
         = (if isArray (cf_admins (payload req))
            then array_or_empty (cf_admins (payload req))
            else admins (config (aw_world aw)))
       ∧ config (aw_world aw') = next
       ∧ (∀ (greq : Request unit), getGlobalConfig greq aw' = (inr next, aw'))
       ∧ templates (aw_world aw') = templates (aw_world aw)
       ∧ index (aw_world aw') = index (aw_world aw)
       ∧ aw_projects aw' = aw_projects aw).
Proof.
  split; intros Hadmin.
  - unfold setGlobalConfig. by rewrite lift_isAdminRequest, Hadmin.
  - unfold setGlobalConfig. rewrite lift_isAdminRequest, Hadmin. cbn [negb].
    cbv zeta. rewrite lift_readGlobalConfig.
    eexists _, _. split; [reflexivity|].
    split; [by destruct (cf_allowAllUsers (payload req)),
                 (isArray (cf_admins (payload req)))|].
    split; [by destruct (cf_allowAllUsers (payload req)),
                 (isArray (cf_admins (payload req)))|].
    split; [reflexivity|]. split; [|by repeat split].
    intros greq. unfold getGlobalConfig, lift. by rewrite readGlobalConfig_run.
Qed.


(** X22. [setGlobalConfig] is for administrators only: any other caller
    gets its authorization error and nothing is written.  For an
    administrator it stores the configuration with [allowAllUsers]
    replaced when supplied and [admins] replaced when an array is supplied
    (any other value leaves the list as it was); [getGlobalConfig] then
    returns exactly what was stored, to any caller; templates, index and
    project settings are not touched. *)
Theorem X22_setGlobalConfig_round_trip (req : Request ConfigPayload)
    (aw : AdminWorld) :
  (isAdminOf (config (aw_world aw)) (context_user req) = false →
   setGlobalConfig req aw = (inl NotAuthorizedGlobalConfig, aw))
  ∧ (isAdminOf (config (aw_world aw)) (context_user req) = true →
     ∃ next aw',
       setGlobalConfig req aw = (inr next, aw')
       ∧ allowAllUsers next
         = default (allowAllUsers (config (aw_world aw)))
             (cf_allowAllUsers (payload req))
       ∧ admins next
         = (if isArray (cf_admins (payload req))
            then array_or_empty (cf_admins (payload req))
            else admins (config (aw_world aw)))
       ∧ config (aw_world aw') = next
       ∧ (∀ (greq : Request unit), getGlobalConfig greq aw' = (inr next, aw'))
       ∧ templates (aw_world aw') = templates (aw_world aw)
       ∧ index (aw_world aw') = index (aw_world aw)
       ∧ aw_projects aw' = aw_projects aw).
Proof. apply setGlobalConfig_run. Qed.

Lemma X22_witness :
  let aw := mkAdminWorld Scenario.activated ∅ in
  let req := Scenario.request (mkConfigPayload (Some true) NotArray) Scenario.alice "" in
  isAdminOf (config (aw_world aw)) (context_user req) = true
  ∧ ∃ next aw', setGlobalConfig req aw = (inr next, aw')
      ∧ allowAllUsers next = true ∧ admins next = ["alice"].
Proof.
  intros aw req. split; [vm_compute; reflexivity|].
  destruct (X22_setGlobalConfig_round_trip req aw) as [_ H].
  destruct H as (next & aw' & Hrun & Hall & Hadm & _); [vm_compute; reflexivity|].
  exists next, aw'. split; [exact Hrun|]. split.
  - rewrite Hall. reflexivity.
  - rewrite Hadm. vm_compute. reflexivity.
Defined.



Lemma enabled_of_set (map : gmap string bool) (key : string) (b : bool) :
  includes objectPrototypeKeys key = false →
  enabled_of (set_enabled map key b) key = b
  ∧ ∀ k, k ≠ key → set_enabled map key b !! k = map !! k.
Proof.
  intros Hown. unfold set_enabled.
  assert (Hne : key ≠ "__proto__").
  { intros ->. vm_compute in Hown. discriminate Hown. }
  rewrite bool_decide_false by done. simpl. split.
  - unfold enabled_of. by rewrite lookup_insert_eq.
  - intros k Hk. by rewrite lookup_insert_ne.
Qed.

(** X24. Project settings round trip.  For a project key that is not a
    property name of [Object.prototype]: a project never set uses the
    global templates; what [setProjectEnabled] (administrators only) or
    [setProjectUseGlobalTemplates] (also open when all users are allowed,
    and to the project's administrators) stores for the key is what
    [getProjectConfig] returns afterwards, the other projects keep their
    entries and the templates are untouched; a caller who is not admitted
    gets the authorization error and nothing is written. *)
Theorem X24_project_settings_round_trip (req : Request ProjectPayload)
    (aw : AdminWorld) (key : string) :
  pj_projectKey (payload req) = Some key →
  key ≠ "" →
  includes objectPrototypeKeys key = false →
  let b := truthy_flag (pj_enabled (payload req)) in
  let admin := isAdminOf (config (aw_world aw)) (context_user req) in
  let admitted := allowAllUsers (config (aw_world aw)) || admin
                  || isProjectAdmin req key in
  let written := mkAdminWorld (aw_world aw) (set_enabled (aw_projects aw) key b) in
  (aw_projects aw !! key = None →
   ∀ greq, payload greq = Some key → getProjectConfig greq aw = (inr (key, true), aw))
  ∧ setProjectEnabled req aw
    = (if admin then (inr (key, b), written)
       else (inl NotAuthorizedProjectSettings, aw))
  ∧ setProjectUseGlobalTemplates req aw
    = (if admitted then (inr (key, b), written)
       else (inl NotAuthorizedProjectSettings, aw))
  ∧ (∀ greq, payload greq = Some key →
       getProjectConfig greq written = (inr (key, b), written))
  ∧ (∀ k, k ≠ key → aw_projects written !! k = aw_projects aw !! k).
Proof.
  intros Hreq Hkey Hown b admin admitted written.
  apply truthy_string_true in Hkey.
  assert (Hget : ∀ aw0 greq, payload greq = Some key →
            getProjectConfig greq aw0
            = (inr (key, enabled_of (aw_projects aw0) key), aw0)).
  { intros aw0 greq Hg. unfold getProjectConfig. rewrite Hg. cbv zeta.
    cbn [truthy_id]. by rewrite Hkey. }
  destruct (enabled_of_set (aw_projects aw) key b Hown) as [Hread Hothers].
  split; [|split; [|split; [|split]]].
  - intros Hnone greq Hg. rewrite (Hget aw greq Hg). unfold enabled_of.
    by rewrite Hnone, Hown.
  - unfold setProjectEnabled. rewrite lift_isAdminRequest. fold admin.
    destruct admin; [|reflexivity]. cbn [negb]. cbv zeta. rewrite Hreq.
    cbn [truthy_id]. by rewrite Hkey.
  - unfold setProjectUseGlobalTemplates. cbv zeta. rewrite Hreq.
    cbn [truthy_id]. rewrite Hkey. cbn [negb].
    change (default "" (Some key)) with key.
    rewrite lift_readGlobalConfig, lift_isAdminRequest. fold admin.
    unfold admitted.
    by destruct (allowAllUsers (config (aw_world aw))), admin,
      (isProjectAdmin req key).
  - intros greq Hg. rewrite (Hget written greq Hg). unfold written. simpl.
    by rewrite Hread.
  - exact Hothers.
Qed.

Lemma X24_witness :
  let aw := mkAdminWorld Scenario.activated ∅ in
  let req := Scenario.request (mkProjectPayload (Some "PROJ") (Some false))
               Scenario.alice "" in
  "PROJ" ≠ "" ∧ includes objectPrototypeKeys "PROJ" = false
  ∧ ∃ aw', setProjectEnabled req aw = (inr ("PROJ", false), aw')
      ∧ getProjectConfig (Scenario.assignments "PROJ" Scenario.mallory) aw'
        = (inr ("PROJ", false), aw').
Proof.
  intros aw req. split; [discriminate|]. split; [vm_compute; reflexivity|].
  destruct (X24_project_settings_round_trip req aw "PROJ")
    as (_ & Hset & _ & Hget & _); [reflexivity|discriminate|vm_compute; reflexivity|].
  eexists. split; [exact Hset|]. by apply Hget.
Defined.

(** X25. The project settings are read as properties of a plain object.
    For a key that is a property name of [Object.prototype] (such as
    [constructor]) and has no entry, [getProjectConfig] answers that the
    project does not use the global templates, against the default; and
    for the key [__proto__] without entry, [setProjectEnabled] by an
    administrator returns the flag it was given but stores nothing. *)
Theorem X25_inherited_property_names (aw : AdminWorld) (key : string) :
  key ∈ objectPrototypeKeys →
  aw_projects aw !! key = None →
  (∀ greq, payload greq = Some key →
     getProjectConfig greq aw = (inr (key, false), aw))
  ∧ (key = "__proto__" →
     ∀ req, pj_projectKey (payload req) = Some key →
       isAdminOf (config (aw_world aw)) (context_user req) = true →
       setProjectEnabled req aw
       = (inr (key, truthy_flag (pj_enabled (payload req))), aw)).
Proof.
  intros Hin Hnone.
  assert (Hkey : truthy_string key = true).
  { apply truthy_string_true. intros ->. vm_compute in Hin.
    by repeat (apply elem_of_cons in Hin as [?|Hin]; [discriminate|]);
      apply elem_of_nil in Hin. }
  split.
  - intros greq Hg. unfold getProjectConfig. rewrite Hg. cbv zeta.
    cbn [truthy_id]. rewrite Hkey. cbn [negb].
    change (default "" (Some key)) with key.
    unfold bindA, readProjectSettings, retA, enabled_of. rewrite Hnone.
    apply includes_true in Hin. by rewrite Hin.
  - intros -> req Hreq Hadmin. unfold setProjectEnabled.
    rewrite lift_isAdminRequest, Hadmin. cbn [negb]. cbv zeta. rewrite Hreq.
    cbn [truthy_id truthy_string negb].
    change (default "" (Some "__proto__")) with "__proto__".
    unfold bindA, readProjectSettings, writeProjectSettings, retA, set_enabled.
    rewrite Hnone. simpl. by destruct aw.
Qed.

Lemma X25_witness :
  ("constructor" ∈ objectPrototypeKeys)
  ∧ getProjectConfig (Scenario.assignments "constructor" Scenario.mallory)
      (mkAdminWorld Scenario.activated ∅)
    = (inr ("constructor", false), mkAdminWorld Scenario.activated ∅).
Proof.
  assert (Hin : "constructor" ∈ objectPrototypeKeys) by apply list_elem_of_here.
  split; [exact Hin|].
  destruct (X25_inherited_property_names (mkAdminWorld Scenario.activated ∅)
              "constructor" Hin) as [Hget _]; [apply lookup_empty|].
  by apply Hget.
Defined.

(** ** Reading a soft-deleted template *)

(** X26. A soft-deleted template stays readable in some places and not in
    others: after a soft delete by a permitted caller, [getTemplate]
    still returns the record, now marked deleted, and [listTemplates]
    still lists it when its id is in the index, while [copyTemplateId] and
    [getTemplateDescription] answer that the template is not found and
    [getTemplatesForProject] leaves it out for every project. *)
Theorem X26_soft_deleted_template_visibility (req : Request DeletePayload)
    (greq : Request (option string)) (w : World) (id : string) (t : Template) :
  dp_id (payload req) = Some id →
  truthy_flag (dp_hard (payload req)) = false →
  payload greq = Some id →
  id ≠ "" →
  templates w !! id = Some t →
  mayEdit w (context_user req) t = true →
  ∃ w' o,
    deleteTemplate req w = (Ok id, w')
    ∧ isDeleted o
    ∧ getTemplate greq w' = inr o
    ∧ (id ∈ index w → o ∈ stored w' (index w'))
    ∧ copyTemplateId greq w' = (Throw TemplateNotFound, w')
    ∧ getTemplateDescription greq w' = inl "template not found"
    ∧ (∀ key, o ∉ filter (assignedFor key) (stored w' (index w'))).
Proof.
  intros Hreq Hsoft Hgreq Hid Ho Hauth.
  set (o := set_updatedAt (w_clock w) (set_active false (set_deleted true t))).
  exists (stored_at id o w), o.
  assert (Hlook : templates (stored_at id o w) !! id = Some o).
  { unfold templates, stored_at; simpl. by rewrite lookup_insert_eq. }
  pose proof Hid as Htruthy. apply truthy_string_true in Htruthy.
  split; [by rewrite (deleteTemplate_run req w id t Hreq Hid Ho Hauth), Hsoft|].
  split; [reflexivity|].
  split.
  { unfold getTemplate. rewrite Hgreq. cbv zeta. cbn [truthy_id].
    rewrite Htruthy. cbn [negb]. change (default "" (Some id)) with id.
    unfold templates in Hlook. by rewrite Hlook. }
  split.
  { intros Hin. unfold stored. apply list_elem_of_omap. by exists id. }
  split.
  { unfold copyTemplateId. rewrite Hgreq. cbv zeta. cbn [truthy_id].
    rewrite Htruthy. cbn [negb]. change (default "" (Some id)) with id.
    by rewrite (bind_ok _ _ _ _ _ (storage_get_run id _)), Hlook. }
  split.
  { unfold getTemplateDescription. rewrite Hgreq. cbv zeta. cbn [truthy_id].
    rewrite Htruthy. cbn [negb]. change (default "" (Some id)) with id.
    unfold templates in Hlook. by rewrite Hlook. }
  intros key Hin. apply list_elem_of_filter in Hin as [[Hd _] _]. by apply Hd.
Qed.

Lemma X26_witness :
  let req := Scenario.request (mkDeletePayload (Some "tmpl_a") None) Scenario.alice "" in
  (∃ t, templates Scenario.activated !! "tmpl_a" = Some t
        ∧ mayEdit Scenario.activated (context_user req) t = true)
  ∧ ∃ w' o, deleteTemplate req Scenario.activated = (Ok "tmpl_a", w')
      ∧ getTemplate (Scenario.assignments "tmpl_a" Scenario.mallory) w' = inr o
      ∧ copyTemplateId (Scenario.assignments "tmpl_a" Scenario.mallory) w'
        = (Throw TemplateNotFound, w').
Proof.
  intros req.
  assert (Ht : ∃ t, templates Scenario.activated !! "tmpl_a" = Some t
        ∧ mayEdit Scenario.activated (context_user req) t = true).
  { eexists. split; vm_compute; reflexivity. }
  split; [exact Ht|]. destruct Ht as (t & Ho & Hauth).
  destruct (X26_soft_deleted_template_visibility req
              (Scenario.assignments "tmpl_a" Scenario.mallory)
              Scenario.activated "tmpl_a" t)
    as (w' & o & Hrun & _ & Hget & _ & Hcopy & _);
    [reflexivity|reflexivity|reflexivity|discriminate|exact Ho|exact Hauth|].
  by exists w', o.
Defined.

(** ** Search *)

Lemma search_loop_bound (toLowerCase : text → text) (term : text) (limit : Z)
    (idx : list string) :
  ∀ (acc : list SearchItem) (w : World),
    (acc = [] ∨ (Z.of_nat (length acc) < limit)%Z) →
    ∃ res,
      search_loop toLowerCase term limit idx acc w = (Ok res, w)
      ∧ (Z.of_nat (length res) ≤ Z.max 1 limit)%Z
      ∧ ∀ item, item ∈ res →
          item ∈ acc
          ∨ ∃ id t, id ∈ idx ∧ templates w !! id = Some t ∧ ¬ isDeleted t
              ∧ includes_text (toLowerCase (tpl_name t)) term = true
              ∧ item = mkSearchItem (tpl_id t) (tpl_name t) (tpl_summary t).
Proof.
  induction idx as [|id idx IH]; intros acc w Hacc.
  - exists acc. split; [reflexivity|]. split; [|by left].
    destruct Hacc as [->|Hlt]; simpl; lia.
  - assert (Hskip : ∃ res,
              search_loop toLowerCase term limit idx acc w = (Ok res, w)
              ∧ (Z.of_nat (length res) ≤ Z.max 1 limit)%Z
              ∧ ∀ item, item ∈ res →
                  item ∈ acc
                  ∨ ∃ id0 t, id0 ∈ id :: idx ∧ templates w !! id0 = Some t
                      ∧ ¬ isDeleted t
                      ∧ includes_text (toLowerCase (tpl_name t)) term = true
                      ∧ item = mkSearchItem (tpl_id t) (tpl_name t) (tpl_summary t)).
    { destruct (IH acc w Hacc) as (res & Hrun & Hlen & Hmem).
      exists res. split; [exact Hrun|]. split; [exact Hlen|].
      intros item Hin. destruct (Hmem item Hin) as [?|(id0 & t & ? & ?)]; [by left|].
      right. exists id0, t. split; [by apply list_elem_of_further|done]. }
    simpl. rewrite (bind_ok _ _ _ _ _ (storage_get_run id w)).
    destruct (templates w !! id) as [t|] eqn:Ho; [|exact Hskip].
    destruct (truthy_flag (tpl_deleted t)) eqn:Hdel; [exact Hskip|].
    destruct (includes_text (toLowerCase (tpl_name t)) term) eqn:Hinc;
      [|exact Hskip].
    apply truthy_flag_false in Hdel.
    set (item0 := mkSearchItem (tpl_id t) (tpl_name t) (tpl_summary t)).
    assert (Hnew : ∀ item, item ∈ acc ++ [item0] →
              item ∈ acc
              ∨ ∃ id0 t0, id0 ∈ id :: idx ∧ templates w !! id0 = Some t0
                  ∧ ¬ isDeleted t0
                  ∧ includes_text (toLowerCase (tpl_name t0)) term = true
                  ∧ item = mkSearchItem (tpl_id t0) (tpl_name t0) (tpl_summary t0)).
    { intros item Hin. apply elem_of_app in Hin as [?|Hin]; [by left|].
      apply list_elem_of_singleton in Hin as ->. right. exists id, t.
      split; [apply list_elem_of_here|done]. }
    destruct (Z.leb_spec limit (Z.of_nat (length (acc ++ [item0])))) as [Hfull|Hroom].
    + exists (acc ++ [item0]). split; [reflexivity|]. split; [|exact Hnew].
      rewrite length_app in *. simpl in *.
      destruct Hacc as [->|Hlt]; simpl; lia.
    + destruct (IH (acc ++ [item0]) w (or_intror Hroom)) as (res & Hrun & Hlen & Hmem).
      exists res. split; [exact Hrun|]. split; [exact Hlen|].
      intros item Hin. destruct (Hmem item Hin) as [Ha|(id0 & t0 & ? & ?)].
      * by apply Hnew.
      * right. exists id0, t0. split; [by apply list_elem_of_further|done].
Qed.

(** X27. [searchTemplatesByName], for any lowercasing function, never
    throws and never writes; it returns nothing when the trimmed,
    lowercased query is empty; otherwise every item it returns is the
    summary of a non-deleted record of the index whose lowercased name
    contains the query, and it returns at most [limit] items, or at most
    one when the limit is below 1 (the loop stops only after a push). *)
Theorem X27_searchTemplatesByName_bound (toLowerCase : text → text)
    (req : Request SearchPayload) (w : World) :
  let term := toLowerCase (trim (default [] (sq_q (payload req)))) in
  let limit := default 10%Z (sq_limit (payload req)) in
  ∃ res,
    searchTemplatesByName toLowerCase req w = (Ok res, w)
    ∧ (term = [] → res = [])
    ∧ (Z.of_nat (length res) ≤ Z.max 1 limit)%Z
    ∧ ∀ item, item ∈ res →
        ∃ id t, id ∈ index w ∧ templates w !! id = Some t ∧ ¬ isDeleted t
          ∧ includes_text (toLowerCase (tpl_name t)) term = true
          ∧ item = mkSearchItem (tpl_id t) (tpl_name t) (tpl_summary t).
Proof.
  intros term limit. unfold searchTemplatesByName. cbv zeta.
  fold term. fold limit.
  destruct term as [|c term'] eqn:Hterm.
  - exists []. split; [reflexivity|]. split; [done|]. split; [simpl; lia|].
    intros item Hin. by apply elem_of_nil in Hin.
  - cbn [truthy_text negb].
    rewrite (bind_ok _ _ _ _ _ (eq_refl : readIndex w = (Ok (index w), w))).
    destruct (search_loop_bound toLowerCase (c :: term') limit (index w) [] w)
      as (res & Hrun & Hlen & Hmem); [by left|].
    exists res. split; [exact Hrun|]. split; [discriminate|].
    split; [exact Hlen|]. intros item Hin.
    destruct (Hmem item Hin) as [Hnil|H]; [by apply elem_of_nil in Hnil|exact H].
Qed.
